(** * FamilyNest server: permission, invitation, sharing and batch-update logic

    A shallow embedding of the request handlers of the FamilyNest Flask
    server (src/app/utils.py, api_sharing.py, api_data.py, api_files.py,
    api_trees.py, auth.py, __init__.py), of the two URL helpers of the
    build script (src/fromdist.py), and the properties proved of them.

    - The hosted database is a record of tables: [trees] and
      [tree_invitations] are finite maps keyed by primary key, [persons] is
      a list of rows; the storage bucket is a set of paths; the clock and
      the process-local identifier cache are fields of the same record.
    - Handler code is written in a state-and-exception monad over that
      record; [try_except] is Python's [try]/[except Exception], and an
      exception that leaves a view becomes Flask's 500 response.
    - Request payloads are JSON values with Python's truthiness, equality
      and attribute errors.  Text is held in UTF-8; [strip] removes the
      white space of Unicode, as [str.strip()] does.
    - The services behind the handlers that have no code in the repository
      (the HTML sanitizer, the stored procedure of the batch update, the
      storage calls, the authentication service, the image library) are
      section variables.  In the section of the handlers the body of
      [create_tree] is a variable, and so are those of [delete_tree] and
      [upload_file]; these two are given further down as
      [delete_tree_impl] and [upload_file_impl].
    - The path functions of [os.path] are the POSIX ones.
    - Remote reads on existing rows complete; a read under [single()]
      raises for a missing row.  The stored procedure and the storage calls
      may fail.  [process_invitation_with] takes a fault plan that decides
      which of its writes raise; [process_invitation] is the function when
      they complete, and the writes of the other handlers complete. *)

From Stdlib Require Import ZArith String Ascii List Bool Lia.
From stdpp Require Import base option list gmap strings.

Set Warnings "-register-all,-clear-no-such-hyp".

Open Scope string_scope.
Open Scope Z_scope.

(** ** Python values *)

(** What [request.get_json()] and the database hand to the handlers. *)
Inductive json :=
| JNull
| JBool (b : bool)
| JNum (n : Z)
| JStr (s : string)
| JList (l : list json)
| JDict (d : list (string * json)).

(** [bool(v)] *)
Definition truthy (v : json) : bool :=
  match v with
  | JNull => false
  | JBool b => b
  | JNum n => negb (Z.eqb n 0)
  | JStr s => negb (String.eqb s "")
  | JList l => match l with [] => false | _ => true end
  | JDict d => match d with [] => false | _ => true end
  end.

(** [bool(s)] for a [str] *)
Definition str_truthy (s : string) : bool := negb (String.eqb s "").

(** [x or []] for a nullable array column *)
Definition or_empty {A} (o : option (list A)) : list A :=
  match o with
  | Some l => l
  | None => []
  end.

(** [s.startswith(p)] *)
Definition startswith (s p : string) : bool := String.prefix p s.

Fixpoint assoc (k : string) (d : list (string * json)) : option json :=
  match d with
  | [] => None
  | (k', v) :: d' => if String.eqb k k' then Some v else assoc k d'
  end.

(** ** Exceptions and responses *)

Inductive exn := Exn (msg : string).

Definition str_of_exn (e : exn) : string := let 'Exn m := e in m.

Inductive result (A : Type) :=
| Ok (a : A)
| Raise (e : exn).
Arguments Ok {A} a.
Arguments Raise {A} e.

(** [url_for(endpoint, **values)], kept symbolic, or a literal URL. *)
Inductive location :=
| UrlFor (endpoint : string) (values : list (string * string))
| Url (u : string).

Inductive response :=
| Jsonify (body : list (string * json)) (status : Z)
| Redirect (to : location) (code : Z)
| RenderTemplate (template : string) (message : string) (status : Z)
| SendFile (directory name : string)
| InternalServerError (e : exn).

Definition status_of (r : response) : Z :=
  match r with
  | Jsonify _ s => s
  | Redirect _ c => c
  | RenderTemplate _ _ s => s
  | SendFile _ _ => 200
  | InternalServerError _ => 500
  end.

(** [jsonify({"error": msg, "success": False}), status] *)
Definition json_error (msg : string) (status : Z) : response :=
  Jsonify [("error", JStr msg); ("success", JBool false)] status.

(** ** The hosted database, the storage bucket and the process state *)

Record tree := Tree {
  tree_name : string;
  owner_id : string;
  editor_ids : option (list string);
  viewer_ids : option (list string);
  is_public : bool;
  allow_file_uploads : bool;
  is_demo : bool
}.

Record invitation := Invitation {
  inv_tree_id : string;
  inv_role : string;
  expires_at : Z;
  used_by_users : option (list string);
  usage_limit : option Z
}.

Record person_row := PersonRow {
  person_tree_id : string;
  person_id : Z;
  person_data : json
}.

Record world := World {
  trees : gmap string tree;                  (* table "trees", key id *)
  tree_invitations : gmap string invitation; (* table "tree_invitations", key token *)
  persons : list person_row;                 (* table "persons" *)
  users : gmap string string;                (* auth users: email to id *)
  bucket : gset string;                      (* storage bucket "tree_files" *)
  clock : Z;                                 (* datetime.now(timezone.utc) *)
  new_ids_dict : gmap string Z               (* api_data.new_ids_dict *)
}.

Definition set_trees (f : gmap string tree → gmap string tree) (w : world) : world :=
  World (f (trees w)) (tree_invitations w) (persons w) (users w) (bucket w)
        (clock w) (new_ids_dict w).

Definition set_tree_invitations
    (f : gmap string invitation → gmap string invitation) (w : world) : world :=
  World (trees w) (f (tree_invitations w)) (persons w) (users w) (bucket w)
        (clock w) (new_ids_dict w).

Definition set_persons (f : list person_row → list person_row) (w : world) : world :=
  World (trees w) (tree_invitations w) (f (persons w)) (users w) (bucket w)
        (clock w) (new_ids_dict w).

Definition set_bucket (f : gset string → gset string) (w : world) : world :=
  World (trees w) (tree_invitations w) (persons w) (users w) (f (bucket w))
        (clock w) (new_ids_dict w).

Definition set_clock (t : Z) (w : world) : world :=
  World (trees w) (tree_invitations w) (persons w) (users w) (bucket w)
        t (new_ids_dict w).

Definition set_new_ids_dict (f : gmap string Z → gmap string Z) (w : world) : world :=
  World (trees w) (tree_invitations w) (persons w) (users w) (bucket w)
        (clock w) (f (new_ids_dict w)).

Definition with_editor_ids (l : list string) (t : tree) : tree :=
  Tree (tree_name t) (owner_id t) (Some l) (viewer_ids t)
       (is_public t) (allow_file_uploads t) (is_demo t).

Definition with_viewer_ids (l : list string) (t : tree) : tree :=
  Tree (tree_name t) (owner_id t) (editor_ids t) (Some l)
       (is_public t) (allow_file_uploads t) (is_demo t).

Definition with_used_by_users (l : list string) (i : invitation) : invitation :=
  Invitation (inv_tree_id i) (inv_role i) (expires_at i) (Some l) (usage_limit i).

Definition with_expires_at (t : Z) (i : invitation) : invitation :=
  Invitation (inv_tree_id i) (inv_role i) t (used_by_users i) (usage_limit i).

(** ** Handler code: state over [world], with exceptions *)

Definition M (A : Type) : Type := world → result A * world.

#[global] Instance M_ret : MRet M := λ A a w, (Ok a, w).

#[global] Instance M_bind : MBind M := λ A B f m w,
  match m w with
  | (Ok a, w') => f a w'
  | (Raise e, w') => (Raise e, w')
  end.

Definition pure {A} (a : A) : M A := mret a.

Definition raise {A} (e : exn) : M A := λ w, (Raise e, w).

(** [try: body except Exception as e: handler(e)] *)
Definition try_except {A} (body : M A) (handler : exn → M A) : M A := λ w,
  match body w with
  | (Ok a, w') => (Ok a, w')
  | (Raise e, w') => handler e w'
  end.

Definition gets {A} (f : world → A) : M A := λ w, (Ok (f w), w).

Definition modify (f : world → world) : M unit := λ w, (Ok tt, f w).

(** *** Remote calls *)

(** [supabase.table("trees").select(...).eq("id", tree_id).single().execute().data];
    [single()] raises when no row matches. *)
Definition select_tree_single (tree_id : string) : M tree := λ w,
  match trees w !! tree_id with
  | Some t => (Ok t, w)
  | None => (Raise (Exn "JSON object requested, multiple (or no) rows returned"), w)
  end.

Definition select_invitation_single (token : string) : M invitation := λ w,
  match tree_invitations w !! token with
  | Some i => (Ok i, w)
  | None => (Raise (Exn "JSON object requested, multiple (or no) rows returned"), w)
  end.

(** [supabase.table("trees").update({...}).eq("id", tree_id).execute()],
    when the call completes *)
Definition update_tree (tree_id : string) (f : tree → tree) : M unit :=
  modify (set_trees (alter f tree_id)).

(** The same on the invitations, when the call completes. *)
Definition update_invitation (token : string) (f : invitation → invitation) : M unit :=
  modify (set_tree_invitations (alter f token)).

Definition utcnow : M Z := gets clock.

(** *** Remote writes that may fail

    [update(...).execute()] raises when the service or the network fails.
    Which call fails is not decided by the program: a fault plan says, for
    the table, the key of the row and the state at the call, whether the
    call raises and what.  A call that raises writes nothing. *)
Definition fault_plan : Type := string → string → world → option exn.

(** Every write completes. *)
Definition no_fault : fault_plan := λ _ _ _, None.

Definition update_tree_call (fault : fault_plan) (tree_id : string) (f : tree → tree)
    : M unit := λ w,
  match fault "trees" tree_id w with
  | Some e => (Raise e, w)
  | None => update_tree tree_id f w
  end.

Definition update_invitation_call (fault : fault_plan) (token : string)
    (f : invitation → invitation) : M unit := λ w,
  match fault "tree_invitations" token w with
  | Some e => (Raise e, w)
  | None => update_invitation token f w
  end.

(** ** utils.py *)

Record permissions := Permissions {
  can_edit : bool;
  can_view : bool;
  perm_tree : tree
}.

(** [user_id] is [session.get("user_id")]: absent or a string, and
    [if user_id:] is Python truthiness. *)
Definition get_tree_and_user_permissions
    (tree_id : string) (user_id : option string) : M (option permissions) :=
  try_except
    (tree_data ← select_tree_single tree_id;
     let can_view := is_public tree_data in
     let can_edit := false in
     match user_id with
     | Some user_uuid_str =>
         if str_truthy user_uuid_str then
           let is_owner := bool_decide (owner_id tree_data = user_uuid_str) in
           let is_editor := bool_decide (user_uuid_str ∈ or_empty (editor_ids tree_data)) in
           let is_viewer := bool_decide (user_uuid_str ∈ or_empty (viewer_ids tree_data)) in
           let can_edit := is_owner || is_editor in
           let can_view := can_view || is_owner || is_editor || is_viewer in
           pure (Some (Permissions can_edit can_view tree_data))
         else pure (Some (Permissions can_edit can_view tree_data))
     | None => pure (Some (Permissions can_edit can_view tree_data))
     end)
    (λ _, pure None).

Definition invitation_full (i : invitation) : bool :=
  match usage_limit i with
  | Some limit => bool_decide (limit ≤ Z.of_nat (length (or_empty (used_by_users i))))
  | None => false
  end.

(** [process_invitation], over writes that may raise. *)
Definition process_invitation_with (fault : fault_plan) (token_str user_id_str : string)
    : M (option string) :=
  try_except
    (invitation ← select_invitation_single token_str;
     (* [if not invitation: return None]: a row is never falsy *)
     now ← utcnow;
     if bool_decide (expires_at invitation < now) then pure None else
     let used_by_users := or_empty (used_by_users invitation) in
     if invitation_full invitation then pure None else
     if bool_decide (user_id_str ∈ used_by_users) then
       pure (Some (inv_tree_id invitation))
     else
       let tree_id := inv_tree_id invitation in
       let role := inv_role invitation in
       tree ← select_tree_single tree_id;
       let is_already_member :=
         bool_decide (user_id_str = owner_id tree)
         || bool_decide (user_id_str ∈ or_empty (editor_ids tree))
         || bool_decide (user_id_str ∈ or_empty (viewer_ids tree)) in
       _ ← (if negb is_already_member then
              if String.eqb role "editor" then
                let new_editors := (or_empty (editor_ids tree) ++ [user_id_str])%list in
                update_tree_call fault tree_id (with_editor_ids new_editors)
              else if String.eqb role "viewer" then
                let new_viewers := (or_empty (viewer_ids tree) ++ [user_id_str])%list in
                update_tree_call fault tree_id (with_viewer_ids new_viewers)
              else pure tt
            else pure tt);
       let updated_used_by_list := (used_by_users ++ [user_id_str])%list in
       _ ← update_invitation_call fault token_str
             (with_used_by_users updated_used_by_list);
       pure (Some tree_id))
    (λ _, pure None).

(** [process_invitation] when its writes complete. *)
Definition process_invitation (token_str user_id_str : string) : M (option string) :=
  process_invitation_with no_fault token_str user_id_str.

(** ** Requests, configuration and decorators *)

Record request := Request {
  req_method : string;
  req_path : string;
  session : gmap string string;
  (* whether flask_wtf's token validation accepts what the request carries *)
  csrf_token_valid : bool;
  (* request.get_json() *)
  get_json : json
}.

Definition view := request → M response.

(** What Flask answers for a view: an exception that leaves the view is a
    500 response. *)
Definition dispatch (v : view) (req : request) (w : world) : response * world :=
  match v req w with
  | (Ok r, w') => (r, w')
  | (Raise e, w') => (InternalServerError e, w')
  end.

Record config := Config {
  WTF_CSRF_METHODS : list string;
  WTF_CSRF_ENABLED : bool
}.

(** __init__.py, [create_app]: the values left in [app.config] *)
Definition app_config : config :=
  Config ["POST"; "PUT"; "PATCH"; "DELETE"; "GET"] false.

(** [csrf.protect()] of flask_wtf's [CSRFProtect]: returns at once for a
    method outside [WTF_CSRF_METHODS], raises when the token does not
    validate.  [WTF_CSRF_ENABLED] is read by the extension's
    before-request hook and by its forms, not by [protect]. *)
Definition csrf_protect (cfg : config) (req : request) : M unit :=
  if bool_decide (req_method req ∈ WTF_CSRF_METHODS cfg) then
    if csrf_token_valid req then pure tt
    else raise (Exn "The CSRF token is missing.")
  else pure tt.

Definition login_required (f : view) : view := λ req,
  if bool_decide (session req !! "user_id" = None) then
    if startswith (req_path req) "/api/" then
      pure (json_error "Authentication required" 401)
    else pure (Redirect (UrlFor "auth.login" []) 302)
  else f req.

Definition csrf_protect_api (f : view) : view := λ req,
  blocked ← try_except
    (_ ← csrf_protect app_config req; pure None)
    (λ _, pure (Some (json_error "CSRF token missing or incorrect" 403)));
  match blocked with
  | Some resp => pure resp
  | None => f req
  end.

(** [no_cache] builds a response object with the cache headers and then
    returns the view's own return value; headers are not part of
    [response]. *)
Definition no_cache (f : view) : view := λ req, resp ← f req; pure resp.

(** ** Dynamic operations on request payloads *)

(** [v.get(k)] *)
Definition py_get (v : json) (k : string) : M json :=
  match v with
  | JDict d => pure (default JNull (assoc k d))
  | _ => raise (Exn "AttributeError: object has no attribute 'get'")
  end.

(** [v.get(k, dflt)] *)
Definition py_get_default (v : json) (k : string) (dflt : json) : M json :=
  match v with
  | JDict d => pure (default dflt (assoc k d))
  | _ => raise (Exn "AttributeError: object has no attribute 'get'")
  end.

(** [v == s] for a payload value against an identifier *)
Definition json_eq_str (v : json) (s : string) : bool :=
  match v with
  | JStr s' => bool_decide (s' = s)
  | _ => false
  end.

(** [v == session.get("user_id")] *)
Definition json_eq_opt (v : json) (o : option string) : bool :=
  match o with
  | Some s => json_eq_str v s
  | None => match v with JNull => true | _ => false end
  end.

(** [l.remove(x)]: drops the first occurrence *)
Fixpoint py_remove (x : string) (l : list string) : list string :=
  match l with
  | [] => []
  | y :: l' => if bool_decide (y = x) then l' else y :: py_remove x l'
  end.

(** ** api_sharing.py

    The messages that interpolate a request value (the e-mail address, the
    role) are given without it. *)

(** The owner check shared by the sharing handlers:
    [try: tree_data = ...single().execute().data;
          if tree_data.get("owner_id") != owner_id: return 403
     except Exception: return 404] *)
Definition fetch_owned_tree (tree_id_str : string) (owner_id_ : option string)
    (denied : string) (missing : string) : M (response + tree) :=
  try_except
    (tree_data ← select_tree_single tree_id_str;
     if negb (bool_decide (Some (owner_id tree_data) = owner_id_)) then
       pure (inl (json_error denied 403))
     else pure (inr tree_data))
    (λ _, pure (inl (json_error missing 404))).

(** [supabase.rpc("get_user_id_by_email", {"email": email}).execute().data[0].get("id")] *)
Definition get_user_id_by_email (email : json) : M string := λ w,
  match email with
  | JStr e =>
      match users w !! e with
      | Some id => (Ok id, w)
      | None => (Raise (Exn "IndexError: list index out of range"), w)
      end
  | _ => (Raise (Exn "rpc error"), w)
  end.

Definition share_tree_body (tree_id : string) : view := λ req,
  let owner_id_ := session req !! "user_id" in
  let tree_id_str := tree_id in
  let data := get_json req in
  email_to_add ← py_get data "email";
  role ← py_get data "role";
  if negb (truthy email_to_add) || negb (truthy role) then
    pure (json_error "Email and role are required." 400)
  else if negb (json_eq_str role "editor" || json_eq_str role "viewer") then
    pure (json_error "Invalid role. Must be 'editor' or 'viewer'." 400)
  else
  checked ← fetch_owned_tree tree_id_str owner_id_
    "Permission denied. Only the owner can share this tree." "Tree not found.";
  match checked with
  | inl resp => pure resp
  | inr tree_data =>
  found ← try_except
    (id ← get_user_id_by_email email_to_add; pure (inr id))
    (λ _, pure (inl (json_error "User with this email was not found." 404)));
  match found with
  | inl resp => pure resp
  | inr user_to_add_id =>
  let editor_ids_ := or_empty (editor_ids tree_data) in
  let viewer_ids_ := or_empty (viewer_ids tree_data) in
  if bool_decide (Some user_to_add_id = owner_id_)
     || bool_decide (user_to_add_id ∈ editor_ids_)
     || bool_decide (user_to_add_id ∈ viewer_ids_) then
    pure (json_error "This user already has access to this tree." 409)
  else
  _ ← (if json_eq_str role "editor" then
         update_tree tree_id_str (with_editor_ids (editor_ids_ ++ [user_to_add_id])%list)
       else if json_eq_str role "viewer" then
         update_tree tree_id_str (with_viewer_ids (viewer_ids_ ++ [user_to_add_id])%list)
       else pure tt);
  pure (Jsonify [("success", JBool true); ("message", JStr "User added.")] 200)
  end end.

Definition revoke_tree_access_body (tree_id : string) : view := λ req,
  let owner_id_ := session req !! "user_id" in
  let tree_id_str := tree_id in
  let data := get_json req in
  user_id_to_revoke ← py_get data "user_id_to_revoke";
  if negb (truthy user_id_to_revoke) then
    pure (json_error "The ID of the user to revoke is required." 400)
  else
  checked ← fetch_owned_tree tree_id_str owner_id_
    "Permission denied. Only the owner can revoke access." "Tree not found.";
  match checked with
  | inl resp => pure resp
  | inr tree_data =>
  if json_eq_opt user_id_to_revoke owner_id_ then
    pure (json_error "The owner cannot revoke their own access." 400)
  else
  let editor_ids_ := or_empty (editor_ids tree_data) in
  let viewer_ids_ := or_empty (viewer_ids tree_data) in
  match user_id_to_revoke with
  | JStr u =>
      if bool_decide (u ∈ editor_ids_) then
        _ ← update_tree tree_id_str (with_editor_ids (py_remove u editor_ids_));
        pure (Jsonify [("success", JBool true);
                       ("message", JStr "User access successfully revoked.")] 200)
      else if bool_decide (u ∈ viewer_ids_) then
        _ ← update_tree tree_id_str (with_viewer_ids (py_remove u viewer_ids_));
        pure (Jsonify [("success", JBool true);
                       ("message", JStr "User access successfully revoked.")] 200)
      else
        pure (json_error "The specified user does not have access to this tree." 404)
  | _ =>
      (* a value that is not a string is in neither list *)
      pure (json_error "The specified user does not have access to this tree." 404)
  end
  end.

Definition change_tree_permission_body (tree_id : string) : view := λ req,
  let owner_id_ := session req !! "user_id" in
  let tree_id_str := tree_id in
  let data := get_json req in
  user_id_to_change ← py_get data "user_id_to_change";
  new_role ← py_get data "new_role";
  if negb (truthy user_id_to_change) || negb (truthy new_role) then
    pure (json_error "User ID and new role are required." 400)
  else if negb (json_eq_str new_role "editor" || json_eq_str new_role "viewer") then
    pure (json_error "Invalid role. Must be 'editor' or 'viewer'." 400)
  else
  checked ← fetch_owned_tree tree_id_str owner_id_
    "Permission denied. Only the owner can modify permissions." "Tree not found.";
  match checked with
  | inl resp => pure resp
  | inr tree_data =>
  if json_eq_opt user_id_to_change owner_id_ then
    pure (json_error "The owner cannot change their own role." 400)
  else
  let editor_ids_ := or_empty (editor_ids tree_data) in
  let viewer_ids_ := or_empty (viewer_ids tree_data) in
  match user_id_to_change with
  | JStr u =>
      if negb (bool_decide (u ∈ editor_ids_)) && negb (bool_decide (u ∈ viewer_ids_)) then
        pure (json_error "The specified user does not have access to this tree." 404)
      else
      let editor_ids_ :=
        if bool_decide (u ∈ editor_ids_) then py_remove u editor_ids_ else editor_ids_ in
      let viewer_ids_ :=
        if bool_decide (u ∈ viewer_ids_) then py_remove u viewer_ids_ else viewer_ids_ in
      let editor_ids_ :=
        if json_eq_str new_role "editor" then (editor_ids_ ++ [u])%list else editor_ids_ in
      let viewer_ids_ :=
        if json_eq_str new_role "editor" then viewer_ids_ else (viewer_ids_ ++ [u])%list in
      _ ← update_tree tree_id_str
            (λ t, with_viewer_ids viewer_ids_ (with_editor_ids editor_ids_ t));
      pure (Jsonify [("success", JBool true); ("message", JStr "User role changed.")] 200)
  | _ =>
      (* a value that is not a string is in neither list *)
      pure (json_error "The specified user does not have access to this tree." 404)
  end
  end.

Definition share_tree (tree_id : string) : view :=
  login_required (csrf_protect_api (share_tree_body tree_id)).

Definition revoke_tree_access (tree_id : string) : view :=
  login_required (csrf_protect_api (revoke_tree_access_body tree_id)).

Definition change_tree_permission (tree_id : string) : view :=
  login_required (csrf_protect_api (change_tree_permission_body tree_id)).

(** [update(...).eq("token", token).eq("tree_id", tree_id).execute().data]:
    the rows that were updated *)
Definition update_invitation_of_tree (token tree_id : string)
    (f : invitation → invitation) : M (list invitation) := λ w,
  match tree_invitations w !! token with
  | Some i =>
      if bool_decide (inv_tree_id i = tree_id) then
        (Ok [f i], set_tree_invitations (<[token := f i]>) w)
      else (Ok [], w)
  | None => (Ok [], w)
  end.

Definition expire_invitation_link_body (tree_id token : string) : view := λ req,
  let user_id := session req !! "user_id" in
  let tree_id_str := tree_id in
  let token_str := token in
  checked ← fetch_owned_tree tree_id_str user_id
    "Only the owner can revoke an invitation link." "Tree not found.";
  match checked with
  | inl resp => pure resp
  | inr _ =>
  try_except
    (now ← utcnow;
     updated ← update_invitation_of_tree token_str tree_id_str (with_expires_at now);
     match updated with
     | [] => pure (json_error
                "Invitation link not found or does not belong to this tree." 404)
     | _ => pure (Jsonify [("success", JBool true);
                           ("message", JStr "Invitation link successfully revoked.")] 200)
     end)
    (λ e, pure (json_error ("Error during link revocation: " ++ str_of_exn e) 500))
  end.

Definition expire_invitation_link (tree_id token : string) : view :=
  login_required (csrf_protect_api (expire_invitation_link_body tree_id token)).

(** ** auth.py *)

Definition invalid_link (message : string) (status : Z) : response :=
  RenderTemplate "invalid_link.html" message status.

(** The view also returns the session it leaves behind. *)
Definition join_by_token (token : string) (req : request)
    : M (response * gmap string string) :=
  let token_str := token in
  let sess := session req in
  checked ← try_except
    (invitation ← select_invitation_single token_str;
     now ← utcnow;
     let is_expired := bool_decide (expires_at invitation < now) in
     let is_full := invitation_full invitation in
     if is_expired || is_full then
       pure (Some (invalid_link
         "This invitation link is invalid, expired, or has reached its usage limit." 400))
     else pure None)
    (λ _, pure (Some (invalid_link
       "This invitation link is invalid or has expired." 400)));
  match checked with
  | Some resp => pure (resp, sess)
  | None =>
      match sess !! "user_id" with
      | Some user_id =>
          tree_id_to_join ← process_invitation token_str user_id;
          match tree_id_to_join with
          | Some tree_id =>
              if str_truthy tree_id then
                pure (Redirect (UrlFor "pages.tree_page" [("tree_id", tree_id)]) 302, sess)
              else
                pure (invalid_link "Could not process this invitation." 500, sess)
          | None =>
              pure (invalid_link "Could not process this invitation." 500, sess)
          end
      | None =>
          pure (Redirect (UrlFor "auth.login"
                  [("message", "Please log in or create an account to join the tree.");
                   ("message_t", "LOGIN_PAGE.MESSAGES.JOIN_TREE_PROMPT")]) 302,
                <["join_token" := token_str]> sess)
      end
  end.

(** ** Strings *)

(** Text is held in UTF-8.  [space_width s] is the number of bytes of the
    character at the head of [s] when [str.isspace()] holds of it, and 0
    otherwise.  The white-space characters are U+0009 to U+000D, U+001C to
    U+0020, U+0085, U+00A0, U+1680, U+2000 to U+200A, U+2028, U+2029,
    U+202F, U+205F and U+3000. *)
Definition space_width (s : string) : nat :=
  match s with
  | EmptyString => O
  | String c s1 =>
      let n := nat_of_ascii c in
      if ((9 <=? n) && (n <=? 13) || (28 <=? n) && (n <=? 32))%nat then 1%nat
      else
        match s1 with
        | EmptyString => O
        | String c1 s2 =>
            let n1 := nat_of_ascii c1 in
            if (n =? 194)%nat then
              if ((n1 =? 133) || (n1 =? 160))%nat then 2%nat else O
            else
              match s2 with
              | EmptyString => O
              | String c2 _ =>
                  let n2 := nat_of_ascii c2 in
                  if ((n =? 225) && (n1 =? 154) && (n2 =? 128))%nat then 3%nat
                  else if ((n =? 226) && (n1 =? 128)
                           && ((128 <=? n2) && (n2 <=? 138)
                               || (n2 =? 168) || (n2 =? 169) || (n2 =? 175)))%nat
                  then 3%nat
                  else if ((n =? 226) && (n1 =? 129) && (n2 =? 159))%nat then 3%nat
                  else if ((n =? 227) && (n1 =? 128) && (n2 =? 128))%nat then 3%nat
                  else O
              end
        end
  end.

Definition lower_ascii (c : ascii) : ascii :=
  let n := nat_of_ascii c in
  if ((65 <=? n) && (n <=? 90))%nat then ascii_of_nat (n + 32) else c.

(** [s.lower()].  The two characters outside ASCII whose lowercase form
    holds an ASCII letter are U+212A (to [k]) and U+0130 (to [i] and
    U+0307).  Every other character outside ASCII has its lowercase form
    outside ASCII and is kept as it is here: the code compares the results
    with ASCII text and with the empty string only. *)
Fixpoint lower (s : string) : string :=
  match s with
  | EmptyString => EmptyString
  | String c s1 =>
      let n := nat_of_ascii c in
      match s1 with
      | String c1 s2 =>
          let n1 := nat_of_ascii c1 in
          if ((n =? 196) && (n1 =? 176))%nat then
            String "i" (String (ascii_of_nat 204) (String (ascii_of_nat 135) (lower s2)))
          else
            match s2 with
            | String c2 s3 =>
                if ((n =? 226) && (n1 =? 132) && (nat_of_ascii c2 =? 170))%nat then
                  String "k" (lower s3)
                else String (lower_ascii c) (lower s1)
            | EmptyString => String (lower_ascii c) (lower s1)
            end
      | EmptyString => String (lower_ascii c) (lower s1)
      end
  end.

(** [s.lstrip()]; [skip] counts the bytes still to drop of a white-space
    character. *)
Fixpoint lstrip_from (skip : nat) (s : string) : string :=
  match s with
  | EmptyString => EmptyString
  | String c s1 =>
      match skip with
      | S k => lstrip_from k s1
      | O =>
          match space_width s with
          | O => s
          | S k => lstrip_from k s1
          end
      end
  end.

Definition lstrip (s : string) : string := lstrip_from 0 s.

(** Whether [s] is made of white-space characters only. *)
Fixpoint all_space_from (skip : nat) (s : string) : bool :=
  match s with
  | EmptyString => true
  | String c s1 =>
      match skip with
      | S k => all_space_from k s1
      | O =>
          match space_width s with
          | O => false
          | S k => all_space_from k s1
          end
      end
  end.

(** [s.rstrip()] *)
Fixpoint rstrip (s : string) : string :=
  match s with
  | EmptyString => EmptyString
  | String c s1 => if all_space_from 0 s then EmptyString else String c (rstrip s1)
  end.

(** [s.strip()] *)
Definition strip (s : string) : string := lstrip (rstrip s).

Fixpoint replace_from (skip : nat) (old new s : string) : string :=
  match s with
  | EmptyString => EmptyString
  | String c s' =>
      match skip with
      | S k => replace_from k old new s'
      | O =>
          if String.prefix old s then
            new ++ replace_from (String.length old - 1) old new s'
          else String c (replace_from 0 old new s')
      end
  end.

(** [s.replace(old, new)], for a non-empty [old] *)
Definition replace (s old new : string) : string := replace_from 0 old new s.

(** [sub in s] *)
Fixpoint contains (s sub : string) : bool :=
  String.prefix sub s ||
  match s with
  | EmptyString => false
  | String _ s' => contains s' sub
  end.

(** [for x in v] *)
Definition py_iter (v : json) : M (list json) :=
  match v with
  | JList l => pure l
  | JDict d => pure (map (λ kv, JStr kv.1) d)
  | JStr s => pure (map (λ c, JStr (String c EmptyString)) (list_ascii_of_string s))
  | _ => raise (Exn "TypeError: object is not iterable")
  end.

(** [v[k]] for a string key *)
Definition py_index (v : json) (k : string) : M json :=
  match v with
  | JDict d =>
      match assoc k d with
      | Some x => pure x
      | None => raise (Exn "KeyError")
      end
  | _ => raise (Exn "TypeError: indices must be integers")
  end.

(** [int(v)] for the values that compare equal to an integer *)
Definition as_int (v : json) : option Z :=
  match v with
  | JNum n => Some n
  | JBool b => Some (if b then 1 else 0)
  | _ => None
  end.

(** [a == b] *)
Fixpoint json_eqb (a b : json) {struct a} : bool :=
  match a, b with
  | JNull, JNull => true
  | JBool x, JBool y => Bool.eqb x y
  | JBool x, JNum y => Z.eqb (if x then 1 else 0) y
  | JNum x, JBool y => Z.eqb x (if y then 1 else 0)
  | JNum x, JNum y => Z.eqb x y
  | JStr x, JStr y => String.eqb x y
  | JList x, JList y =>
      (fix go (x y : list json) : bool :=
         match x, y with
         | [], [] => true
         | a' :: x', b' :: y' => json_eqb a' b' && go x' y'
         | _, _ => false
         end) x y
  | JDict x, JDict y =>
      Nat.eqb (length x) (length y) &&
      (fix go (x : list (string * json)) : bool :=
         match x with
         | [] => true
         | (k, v) :: x' =>
             match assoc k y with
             | Some v' => json_eqb v v'
             | None => false
             end && go x'
         end) x
  | _, _ => false
  end.

(** [k in v] for a string [k] *)
Definition py_contains (v : json) (k : string) : M bool :=
  match v with
  | JDict d => pure (bool_decide (is_Some (assoc k d)))
  | JStr s => pure (contains s k)
  | JList l => pure (existsb (λ x, json_eqb x (JStr k)) l)
  | _ => raise (Exn "TypeError: argument is not iterable")
  end.

(** [v.startswith(p)] *)
Definition py_startswith (v : json) (p : string) : M bool :=
  match v with
  | JStr s => pure (startswith s p)
  | _ => raise (Exn "AttributeError: object has no attribute 'startswith'")
  end.

(** [v.replace(p, "")] *)
Definition py_strip_prefix (v : json) (p : string) : M string :=
  match v with
  | JStr s => pure (replace s p "")
  | _ => raise (Exn "AttributeError: object has no attribute 'replace'")
  end.

(** [for x in l: body(x)], collecting what the bodies append *)
Fixpoint for_collect {A B} (body : A → M (list B)) (l : list A) : M (list B) :=
  match l with
  | [] => pure []
  | x :: l' => ys ← body x; zs ← for_collect body l'; pure (ys ++ zs)%list
  end.

(** ** api_data.py: checks on photo and document URLs *)

Definition is_valid_scheme (url : string) : bool :=
  startswith url "http:" || startswith url "https:" || startswith url "/".

Definition is_dangerous (url : string) : bool :=
  startswith url "javascript:" || startswith url "data:" || startswith url "vbscript:".

(** [url = raw.strip().lower()
     if url: ... if not is_valid_scheme or is_dangerous: return 400] *)
Definition url_refused (raw : string) : bool :=
  let url := lower (strip raw) in
  str_truthy url && (negb (is_valid_scheme url) || is_dangerous url).

Definition check_photo (d : list (string * json)) : option response :=
  match assoc "photo" d with
  | Some (JStr photo) =>
      if url_refused photo then
        Some (json_error "Security check failed: Illegal URL scheme" 400)
      else None
  | _ => None
  end.

Fixpoint check_documents (docs : list json) : option response :=
  match docs with
  | [] => None
  | doc :: docs' =>
      match doc with
      | JDict dd =>
          match assoc "url" dd with
          | Some (JStr doc_url) =>
              if url_refused doc_url then
                Some (json_error "Invalid URL in person.documents.url" 400)
              else check_documents docs'
          | _ => check_documents docs'
          end
      | _ => check_documents docs'
      end
  end.

Definition api_file_prefix (tree_id : string) : string :=
  "/api/tree/" ++ tree_id ++ "/file/".

(** [{item["id"]: item["data"] for item in rows}.get(key)] *)
Definition current_data (rows : list person_row) (key : Z) : option json :=
  person_data <$> last (filter (λ r, person_id r = key) rows).

(** [person_id in current_persons_data], with the entry found *)
Definition lookup_current (rows : list person_row) (person_id : json)
    : M (option json) :=
  match person_id with
  | JList _ | JDict _ => raise (Exn "TypeError: unhashable type")
  | _ => pure (n ← as_int person_id; current_data rows n)
  end.

(** [if url and url.startswith(prefix): files.append(url.replace(prefix, ""))] *)
Definition file_of_url (prefix : string) (url : json) : M (list string) :=
  if truthy url then
    starts ← py_startswith url prefix;
    if starts : bool then
      path ← py_strip_prefix url prefix;
      pure [path]
    else pure []
  else pure [].

(** Lines 197-228, for one modified person. *)
Definition files_of_modified (prefix : string) (rows : list person_row)
    (new_person_data : json) : M (list string) :=
  person_id ← py_index new_person_data "id";
  found ← lookup_current rows person_id;
  match found with
  | None => pure []
  | Some old_data =>
      let new_data := new_person_data in
      old_photo_url ← py_get_default old_data "photo" (JStr "");
      new_photo_url ← py_get_default new_data "photo" (JStr "");
      photo_files ←
        (if truthy old_photo_url && negb (json_eqb old_photo_url new_photo_url)
         then file_of_url prefix old_photo_url
         else pure []);
      old_docs ← py_get_default old_data "documents" (JList []);
      old_docs ← py_iter old_docs;
      old_docs_urls ← for_collect (λ doc,
          has_url ← py_contains doc "url";
          if has_url : bool then
            url ← py_index doc "url";
            b ← py_startswith url prefix;
            match url with
            | JStr u => if b : bool then pure [u] else pure []
            | _ => pure []
            end
          else pure []) old_docs;
      new_docs ← py_get_default new_data "documents" (JList []);
      new_docs ← py_iter new_docs;
      new_docs_urls ← for_collect (λ doc,
          has_url ← py_contains doc "url";
          if has_url : bool then
            url ← py_index doc "url";
            match url with
            | JList _ | JDict _ => raise (Exn "TypeError: unhashable type")
            | _ => pure [url]
            end
          else pure []) new_docs;
      let deleted_docs_urls :=
        filter (λ u, forallb (λ v, negb (json_eqb (JStr u) v)) new_docs_urls = true)
               old_docs_urls in
      pure (photo_files ++ map (λ u, replace u prefix "") deleted_docs_urls)%list
  end.

(** Lines 239-255, for one deleted person. *)
Definition files_of_deleted (prefix : string) (row : person_row) : M (list string) :=
  let data := person_data row in
  photo ← py_get data "photo";
  photo_url ←
    (match photo with
     | JDict _ =>
         inner ← py_get_default data "photo" (JDict []);
         py_get_default inner "url" (JStr "")
     | _ => py_get_default data "photo" (JStr "")
     end);
  photo_files ← file_of_url prefix photo_url;
  has_documents ← py_contains data "documents";
  doc_files ←
    (if has_documents : bool then
       docs ← py_index data "documents";
       docs ← py_iter docs;
       for_collect (λ doc, doc_url ← py_get doc "url"; file_of_url prefix doc_url) docs
     else pure []);
  pure (photo_files ++ doc_files)%list.

Section Handlers.

(** *** The services the handlers call and the bodies left abstract *)

(** [nh3.clean] *)
Variable nh3_clean : string → string.

(** How the database reads a value of an [in_("id", ...)] filter as an
    integer identifier; [None] when it refuses the value. *)
Variable pg_int : json → option Z.

(** The stored procedure [batch_update_persons_atomic], one transaction on
    the persons table: the new table, or an error that leaves it as it was. *)
Variable batch_update_persons_atomic :
  string → json → json → json → list person_row → result (list person_row).

(** [supabase.storage.from_(bucket).remove(paths)]: the exception it raises,
    if any, and the bucket it leaves. *)
Variable storage_remove : list string → gset string → option exn * gset string.

(** [supabase.storage.from_(bucket).create_signed_url(path, expires)["signedURL"]] *)
Variable create_signed_url : string → Z → world → result string.

(** The token the database gives a new invitation row. *)
Variable gen_random_uuid : world → string.

(** Bodies of [create_tree], [delete_tree] and [upload_file]. *)
Variable create_tree_body : view.
Variable delete_tree_body : string → view.
Variable upload_file_body : string → string → view.

Definition SIGNED_URL_EXPIRATION_SECONDS : Z := 3600 * 12.

(** ** api_trees.py and api_files.py *)

Definition create_tree : view :=
  login_required (csrf_protect_api create_tree_body).

Definition delete_tree (tree_id : string) : view :=
  login_required (csrf_protect_api (delete_tree_body tree_id)).

Definition upload_file (tree_id type : string) : view :=
  login_required (no_cache (csrf_protect_api (upload_file_body tree_id type))).

Definition signed_url_for (path : string) (expires : Z) : M string := λ w,
  (create_signed_url path expires w, w).

Definition serve_protected_file (tree_id file_path : string) : view :=
  no_cache (λ req,
    let user_id := session req !! "user_id" in
    permissions ← get_tree_and_user_permissions tree_id user_id;
    match permissions with
    | None => pure (json_error "Tree not found" 404)
    | Some permissions =>
        if negb (can_view permissions) then
          pure (json_error
            "Access denied. You do not have permission to view this file." 403)
        else
        let expected_prefix := tree_id ++ "/" in
        if negb (startswith file_path expected_prefix) then
          pure (json_error "Invalid file path for this tree." 400)
        else
        try_except
          (signed_url ← signed_url_for file_path SIGNED_URL_EXPIRATION_SECONDS;
           pure (Redirect (Url signed_url) 302))
          (λ e, pure (json_error
             ("Failed to generate signed URL: " ++ str_of_exn e) 500))
    end).

(** ** api_sharing.py: invitation creation *)

(** [insert(invitation_data).execute().data[0]["token"]]; the limit goes
    into a nullable integer column. *)
Definition insert_invitation (tree_id role : string) (expires : Z) (limit : json)
    : M string := λ w,
  let token := gen_random_uuid w in
  match tree_invitations w !! token with
  | Some _ => (Raise (Exn "duplicate key value violates unique constraint"), w)
  | None =>
      match limit with
      | JNull =>
          (Ok token,
           set_tree_invitations
             (<[token := Invitation tree_id role expires (Some []) None]>) w)
      | JNum n =>
          (Ok token,
           set_tree_invitations
             (<[token := Invitation tree_id role expires (Some []) (Some n)]>) w)
      | _ => (Raise (Exn "invalid input syntax for type integer"), w)
      end
  end.

Definition create_invitation_body (tree_id : string) : view := λ req,
  let user_id := session req !! "user_id" in
  let tree_id_str := tree_id in
  checked ← fetch_owned_tree tree_id_str user_id
    "Only the owner can create invitations." "Tree not found.";
  match checked with
  | inl resp => pure resp
  | inr _ =>
  let data := get_json req in
  role ← py_get data "role";
  limit ← py_get data "limit";
  match role with
  | JStr role_str =>
      if negb (bool_decide (role_str ∈ ["editor"; "viewer"])) then
        pure (json_error "Invalid role." 400)
      else
      try_except
        (now ← utcnow;
         let expires := now + 365 * 86400 in
         new_token ← insert_invitation tree_id_str role_str expires limit;
         pure (Jsonify [("success", JBool true);
                        ("link", JStr ("/join/" ++ new_token))] 200))
        (λ e, pure (json_error ("Error during creation: " ++ str_of_exn e) 500))
  | _ => pure (json_error "Invalid role." 400)
  end
  end.

Definition create_invitation (tree_id : string) : view :=
  login_required (csrf_protect_api (create_invitation_body tree_id)).

(** ** api_data.py *)

(** [select("id").eq("tree_id", t).order("id", desc=True).limit(1)]: the
    largest identifier of the tree, if it has a person. *)
Fixpoint max_person_id (tree_id : string) (rows : list person_row) : option Z :=
  match rows with
  | [] => None
  | r :: rows' =>
      let rest := max_person_id tree_id rows' in
      if bool_decide (person_tree_id r = tree_id) then
        match rest with
        | Some m => Some (Z.max (person_id r) m)
        | None => Some (person_id r)
        end
      else rest
  end.

Definition select_max_person_id (tree_id : string) : M (option Z) :=
  gets (λ w, max_person_id tree_id (persons w)).

Definition get_new_id_body (tree_id : string) : view := λ req,
  let user_id := session req !! "user_id" in
  permissions ← get_tree_and_user_permissions tree_id user_id;
  match permissions with
  | None => pure (json_error "Tree not found" 404)
  | Some permissions =>
      if negb (can_edit permissions) then
        pure (json_error "Edit permission denied" 403)
      else
      try_except
        (cached ← gets (λ w, new_ids_dict w !! tree_id);
         new_id ← (match cached with
                   | Some last =>
                       if negb (Z.eqb last 0) then pure (last + 1)
                       else
                         top ← select_max_person_id tree_id;
                         pure (match top with Some m => m + 1 | None => 1 end)
                   | None =>
                       top ← select_max_person_id tree_id;
                       pure (match top with Some m => m + 1 | None => 1 end)
                   end);
         _ ← modify (set_new_ids_dict (<[tree_id := new_id]>));
         pure (Jsonify [("id", JNum new_id); ("success", JBool true)] 200))
        (λ e, pure (json_error ("Database error: " ++ str_of_exn e) 500))
  end.

Definition get_new_id (tree_id : string) : view :=
  login_required (no_cache (csrf_protect_api (get_new_id_body tree_id))).

(** *** batch_update_persons *)

Definition sanitize_fields (d : list (string * json)) : list (string * json) :=
  map (λ kv,
         match kv.2 with
         | JStr value =>
             if bool_decide (kv.1 ∈ ["id"; "photo"; "documents"]) then kv
             else (kv.1, JStr (nh3_clean value))
         | _ => kv
         end) d.

(** Lines 111-178 for one entry of a list: the early 400 response, or the
    entry with its text fields cleaned. *)
Definition validate_person (person_data : json) : M (response + json) :=
  match person_data with
  | JDict d =>
      let d := sanitize_fields d in
      match check_photo d with
      | Some resp => pure (inl resp)
      | None =>
          match assoc "documents" d with
          | Some (JList docs) =>
              match check_documents docs with
              | Some resp => pure (inl resp)
              | None => pure (inr (JDict d))
              end
          | _ => pure (inr (JDict d))
          end
      end
  | _ => raise (Exn "AttributeError: object has no attribute 'items'")
  end.

Fixpoint validate_persons (l : list json) : M (response + list json) :=
  match l with
  | [] => pure (inr [])
  | person_data :: l' =>
      r ← validate_person person_data;
      match r with
      | inl resp => pure (inl resp)
      | inr cleaned =>
          r' ← validate_persons l';
          match r' with
          | inl resp => pure (inl resp)
          | inr rest => pure (inr (cleaned :: rest))
          end
      end
  end.

(** [for person_data in person_list: ...] *)
Definition validate_person_list (person_list : json) : M (response + json) :=
  match person_list with
  | JList l =>
      r ← validate_persons l;
      match r with
      | inl resp => pure (inl resp)
      | inr l' => pure (inr (JList l'))
      end
  | _ =>
      items ← py_iter person_list;
      r ← validate_persons items;
      match r with
      | inl resp => pure (inl resp)
      | inr _ => pure (inr person_list)
      end
  end.

(** [select(...).eq("tree_id", tree_id).in_("id", values).execute().data] *)
Definition select_persons_in (tree_id : string) (values : list json)
    : M (list person_row) :=
  match mapM pg_int values with
  | Some ids =>
      gets (λ w, filter (λ r, person_tree_id r = tree_id ∧ person_id r ∈ ids)
                        (persons w))
  | None => raise (Exn "invalid input syntax for type integer")
  end.

(** Lines 181-255: the storage paths that the update orphans. *)
Definition collect_files_to_delete (tree_id : string)
    (persons_to_modify ids_to_delete : json) : M (list string) :=
  let prefix := api_file_prefix tree_id in
  files_modified ←
    (if truthy persons_to_modify then
       items ← py_iter persons_to_modify;
       modified_ids ← for_collect (λ p, id ← py_index p "id"; pure [id]) items;
       rows ← select_persons_in tree_id modified_ids;
       for_collect (files_of_modified prefix rows) items
     else pure []);
  files_deleted ←
    (if truthy ids_to_delete then
       values ← py_iter ids_to_delete;
       rows ← select_persons_in tree_id values;
       for_collect (files_of_deleted prefix) rows
     else pure []);
  pure (files_modified ++ files_deleted)%list.

Definition rpc_batch_update_persons_atomic (tree_id : string)
    (persons_to_add persons_to_modify ids_to_delete : json) : M unit := λ w,
  match batch_update_persons_atomic tree_id persons_to_add persons_to_modify
          ids_to_delete (persons w) with
  | Ok rows => (Ok tt, set_persons (λ _, rows) w)
  | Raise e => (Raise e, w)
  end.

Definition bucket_remove (paths : list string) : M unit := λ w,
  let '(err, b) := storage_remove paths (bucket w) in
  (match err with Some e => Raise e | None => Ok tt end, set_bucket (λ _, b) w).

(** Lines 257-277: the stored procedure, then the removal of the files. *)
Definition apply_batch (tree_id : string)
    (persons_to_add persons_to_modify ids_to_delete : json)
    (files_to_delete : list string) : M response :=
  _ ← rpc_batch_update_persons_atomic tree_id persons_to_add persons_to_modify
        ids_to_delete;
  _ ← (match files_to_delete with
       | [] => pure tt
       | _ =>
           let unique_files_to_delete :=
             elements (list_to_set files_to_delete : gset string) in
           match unique_files_to_delete with
           | [] => pure tt
           | _ => bucket_remove unique_files_to_delete
           end
       end);
  pure (Jsonify [("success", JBool true);
                 ("message", JStr "Batch update successful.")] 200).

(** Lines 89-178: permission checks, payload shape and validation; the
    early response, or the three lists as they reach the [try] block. *)
Definition batch_prelude (tree_id : string) (req : request)
    : M (response + (json * json * json)) :=
  let user_id := session req !! "user_id" in
  permissions ← get_tree_and_user_permissions tree_id user_id;
  match permissions with
  | None => pure (inl (json_error "Tree not found" 404))
  | Some permissions =>
      if negb (can_edit permissions) then
        pure (inl (json_error "Edit permission denied" 403))
      else
      let payload := get_json req in
      match payload with
      | JDict _ =>
          persons_to_add ← py_get_default payload "add" (JList []);
          persons_to_modify ← py_get_default payload "modify" (JList []);
          ids_to_delete ← py_get_default payload "delete" (JList []);
          checked_add ← validate_person_list persons_to_add;
          match checked_add with
          | inl resp => pure (inl resp)
          | inr persons_to_add =>
          checked_modify ← validate_person_list persons_to_modify;
          match checked_modify with
          | inl resp => pure (inl resp)
          | inr persons_to_modify =>
              pure (inr (persons_to_add, persons_to_modify, ids_to_delete))
          end end
      | _ => pure (inl (json_error "Invalid payload: JSON object expected" 400))
      end
  end.

(** Lines 180-286: the [try] block and its handler. *)
Definition batch_commit (tree_id : string)
    (persons_to_add persons_to_modify ids_to_delete : json) : M response :=
  try_except
    (files_to_delete ←
       collect_files_to_delete tree_id persons_to_modify ids_to_delete;
     apply_batch tree_id persons_to_add persons_to_modify ids_to_delete
       files_to_delete)
    (λ e, pure (json_error
       ("Error during batch processing: " ++ str_of_exn e) 500)).

Definition batch_update_persons_body (tree_id : string) : view := λ req,
  checked ← batch_prelude tree_id req;
  match checked with
  | inl resp => pure resp
  | inr (persons_to_add, persons_to_modify, ids_to_delete) =>
      batch_commit tree_id persons_to_add persons_to_modify ids_to_delete
  end.

Definition batch_update_persons (tree_id : string) : view :=
  login_required (no_cache (csrf_protect_api (batch_update_persons_body tree_id))).

(** ** The mutating routes

    Name, HTTP methods of the route and the decorated view, for the URL
    arguments [tree_id], [type] and [token]. *)
Definition mutating_endpoints (tree_id type token : string)
    : list (string * list string * view) :=
  [ ("create_tree", ["POST"], create_tree);
    ("delete_tree", ["DELETE"], delete_tree tree_id);
    ("batch_update_persons", ["POST"], batch_update_persons tree_id);
    ("upload_file", ["POST"], upload_file tree_id type);
    ("share_tree", ["POST"], share_tree tree_id);
    ("revoke_tree_access", ["POST"], revoke_tree_access tree_id);
    ("change_tree_permission", ["POST"], change_tree_permission tree_id);
    ("create_invitation", ["POST"], create_invitation tree_id);
    ("expire_invitation_link", ["DELETE"], expire_invitation_link tree_id token) ].

End Handlers.

(** ** Sequences of join attempts *)

#[global] Instance tree_eq_dec : EqDecision tree.
Proof. solve_decision. Defined.

#[global] Instance invitation_eq_dec : EqDecision invitation.
Proof. solve_decision. Defined.








(** ** The membership invariant of a tree *)

(** The owner is in neither list and nobody is in both. *)
Definition roles_disjoint (t : tree) : Prop :=
  (owner_id t ∉ or_empty (editor_ids t))
  ∧ (owner_id t ∉ or_empty (viewer_ids t))
  ∧ ∀ u, ¬ (u ∈ or_empty (editor_ids t) ∧ u ∈ or_empty (viewer_ids t)).

(** The same, with no identifier repeated inside a list. *)
Definition roles_wf (t : tree) : Prop :=
  NoDup (or_empty (editor_ids t))
  ∧ NoDup (or_empty (viewer_ids t))
  ∧ roles_disjoint t.

(** ** Successive calls and payload shapes *)

(** Successive calls of a view, one per request. *)
Fixpoint serve_all (v : view) (reqs : list request) (w : world)
    : list response * world :=
  match reqs with
  | [] => ([], w)
  | req :: rest =>
      let '(resp, w1) := dispatch v req w in
      let '(resps, w2) := serve_all v rest w1 in
      (resp :: resps, w2)
  end.

(** A request that passes the session, CSRF and edit-permission checks of
    the editing routes of a tree. *)
Definition may_edit (tree_id : string) (w : world) (req : request) : Prop :=
  is_Some (session req !! "user_id")
  ∧ csrf_token_valid req = true
  ∧ ∃ p, (get_tree_and_user_permissions tree_id (session req !! "user_id") w).1
         = Ok (Some p)
       ∧ can_edit p = true.

(** Code that leaves the world as it found it. *)
Definition reads_only {A} (m : M A) : Prop := ∀ w, (m w).2 = w.

Definition is_object (v : json) : Prop := ∃ d, v = JDict d.

(** A URL that, trimmed and lowercased, begins with [javascript:], [data:]
    or [vbscript:]. *)
Definition dangerous_url (raw : string) : Prop :=
  let url := lower (strip raw) in
  startswith url "javascript:" = true
  ∨ startswith url "data:" = true
  ∨ startswith url "vbscript:" = true.

(** A person record with a dangerous URL where lines 117 and 149-153 look
    for one: the photo, a string, or the [url], a string, of an object of
    the [documents] list. *)
Definition has_dangerous_url (person : json) : Prop :=
  ∃ d, person = JDict d
    ∧ ((∃ url, assoc "photo" d = Some (JStr url) ∧ dangerous_url url)
       ∨ (∃ docs doc url,
            assoc "documents" d = Some (JList docs)
            ∧ JDict doc ∈ docs
            ∧ assoc "url" doc = Some (JStr url)
            ∧ dangerous_url url)).

Definition every_tree (P : tree → Prop) (w : world) : Prop :=
  ∀ id t, trees w !! id = Some t → P t.

(** ** Example data *)

Definition smith_tree : tree :=
  Tree "Smith" "owner" (Some ["ed"]) (Some ["vi"]) false true false.

Definition smith_world : world :=
  World {["t1" := smith_tree]}
        {["tok" := Invitation "t1" "viewer" 1000 (Some []) (Some 1)]}
        [PersonRow "t1" 1
           (JDict [("id", JNum 1);
                   ("photo", JStr "/api/tree/t1/file/t1/images/a.webp")])]
        {["bob@example.org" := "bob"]}
        {["t1/images/a.webp"]}
        0 ∅.

(** A tree whose only person has the identifier -1. *)
Definition minus_one_world : world :=
  World {["t1" := smith_tree]} ∅ [PersonRow "t1" (-1) (JDict [("id", JNum (-1))])]
        ∅ ∅ 0 ∅.

(** Stand-ins for the remote services, to run the handlers on examples. *)
Definition demo_pg_int (v : json) : option Z :=
  match v with
  | JNum n => Some n
  | _ => None
  end.

Definition demo_batch_rpc (tree_id : string) (add modify delete : json)
    (rows : list person_row) : result (list person_row) :=
  match delete with
  | JList ids =>
      Ok (filter (λ r, ¬ (person_tree_id r = tree_id
                          ∧ existsb (json_eqb (JNum (person_id r))) ids = true)) rows)
  | _ => Raise (Exn "invalid input")
  end.

Definition failing_storage_remove (paths : list string) (b : gset string)
    : option exn * gset string :=
  (Some (Exn "storage unavailable"), b).

Definition working_storage_remove (paths : list string) (b : gset string)
    : option exn * gset string :=
  (None, b ∖ list_to_set paths).

Definition demo_signed_url (path : string) (expires : Z) (w : world) : result string :=
  if bool_decide (path ∈ bucket w) then Ok ("https://storage.example/" ++ path)
  else Raise (Exn "Object not found").

Definition demo_view : view := λ _, pure (json_error "Not implemented" 501).

Definition demo_uuid (w : world) : string := "tok2".

Definition api_request (method path user : string) (body : json) : request :=
  Request method path {["user_id" := user]} true body.

(** An invitation without limit that bob has already used. *)
Definition rejoin_world : world :=
  World {["t1" := smith_tree]}
        {["tok" := Invitation "t1" "viewer" 1000 (Some ["bob"]) None]}
        [] ∅ ∅ 0 ∅.

(** A process that has already handed out identifier 7 for the tree. *)
Definition cached_world : world :=
  World {["t1" := smith_tree]} ∅ [] ∅ ∅ 0 {["t1" := 7]}.

Definition anonymous_share_request : request :=
  Request "POST" "/api/tree/t1/share" ∅ true JNull.

Definition forged_share_request : request :=
  Request "POST" "/api/tree/t1/share" {["user_id" := "owner"]} false
    (JDict [("email", JStr "bob@example.org"); ("role", JStr "editor")]).

Definition delete_person_request : request :=
  api_request "POST" "/api/tree/t1/persons/batch" "owner"
    (JDict [("delete", JList [JNum 1])]).

Definition script_photo_request : request :=
  api_request "POST" "/api/tree/t1/persons/batch" "owner"
    (JDict [("add", JList [JDict [("id", JNum 5);
                                  ("photo", JStr "  JavaScript:alert(1)")]])]).

(** The photo as an object with a [url], the shape that line 242 reads. *)
Definition script_photo_object : json :=
  JDict [("id", JNum 5);
         ("photo", JDict [("url", JStr "javascript:alert(1)")])].

Definition script_photo_object_request : request :=
  api_request "POST" "/api/tree/t1/persons/batch" "owner"
    (JDict [("add", JList [script_photo_object])]).


Definition new_id_request : request :=
  api_request "GET" "/api/tree/t1/id/new" "owner" JNull.

Definition viewer_file_request : request :=
  api_request "GET" "/api/tree/t1/file/t1/images/a.webp" "vi" JNull.

(** ** api_trees.py and api_data.py: reading a tree *)

Definition get_family_tree_info_body (tree_id : string) : view := λ req,
  let user_id := session req !! "user_id" in
  permissions ← get_tree_and_user_permissions tree_id user_id;
  match permissions with
  | None =>
      pure (Jsonify [("exist", JBool false); ("success", JBool false);
                     ("error", JStr "Tree not found")] 404)
  | Some permissions =>
      if negb (can_view permissions) then
        pure (json_error "Access denied. This tree is private." 403)
      else
      let tree_data := perm_tree permissions in
      pure (Jsonify
        [("exist", JBool true);
         ("success", JBool true);
         ("editable", JBool (can_edit permissions));
         ("file", JBool (allow_file_uploads tree_data
                         && negb (is_demo tree_data && negb (can_edit permissions))));
         ("demo", JBool (is_demo tree_data));
         ("error", JStr "")] 200)
  end.

Definition get_family_tree_info (tree_id : string) : view :=
  no_cache (csrf_protect_api (get_family_tree_info_body tree_id)).

(** [supabase.table("persons").select("data").eq("tree_id", t).execute().data],
    in the order of the table *)
Definition select_persons_data (tree_id : string) : M (list json) :=
  gets (λ w, map person_data (filter (λ r, person_tree_id r = tree_id) (persons w))).

Definition get_family_tree_data_body (tree_id : string) : view := λ req,
  let user_id := session req !! "user_id" in
  permissions ← get_tree_and_user_permissions tree_id user_id;
  match permissions with
  | None => pure (json_error "Tree not found" 404)
  | Some permissions =>
      if negb (can_view permissions) then
        pure (json_error "Access denied. This tree is private." 403)
      else
      try_except
        (person_data ← select_persons_data tree_id;
         pure (Jsonify [("data", JList person_data); ("success", JBool true)] 200))
        (λ e, pure (json_error ("Database error: " ++ str_of_exn e) 500))
  end.

Definition get_family_tree_data (tree_id : string) : view :=
  no_cache (csrf_protect_api (get_family_tree_data_body tree_id)).

(** ** api_trees.py: deleting a tree *)

Section TreeDeletion.

(** [supabase.storage.from_(bucket).list(path=..., options={"limit": 1000})]:
    the names of the entries it returns. *)
Variable storage_list : string → gset string → result (list string).

Variable storage_remove : list string → gset string → option exn * gset string.

Definition bucket_list (path : string) : M (list string) := λ w,
  (storage_list path (bucket w), w).

(** The body of [delete_tree], under its decorators. *)
Definition delete_tree_impl (tree_id : string) : view := λ req,
  let user_id := session req !! "user_id" in
  let tree_id_str := tree_id in
  checked ← fetch_owned_tree tree_id_str user_id
    "Permission denied. Only the owner can delete this tree." "Tree not found";
  match checked with
  | inl resp => pure resp
  | inr _ =>
  try_except
    (_ ← modify (set_persons (filter (λ r, person_tree_id r ≠ tree_id_str)));
     files_in_storage ← bucket_list tree_id_str;
     _ ← (match files_in_storage with
          | [] => pure tt
          | _ =>
              let file_paths_to_remove :=
                map (λ name, tree_id_str ++ "/" ++ name) files_in_storage in
              bucket_remove storage_remove file_paths_to_remove
          end);
     _ ← modify (set_trees (delete tree_id_str));
     pure (Jsonify [("success", JBool true);
                    ("message", JStr "Tree successfully deleted.")] 200))
    (λ e, pure (json_error
       ("An error occurred while deleting the tree: " ++ str_of_exn e) 500))
  end.

End TreeDeletion.

(** ** auth.py: sessions *)

Section Sessions.

(** [auth_client.auth.set_session(access_token, refresh_token)]: the
    identifier and the e-mail address of the user the tokens belong to. *)
Variable auth_set_session : json → json → world → result (string * string).

Definition auth_user (access_token refresh_token : json) : M (string * string) := λ w,
  (auth_set_session access_token refresh_token w, w).

(** The view also returns the session it leaves behind; [url_for] of the
    two page routes is written out. *)
Definition set_session (req : request) : M (response * gmap string string) :=
  let sess := session req in
  let data := get_json req in
  access_token ← py_get data "access_token";
  refresh_token ← py_get data "refresh_token";
  if negb (truthy access_token) || negb (truthy refresh_token) then
    pure (Jsonify [("success", JBool false); ("error", JStr "Missing tokens")] 400, sess)
  else
  try_except
    (user ← auth_user access_token refresh_token;
     let sess := <["user_id" := user.1]> sess in
     let sess := <["user_email" := user.2]> sess in
     let redirect_url := "/home" in
     match sess !! "join_token" with
     | Some token =>
         let sess := delete "join_token" sess in
         tree_id_to_join ← process_invitation token user.1;
         let redirect_url :=
           match tree_id_to_join with
           | Some tree_id => if str_truthy tree_id then "/tree/" ++ tree_id else redirect_url
           | None => redirect_url
           end in
         pure (Jsonify [("success", JBool true);
                        ("redirect_url", JStr redirect_url)] 200, sess)
     | None =>
         pure (Jsonify [("success", JBool true);
                        ("redirect_url", JStr redirect_url)] 200, sess)
     end)
    (λ e, pure (Jsonify [("success", JBool false);
                         ("error", JStr (str_of_exn e))] 500, sess)).

End Sessions.

Definition logout (req : request) : M (response * gmap string string) :=
  pure (Redirect (UrlFor "auth.login" []) 302, ∅).

(** ** Paths and file names *)

(** [s.split(sep, 1)] when [sep] occurs in [s]: the text before and after
    its first occurrence *)
Fixpoint split_first (sep : ascii) (s : string) : option (string * string) :=
  match s with
  | EmptyString => None
  | String c s' =>
      if Ascii.eqb c sep then Some (EmptyString, s')
      else match split_first sep s' with
           | Some (a, b) => Some (String c a, b)
           | None => None
           end
  end.

(** [s.rsplit(sep, 1)] when [sep] occurs in [s] *)
Fixpoint split_last (sep : ascii) (s : string) : option (string * string) :=
  match s with
  | EmptyString => None
  | String c s' =>
      match split_last sep s' with
      | Some (a, b) => Some (String c a, b)
      | None => if Ascii.eqb c sep then Some (EmptyString, s') else None
      end
  end.

(** [os.path.basename], POSIX *)
Definition basename (p : string) : string :=
  match split_last "/" p with
  | Some (_, b) => b
  | None => p
  end.

Fixpoint all_dots (s : string) : bool :=
  match s with
  | EmptyString => true
  | String c s' => Ascii.eqb c "." && all_dots s'
  end.

(** [os.path.splitext], POSIX: the extension starts at the last dot of the
    last component, unless only dots precede it there. *)
Definition splitext (p : string) : string * string :=
  let '(dir, base) :=
    match split_last "/" p with
    | Some (d, b) => (d ++ "/", b)
    | None => (EmptyString, p)
    end in
  match split_last "." base with
  | Some (stem, e) =>
      if all_dots stem then (p, EmptyString) else (dir ++ stem, "." ++ e)
  | None => (p, EmptyString)
  end.

(** ** api_files.py: upload *)

(** An entry of [request.files]. *)
Record file_storage := FileStorage {
  filename : string;
  mimetype : string;
  stream : string
}.

Section Upload.

(** The Pillow pipeline of the image branch, from [Image.open] to the bytes
    of the WebP file. *)
Variable webp_of_image : string → result string.

(** [supabase.storage.from_(bucket).upload(path=..., file=..., file_options=...)]:
    the exception it raises, if any, and the bucket it leaves. *)
Variable storage_upload :
  string → string → list (string * string) → gset string → option exn * gset string.

Definition bucket_upload (path content : string) (options : list (string * string))
    : M unit := λ w,
  let '(err, b) := storage_upload path content options (bucket w) in
  (match err with Some e => Raise e | None => Ok tt end, set_bucket (λ _, b) w).

Definition compress_image (content : string) : M string := λ w,
  (webp_of_image content, w).

(** The double quote character. *)
Definition dquote : string := String (ascii_of_nat 34) EmptyString.

(** [type.capitalize()] *)
Definition capitalize (s : string) : string :=
  match s with
  | EmptyString => EmptyString
  | String c s' =>
      let n := nat_of_ascii c in
      String (if ((97 <=? n) && (n <=? 122))%nat then ascii_of_nat (n - 32) else c)
             (lower s')
  end.

(** The body of [upload_file], under its decorators.  [files] is
    [request.files]; [uuid_a] and [uuid_b] are the two values that
    [uuid.uuid4()] draws. *)
Definition upload_file_impl (files : gmap string file_storage) (uuid_a uuid_b : string)
    (tree_id type : string) : view := λ req,
  let user_id := session req !! "user_id" in
  permissions ← get_tree_and_user_permissions tree_id user_id;
  match permissions with
  | None => pure (json_error "Tree not found" 404)
  | Some permissions =>
  if negb (can_edit permissions) then
    pure (json_error "Edit permission denied" 403)
  else if negb (allow_file_uploads (perm_tree permissions)) then
    pure (json_error "File uploads are disabled for this tree" 403)
  else if negb (bool_decide (type ∈ ["image"; "document"])) then
    pure (json_error "Invalid upload type" 400)
  else
  match files !! type with
  | None => pure (json_error ("No '" ++ type ++ "' file in request") 400)
  | Some file =>
  if negb (str_truthy (filename file)) then
    pure (json_error "No file selected" 400)
  else
  let extension := (splitext (filename file)).2 in
  let new_filename := uuid_a ++ extension in
  let file_path := tree_id ++ "/" ++ type ++ "s/" ++ new_filename in
  let content_type := mimetype file in
  let content_disposition :=
    "attachment; filename=" ++ dquote ++ filename file ++ dquote in
  try_except
    (prepared ←
       (if String.eqb type "image" then
          file_content ← compress_image (stream file);
          let new_filename_webp := uuid_b ++ ".webp" in
          pure (file_content, "image/webp",
                tree_id ++ "/" ++ type ++ "s/" ++ new_filename_webp,
                "inline; filename=" ++ dquote ++ new_filename_webp ++ dquote)
        else pure (stream file, content_type, file_path, content_disposition));
     let '(file_content, content_type, file_path, content_disposition) := prepared in
     _ ← bucket_upload file_path file_content
           [("content-type", content_type); ("upsert", "true");
            ("content-disposition", content_disposition)];
     pure (Jsonify [("success", JBool true);
                    ("message", JStr (capitalize type ++ " uploaded successfully."));
                    ("filename", JStr (filename file));
                    ("url", JStr ("/api/tree/" ++ tree_id ++ "/file/" ++ file_path))]
                   200))
    (λ e, pure (json_error ("Upload failed: " ++ str_of_exn e) 500))
  end
  end.

End Upload.

(** ** fromdist.py: file names and URLs of the built front end *)

(** [parts = name.split("-"); parts[0]] *)
Definition before_first (sep : ascii) (s : string) : string :=
  match split_first sep s with
  | Some (a, _) => a
  | None => s
  end.

(** [s.split(sep)[-1]] *)
Definition after_last (sep : ascii) (s : string) : string :=
  match split_last sep s with
  | Some (_, b) => b
  | None => s
  end.

Definition clean_filename (filename : string) : string :=
  if negb (contains filename "-") then filename
  else
    let '(name, ext) := splitext filename in
    before_first "-" name ++ ext.

(** [filename_map] is the module's dictionary of that name. *)
Definition transform_url (filename_map : gmap string string) (url : string) : string :=
  if startswith url "//" || startswith url "http://" || startswith url "https://" then url
  else if startswith url "/static/" then url
  else if startswith url "/snippets/" then "/static/scripts" ++ url
  else
    let path := url in
    let '(path, frag) :=
      match split_first "#" path with       (* if "#" in path *)
      | Some (p, f) => (p, "#" ++ f)
      | None => (path, EmptyString)
      end in
    let '(path, q) :=
      match split_first "?" path with       (* if "?" in path *)
      | Some (p, q) => (p, "?" ++ q)
      | None => (path, EmptyString)
      end in
    let basename := basename path in
    let basename := default basename (filename_map !! basename) in
    let ext := lower (after_last "." basename) in
    if String.eqb ext "css" then "/static/styles/" ++ basename ++ q ++ frag
    else "/static/scripts/" ++ basename ++ q ++ frag.

(** ** What a user may do with a tree *)

(** [can_edit] and [can_view] as the resolver gives them; [None] for an
    absent tree. *)
Definition access (tree_id : string) (user_id : option string) (w : world)
    : option (bool * bool) :=
  match (get_tree_and_user_permissions tree_id user_id w).1 with
  | Ok (Some p) => Some (can_edit p, can_view p)
  | _ => None
  end.

(** A refusal: an answer other than 200 and the world as it was. *)
Definition refused (v : view) (req : request) (w : world) : Prop :=
  (dispatch v req w).2 = w ∧ status_of (dispatch v req w).1 ≠ 200.

(** [s.count(c)] *)
Fixpoint count_char (c : ascii) (s : string) : nat :=
  match s with
  | EmptyString => O
  | String a s' => ((if Ascii.eqb a c then 1 else 0) + count_char c s')%nat
  end.

(** ** More example data *)

Definition demo_storage_list (path : string) (b : gset string)
    : result (list string) :=
  Ok ["images"].

Definition failing_storage_list (path : string) (b : gset string)
    : result (list string) :=
  Raise (Exn "storage unavailable").

Definition demo_auth (access_token refresh_token : json) (w : world)
    : result (string * string) :=
  match access_token with
  | JStr "bob-access" => Ok ("bob", "bob@example.org")
  | _ => Raise (Exn "invalid JWT")
  end.

Definition demo_webp (content : string) : result string := Ok ("RIFF" ++ content).

Definition demo_storage_upload (path content : string) (options : list (string * string))
    (b : gset string) : option exn * gset string :=
  (None, {[path]} ∪ b).

(** The Smith tree with uploads switched off. *)
Definition locked_world : world :=
  World {["t1" := Tree "Smith" "owner" (Some ["ed"]) (Some ["vi"]) false false false]}
        ∅ [] ∅ ∅ 0 ∅.

Definition share_bob_request : request :=
  api_request "POST" "/api/tree/t1/share" "owner"
    (JDict [("email", JStr "bob@example.org"); ("role", JStr "viewer")]).

Definition share_unknown_request : request :=
  api_request "POST" "/api/tree/t1/share" "owner"
    (JDict [("email", JStr "nobody@example.org"); ("role", JStr "viewer")]).

Definition revoke_request (user : string) : request :=
  api_request "POST" "/api/tree/t1/revoke" "owner"
    (JDict [("user_id_to_revoke", JStr user)]).

Definition promote_vi_request : request :=
  api_request "POST" "/api/tree/t1/permission" "owner"
    (JDict [("user_id_to_change", JStr "vi"); ("new_role", JStr "editor")]).

Definition editor_invitation_request : request :=
  api_request "POST" "/api/tree/t1/invitation" "owner"
    (JDict [("role", JStr "editor"); ("limit", JNum 2)]).

Definition expire_request (user : string) : request :=
  api_request "DELETE" "/api/tree/t1/invitation/tok" user JNull.

Definition delete_tree_request (user : string) : request :=
  api_request "DELETE" "/api/tree/t1" user JNull.

Definition anonymous_join_request : request :=
  Request "GET" "/join/tok" ∅ true JNull.

Definition set_session_request (access_token : json) : request :=
  Request "POST" "/set-session" {["join_token" := "tok"]} true
    (JDict [("access_token", access_token); ("refresh_token", JStr "bob-refresh")]).

Definition will_pdf : file_storage :=
  FileStorage "last will.final.pdf" "application/pdf" "%PDF-1.7".

Definition upload_request (user : string) : request :=
  api_request "POST" "/api/tree/t1/upload/document" user JNull.

Definition read_request (path : string) (sess : gmap string string) (valid : bool)
    : request :=
  Request "GET" path sess valid JNull.

(** * Properties *)

(** ** utils.py: the permission resolver *)

(** C1.  The resolver answers [None] exactly when the tree row is absent;
    otherwise, with [is_owner], [is_editor] and [is_viewer] the three
    membership tests for the acting user, [can_edit] is
    [is_owner or is_editor] and [can_view] is
    [is_public or is_owner or is_editor or is_viewer]; without a user
    identifier (absent or the empty string) [can_edit] is false and
    [can_view] is the public flag.  In every case the world is returned
    as it was: nothing is written. *)
Theorem get_tree_and_user_permissions_spec
    (w : world) (tree_id : string) (user_id : option string) :
  match trees w !! tree_id with
  | None => get_tree_and_user_permissions tree_id user_id w = (Ok None, w)
  | Some t =>
      ∃ p, get_tree_and_user_permissions tree_id user_id w = (Ok (Some p), w)
        ∧ perm_tree p = t
        ∧ match user_id with
          | None => can_edit p = false ∧ can_view p = is_public t
          | Some u =>
              let is_owner := bool_decide (owner_id t = u) in
              let is_editor := bool_decide (u ∈ or_empty (editor_ids t)) in
              let is_viewer := bool_decide (u ∈ or_empty (viewer_ids t)) in
              (u ≠ "" →
                 can_edit p = is_owner || is_editor
                 ∧ can_view p = is_public t || is_owner || is_editor || is_viewer)
              ∧ (u = "" → can_edit p = false ∧ can_view p = is_public t)
          end
  end.
Proof.
  unfold get_tree_and_user_permissions, try_except, select_tree_single, mbind, M_bind.
  destruct (trees w !! tree_id) as [t|] eqn:Ht; [|reflexivity].
  destruct user_id as [u|]; simpl.
  - unfold str_truthy. destruct (String.eqb_spec u "") as [->|Hne]; simpl.
    + eexists; split; [reflexivity|]. simpl. split; [done|]. split; [done|]. done.
    + eexists; split; [reflexivity|]. simpl. split; [done|]. split; [|done].
      intros _. done.
  - eexists; split; [reflexivity|]. done.
Qed.

(** The resolver answers [None] for an absent tree and a permission record
    otherwise; it reads the trees table and writes nothing. *)
Lemma get_tree_and_user_permissions_result
    (w : world) (tree_id : string) (user_id : option string) :
  (trees w !! tree_id = None
   ∧ get_tree_and_user_permissions tree_id user_id w = (Ok None, w))
  ∨ (is_Some (trees w !! tree_id)
     ∧ ∃ p, get_tree_and_user_permissions tree_id user_id w = (Ok (Some p), w)).
Proof.
  unfold get_tree_and_user_permissions, try_except, select_tree_single, mbind, M_bind.
  destruct (trees w !! tree_id) as [t|]; [right|left; done].
  split; [eauto|].
  destruct user_id as [u|]; simpl; [destruct (str_truthy u)|]; eauto.
Qed.

Lemma get_tree_and_user_permissions_eq
    (w : world) (tree_id : string) (user_id : option string) :
  get_tree_and_user_permissions tree_id user_id w
  = ((get_tree_and_user_permissions tree_id user_id w).1, w).
Proof.
  destruct (get_tree_and_user_permissions_result w tree_id user_id)
    as [[_ ->]|[_ [p ->]]]; done.
Qed.

(** ** utils.py: invitations *)

(** What one call of [process_invitation] returns and leaves behind, under
    a fault plan.  A write that raises ends the call with [None]; what was
    written before stays. *)
Lemma process_invitation_with_eq (fault : fault_plan) (token user : string) (w : world) :
  process_invitation_with fault token user w =
  match tree_invitations w !! token with
  | None => (Ok None, w)
  | Some inv =>
      if bool_decide (expires_at inv < clock w) then (Ok None, w)
      else if invitation_full inv then (Ok None, w)
      else if bool_decide (user ∈ or_empty (used_by_users inv)) then
        (Ok (Some (inv_tree_id inv)), w)
      else
        match trees w !! inv_tree_id inv with
        | None => (Ok None, w)
        | Some t =>
            let member :=
              bool_decide (user = owner_id t)
              || bool_decide (user ∈ or_empty (editor_ids t))
              || bool_decide (user ∈ or_empty (viewer_ids t)) in
            let role_write :=
              if member then None
              else if String.eqb (inv_role inv) "editor" then
                Some (with_editor_ids (or_empty (editor_ids t) ++ [user])%list)
              else if String.eqb (inv_role inv) "viewer" then
                Some (with_viewer_ids (or_empty (viewer_ids t) ++ [user])%list)
              else None in
            let usage_write (w1 : world) :=
              match fault "tree_invitations" token w1 with
              | Some _ => (Ok None, w1)
              | None =>
                  (Ok (Some (inv_tree_id inv)),
                   set_tree_invitations
                     (alter (with_used_by_users
                        (or_empty (used_by_users inv) ++ [user])%list) token) w1)
              end in
            match role_write with
            | None => usage_write w
            | Some f =>
                match fault "trees" (inv_tree_id inv) w with
                | Some _ => (Ok None, w)
                | None => usage_write (set_trees (alter f (inv_tree_id inv)) w)
                end
            end
        end
  end.
Proof.
  unfold process_invitation_with, try_except, select_invitation_single, mbind, M_bind.
  destruct (tree_invitations w !! token) as [inv|]; [|reflexivity].
  unfold utcnow, gets.
  destruct (bool_decide (expires_at inv < clock w)); [reflexivity|].
  destruct (invitation_full inv); [reflexivity|].
  destruct (bool_decide (user ∈ or_empty (used_by_users inv))); [reflexivity|].
  unfold select_tree_single.
  destruct (trees w !! inv_tree_id inv) as [t|]; [|reflexivity].
  cbv zeta.
  unfold update_tree_call, update_invitation_call, update_tree, update_invitation, modify,
    pure, mret, M_ret.
  destruct (bool_decide (user = owner_id t) || bool_decide (user ∈ or_empty (editor_ids t))
            || bool_decide (user ∈ or_empty (viewer_ids t))); simpl.
  - destruct (fault "tree_invitations" token w); reflexivity.
  - destruct (String.eqb (inv_role inv) "editor").
    + destruct (fault "trees" (inv_tree_id inv) w); [reflexivity|].
      destruct (fault "tree_invitations" token _); reflexivity.
    + destruct (String.eqb (inv_role inv) "viewer").
      * destruct (fault "trees" (inv_tree_id inv) w); [reflexivity|].
        destruct (fault "tree_invitations" token _); reflexivity.
      * destruct (fault "tree_invitations" token w); reflexivity.
Qed.

(** What one call of [process_invitation] returns and leaves behind. *)
Lemma process_invitation_eq (token user : string) (w : world) :
  process_invitation token user w =
  match tree_invitations w !! token with
  | None => (Ok None, w)
  | Some inv =>
      if bool_decide (expires_at inv < clock w) then (Ok None, w)
      else if invitation_full inv then (Ok None, w)
      else if bool_decide (user ∈ or_empty (used_by_users inv)) then
        (Ok (Some (inv_tree_id inv)), w)
      else
        match trees w !! inv_tree_id inv with
        | None => (Ok None, w)
        | Some t =>
            let member :=
              bool_decide (user = owner_id t)
              || bool_decide (user ∈ or_empty (editor_ids t))
              || bool_decide (user ∈ or_empty (viewer_ids t)) in
            let w1 :=
              if member then w
              else if String.eqb (inv_role inv) "editor" then
                set_trees (alter (with_editor_ids
                  (or_empty (editor_ids t) ++ [user])%list) (inv_tree_id inv)) w
              else if String.eqb (inv_role inv) "viewer" then
                set_trees (alter (with_viewer_ids
                  (or_empty (viewer_ids t) ++ [user])%list) (inv_tree_id inv)) w
              else w in
            (Ok (Some (inv_tree_id inv)),
             set_tree_invitations
               (alter (with_used_by_users
                  (or_empty (used_by_users inv) ++ [user])%list) token) w1)
        end
  end.
Proof.
  unfold process_invitation. rewrite process_invitation_with_eq.
  destruct (tree_invitations w !! token) as [inv|]; [|reflexivity].
  destruct (bool_decide (expires_at inv < clock w)); [reflexivity|].
  destruct (invitation_full inv); [reflexivity|].
  destruct (bool_decide (user ∈ or_empty (used_by_users inv))); [reflexivity|].
  destruct (trees w !! inv_tree_id inv) as [t|]; [|reflexivity].
  cbv zeta. unfold no_fault.
  destruct (bool_decide (user = owner_id t) || bool_decide (user ∈ or_empty (editor_ids t))
            || bool_decide (user ∈ or_empty (viewer_ids t))); [reflexivity|].
  destruct (String.eqb (inv_role inv) "editor"); [reflexivity|].
  destruct (String.eqb (inv_role inv) "viewer"); reflexivity.
Qed.

(** C10.  A user who is already owner, editor or viewer of the tree and
    consumes an unexpired, unexhausted invitation for the first time gets
    the tree identifier; the trees table is left as it was, and the user is
    appended to the usage record of the invitation. *)
Theorem member_join_consumes_slot
    (w : world) (token user : string) (inv : invitation) (t : tree) :
  tree_invitations w !! token = Some inv →
  trees w !! inv_tree_id inv = Some t →
  ¬ (expires_at inv < clock w) →
  invitation_full inv = false →
  user ∉ or_empty (used_by_users inv) →
  (user = owner_id t ∨ user ∈ or_empty (editor_ids t)
   ∨ user ∈ or_empty (viewer_ids t)) →
  ∃ w', process_invitation token user w = (Ok (Some (inv_tree_id inv)), w')
    ∧ trees w' = trees w
    ∧ tree_invitations w' !! token =
        Some (with_used_by_users (or_empty (used_by_users inv) ++ [user])%list inv)
    ∧ length (or_empty (used_by_users
               (with_used_by_users (or_empty (used_by_users inv) ++ [user])%list inv)))
      = S (length (or_empty (used_by_users inv))).
Proof.
  intros Hinv Ht Hexp Hfull Hused Hmem.
  rewrite process_invitation_eq, Hinv, Ht.
  rewrite (bool_decide_eq_false_2 _ Hexp), Hfull, (bool_decide_eq_false_2 _ Hused).
  cbv zeta.
  assert (bool_decide (user = owner_id t)
          || bool_decide (user ∈ or_empty (editor_ids t))
          || bool_decide (user ∈ or_empty (viewer_ids t)) = true) as ->.
  { destruct Hmem as [H|[H|H]].
    - rewrite (bool_decide_eq_true_2 _ H). done.
    - rewrite (bool_decide_eq_true_2 _ H). by rewrite orb_true_r.
    - rewrite (bool_decide_eq_true_2 _ H). by rewrite orb_true_r. }
  eexists; split; [reflexivity|]. simpl.
  split; [done|]. split.
  - rewrite lookup_alter_eq, Hinv. done.
  - rewrite length_app. simpl. lia.
Qed.

(** C4 (amended).  For a user already in the usage record of the
    invitation, a repeat consumption writes nothing; it returns the tree
    identifier of the invitation when the invitation is neither expired nor
    at its usage limit, and [None] otherwise. *)
Theorem repeat_join_spec
    (w : world) (token user : string) (inv : invitation) :
  tree_invitations w !! token = Some inv →
  user ∈ or_empty (used_by_users inv) →
  process_invitation token user w =
    (Ok (if bool_decide (expires_at inv < clock w) || invitation_full inv
         then None else Some (inv_tree_id inv)), w).
Proof.
  intros Hinv Hused.
  rewrite process_invitation_eq, Hinv.
  destruct (bool_decide (expires_at inv < clock w)); [reflexivity|].
  destruct (invitation_full inv); [reflexivity|].
  by rewrite (bool_decide_eq_true_2 _ Hused).
Qed.

(** The first consumption leaves the user in the usage record and returns
    the tree identifier stored in the invitation, which later calls see
    unchanged. *)
Lemma first_join_records_user (w w' : world) (token user tree_id : string) :
  process_invitation token user w = (Ok (Some tree_id), w') →
  ∃ inv', tree_invitations w' !! token = Some inv'
    ∧ inv_tree_id inv' = tree_id
    ∧ user ∈ or_empty (used_by_users inv').
Proof.
  rewrite process_invitation_eq.
  destruct (tree_invitations w !! token) as [inv|] eqn:Hinv; [|done].
  destruct (bool_decide (expires_at inv < clock w)); [done|].
  destruct (invitation_full inv); [done|].
  case_bool_decide as Hused.
  - intros [= <- <-]. eauto.
  - destruct (trees w !! inv_tree_id inv) as [t|]; [|done].
    cbv zeta. intros [= <- <-]. eexists. split.
    + simpl. rewrite lookup_alter_eq.
      assert (tree_invitations
        (if bool_decide (user = owner_id t)
            || bool_decide (user ∈ or_empty (editor_ids t))
            || bool_decide (user ∈ or_empty (viewer_ids t))
         then w
         else if String.eqb (inv_role inv) "editor"
              then set_trees (alter (with_editor_ids
                     (or_empty (editor_ids t) ++ [user])%list) (inv_tree_id inv)) w
              else if String.eqb (inv_role inv) "viewer"
                   then set_trees (alter (with_viewer_ids
                          (or_empty (viewer_ids t) ++ [user])%list) (inv_tree_id inv)) w
                   else w) = tree_invitations w) as ->.
      { repeat case_match; done. }
      rewrite Hinv. reflexivity.
    + split; [done|]. simpl. set_solver.
Qed.








(** ** api_sharing.py: the membership lists *)

Lemma elem_of_py_remove (x u : string) (l : list string) :
  x ∈ py_remove u l → x ∈ l.
Proof.
  induction l as [|y l IH]; simpl; [done|].
  destruct (bool_decide (y = u)); set_solver.
Qed.

Lemma NoDup_py_remove (u : string) (l : list string) :
  NoDup l → NoDup (py_remove u l).
Proof.
  induction 1 as [|y l Hy Hl IH]; simpl; [constructor|].
  destruct (bool_decide (y = u)); [done|].
  constructor; [|done]. intros Hin. by apply elem_of_py_remove in Hin.
Qed.

Lemma not_elem_of_py_remove (u : string) (l : list string) :
  NoDup l → u ∉ py_remove u l.
Proof.
  induction 1 as [|y l Hy Hl IH]; simpl; [set_solver|].
  destruct (bool_decide (y = u)) eqn:Hyu.
  - apply bool_decide_eq_true_1 in Hyu. by subst.
  - apply bool_decide_eq_false_1 in Hyu. set_solver.
Qed.

Ltac bool_hyps :=
  repeat match goal with
  | H : negb _ = false |- _ => apply negb_false_iff in H
  | H : negb _ = true |- _ => apply negb_true_iff in H
  | H : _ || _ = false |- _ => apply orb_false_iff in H as [? ?]
  | H : _ && _ = true |- _ => apply andb_true_iff in H as [? ?]
  | H : bool_decide _ = true |- _ => apply bool_decide_eq_true_1 in H
  | H : bool_decide _ = false |- _ => apply bool_decide_eq_false_1 in H
  end.

(** The decorators of the sharing routes either answer themselves, writing
    nothing, or hand the request to the body. *)
Lemma login_csrf_cases (f : view) (req : request) (w : world) :
  (∃ resp, login_required (csrf_protect_api f) req w = (Ok resp, w))
  ∨ login_required (csrf_protect_api f) req w = f req w.
Proof.
  unfold login_required, csrf_protect_api, csrf_protect, try_except, mbind, M_bind,
    pure, raise, mret, M_ret.
  repeat case_match; simplify_eq; eauto.
Qed.

Lemma dispatch_world (v : view) (req : request) (w : world) :
  (dispatch v req w).2 = (v req w).2.
Proof. unfold dispatch. by destruct (v req w) as [[?|?] ?]. Qed.

Lemma every_tree_alter (P : tree → Prop) (f : tree → tree) (id : string) (t : tree)
    (w : world) :
  every_tree P w → trees w !! id = Some t → P (f t) →
  every_tree P (set_trees (alter f id) w).
Proof.
  intros Hall Ht HP id' t'. simpl.
  destruct (decide (id = id')) as [<-|Hne].
  - rewrite lookup_alter_eq, Ht. simpl. by intros [= <-].
  - rewrite lookup_alter_ne by done. apply Hall.
Qed.

Lemma roles_disjoint_add_editor (t : tree) (u : string) :
  roles_disjoint t → u ≠ owner_id t → u ∉ or_empty (viewer_ids t) →
  roles_disjoint (with_editor_ids (or_empty (editor_ids t) ++ [u])%list t).
Proof. unfold roles_disjoint. simpl. set_solver. Qed.

Lemma roles_disjoint_add_viewer (t : tree) (u : string) :
  roles_disjoint t → u ≠ owner_id t → u ∉ or_empty (editor_ids t) →
  roles_disjoint (with_viewer_ids (or_empty (viewer_ids t) ++ [u])%list t).
Proof. unfold roles_disjoint. simpl. set_solver. Qed.

Lemma roles_disjoint_remove_editor (t : tree) (u : string) :
  roles_disjoint t →
  roles_disjoint (with_editor_ids (py_remove u (or_empty (editor_ids t))) t).
Proof.
  unfold roles_disjoint. simpl. intros (Ho & Hv & Hd). split; [|split; [done|]].
  - intros Hin. by apply elem_of_py_remove in Hin.
  - intros x [Hin Hx]. apply elem_of_py_remove in Hin. by apply (Hd x).
Qed.

Lemma roles_disjoint_remove_viewer (t : tree) (u : string) :
  roles_disjoint t →
  roles_disjoint (with_viewer_ids (py_remove u (or_empty (viewer_ids t))) t).
Proof.
  unfold roles_disjoint. simpl. intros (Ho & Hv & Hd). split; [done|split].
  - intros Hin. by apply elem_of_py_remove in Hin.
  - intros x [Hx Hin]. apply elem_of_py_remove in Hin. by apply (Hd x).
Qed.

Lemma roles_wf_add_editor (t : tree) (u : string) :
  roles_wf t → u ≠ owner_id t →
  u ∉ or_empty (editor_ids t) → u ∉ or_empty (viewer_ids t) →
  roles_wf (with_editor_ids (or_empty (editor_ids t) ++ [u])%list t).
Proof.
  intros (He & Hv & Hd) Ho Hue Huv. split; [|split; [done|]].
  - simpl. apply NoDup_app. split; [done|]. split; [|apply NoDup_singleton].
    intros x Hx Hx'. apply list_elem_of_singleton in Hx'. by subst.
  - by apply roles_disjoint_add_editor.
Qed.

Lemma roles_wf_add_viewer (t : tree) (u : string) :
  roles_wf t → u ≠ owner_id t →
  u ∉ or_empty (editor_ids t) → u ∉ or_empty (viewer_ids t) →
  roles_wf (with_viewer_ids (or_empty (viewer_ids t) ++ [u])%list t).
Proof.
  intros (He & Hv & Hd) Ho Hue Huv. split; [done|split].
  - simpl. apply NoDup_app. split; [done|]. split; [|apply NoDup_singleton].
    intros x Hx Hx'. apply list_elem_of_singleton in Hx'. by subst.
  - by apply roles_disjoint_add_viewer.
Qed.

Lemma roles_wf_remove_editor (t : tree) (u : string) :
  roles_wf t →
  roles_wf (with_editor_ids (py_remove u (or_empty (editor_ids t))) t).
Proof.
  intros (He & Hv & Hd). split; [|split; [done|]].
  - simpl. by apply NoDup_py_remove.
  - by apply roles_disjoint_remove_editor.
Qed.

Lemma roles_wf_remove_viewer (t : tree) (u : string) :
  roles_wf t →
  roles_wf (with_viewer_ids (py_remove u (or_empty (viewer_ids t))) t).
Proof.
  intros (He & Hv & Hd). split; [done|split].
  - simpl. by apply NoDup_py_remove.
  - by apply roles_disjoint_remove_viewer.
Qed.

(** Moving a user who is not the owner to a role, as
    [change_tree_permission] does it: first occurrence removed from each
    list that holds the user, then appended to the list of the new role. *)
Lemma roles_wf_change (t : tree) (u : string) (to_editor : bool) :
  roles_wf t → u ≠ owner_id t →
  let editors := or_empty (editor_ids t) in
  let viewers := or_empty (viewer_ids t) in
  let editors1 := if bool_decide (u ∈ editors) then py_remove u editors else editors in
  let viewers1 := if bool_decide (u ∈ viewers) then py_remove u viewers else viewers in
  let editors2 := if to_editor then (editors1 ++ [u])%list else editors1 in
  let viewers2 := if to_editor then viewers1 else (viewers1 ++ [u])%list in
  roles_wf (with_viewer_ids viewers2 (with_editor_ids editors2 t)).
Proof.
  intros (He & Hv & Ho1 & Ho2 & Hd) Ho. cbv zeta.
  set (editors := or_empty (editor_ids t)) in *.
  set (viewers := or_empty (viewer_ids t)) in *.
  assert (He1 : NoDup (if bool_decide (u ∈ editors) then py_remove u editors else editors)
                ∧ (u ∉ (if bool_decide (u ∈ editors) then py_remove u editors else editors))
                ∧ ∀ x, x ∈ (if bool_decide (u ∈ editors) then py_remove u editors
                            else editors) → x ∈ editors).
  { destruct (bool_decide (u ∈ editors)) eqn:Hmem.
    - split; [by apply NoDup_py_remove|]. split; [by apply not_elem_of_py_remove|].
      intros x. apply elem_of_py_remove.
    - apply bool_decide_eq_false_1 in Hmem. done. }
  assert (Hv1 : NoDup (if bool_decide (u ∈ viewers) then py_remove u viewers else viewers)
                ∧ (u ∉ (if bool_decide (u ∈ viewers) then py_remove u viewers else viewers))
                ∧ ∀ x, x ∈ (if bool_decide (u ∈ viewers) then py_remove u viewers
                            else viewers) → x ∈ viewers).
  { destruct (bool_decide (u ∈ viewers)) eqn:Hmem.
    - split; [by apply NoDup_py_remove|]. split; [by apply not_elem_of_py_remove|].
      intros x. apply elem_of_py_remove.
    - apply bool_decide_eq_false_1 in Hmem. done. }
  destruct He1 as (Hnd1 & Hu1 & Hs1), Hv1 as (Hnd2 & Hu2 & Hs2).
  set (editors1 := if bool_decide (u ∈ editors) then _ else _) in *.
  set (viewers1 := if bool_decide (u ∈ viewers) then _ else _) in *.
  unfold roles_wf, roles_disjoint. simpl.
  destruct to_editor.
  - split; [|split; [done|]].
    + apply NoDup_app. split; [done|]. split; [|apply NoDup_singleton].
      intros x Hx Hx'. apply list_elem_of_singleton in Hx'. by subst.
    + split; [|split].
      * intros Hin. apply elem_of_app in Hin as [Hin|Hin]; [by apply Ho1, Hs1|].
        apply list_elem_of_singleton in Hin. by subst.
      * intros Hin. by apply Ho2, Hs2.
      * intros x [Hin Hx]. apply elem_of_app in Hin as [Hin|Hin].
        -- apply (Hd x). split; [by apply Hs1|by apply Hs2].
        -- apply list_elem_of_singleton in Hin. by subst.
  - split; [done|split].
    + apply NoDup_app. split; [done|]. split; [|apply NoDup_singleton].
      intros x Hx Hx'. apply list_elem_of_singleton in Hx'. by subst.
    + split; [|split].
      * intros Hin. by apply Ho1, Hs1.
      * intros Hin. apply elem_of_app in Hin as [Hin|Hin]; [by apply Ho2, Hs2|].
        apply list_elem_of_singleton in Hin. by subst.
      * intros x [Hx Hin]. apply elem_of_app in Hin as [Hin|Hin].
        -- apply (Hd x). split; [by apply Hs1|by apply Hs2].
        -- apply list_elem_of_singleton in Hin. by subst.
Qed.

Ltac unfold_handlers :=
  unfold share_tree_body, revoke_tree_access_body, change_tree_permission_body,
    py_get, fetch_owned_tree, get_user_id_by_email, select_tree_single, update_tree,
    modify, try_except, mbind, M_bind, pure, raise, mret, M_ret.

Lemma share_tree_body_inv (P : tree → Prop) (tree_id : string) (req : request)
    (w : world) :
  (∀ t u, P t → u ≠ owner_id t →
     u ∉ or_empty (editor_ids t) → u ∉ or_empty (viewer_ids t) →
     P (with_editor_ids (or_empty (editor_ids t) ++ [u])%list t)
     ∧ P (with_viewer_ids (or_empty (viewer_ids t) ++ [u])%list t)) →
  every_tree P w → every_tree P (share_tree_body tree_id req w).2.
Proof.
  intros Hadd Hall. unfold_handlers.
  repeat (case_match; simplify_eq; simpl in *; try exact Hall).
  all: bool_hyps.
  all: match goal with
       | Ht : trees ?w0 !! ?id = Some ?t |- _ =>
           apply (every_tree_alter _ _ id t); [done|done|];
           apply Hadd; [by apply (Hall id)|congruence|done|done]
       end.
Qed.

Lemma revoke_tree_access_body_inv (P : tree → Prop) (tree_id : string)
    (req : request) (w : world) :
  (∀ t u, P t →
     P (with_editor_ids (py_remove u (or_empty (editor_ids t))) t)
     ∧ P (with_viewer_ids (py_remove u (or_empty (viewer_ids t))) t)) →
  every_tree P w → every_tree P (revoke_tree_access_body tree_id req w).2.
Proof.
  intros Hrem Hall. unfold_handlers.
  repeat (case_match; simplify_eq; simpl in *; try exact Hall).
  all: match goal with
       | Ht : trees ?w0 !! ?id = Some ?t |- _ =>
           apply (every_tree_alter _ _ id t); [done|done|];
           apply Hrem; by apply (Hall id)
       end.
Qed.

Lemma change_tree_permission_body_wf (tree_id : string) (req : request) (w : world) :
  every_tree roles_wf w →
  every_tree roles_wf (change_tree_permission_body tree_id req w).2.
Proof.
  intros Hall. unfold_handlers.
  repeat (case_match; simplify_eq; simpl in *; try exact Hall).
  all: bool_hyps.
  all: match goal with
       | Ht : trees ?w0 !! ?id = Some ?t, Hs : Some (owner_id ?t) = _ !! "user_id"
         |- every_tree _ (set_trees (alter _ _) _) =>
           apply (every_tree_alter roles_wf _ id t); [done|done|]
       end.
  all: match goal with
       | Ht : trees _ !! ?id = Some ?t, Hs : Some (owner_id ?t) = ?o,
         Hj : json_eq_opt (JStr ?s) ?o = false |- _ =>
           assert (Hne : s ≠ owner_id t)
             by (rewrite <- Hs in Hj; simpl in Hj;
                 apply bool_decide_eq_false_1 in Hj; done);
           pose proof (roles_wf_change t s true (Hall id t Ht) Hne) as Hto_editor;
           pose proof (roles_wf_change t s false (Hall id t Ht) Hne) as Hto_viewer;
           cbv zeta in Hto_editor, Hto_viewer
       end.
  all: repeat match goal with
       | H : ?x ∈ ?l |- _ =>
           rewrite (bool_decide_eq_true_2 _ H) in Hto_editor, Hto_viewer; revert H
       | H : ?x ∉ ?l |- _ =>
           rewrite (bool_decide_eq_false_2 _ H) in Hto_editor, Hto_viewer; revert H
       end.
  all: intros; assumption.
Qed.

Lemma process_invitation_inv (P : tree → Prop) (token user : string) (w : world) :
  (∀ t u, P t → u ≠ owner_id t →
     u ∉ or_empty (editor_ids t) → u ∉ or_empty (viewer_ids t) →
     P (with_editor_ids (or_empty (editor_ids t) ++ [u])%list t)
     ∧ P (with_viewer_ids (or_empty (viewer_ids t) ++ [u])%list t)) →
  every_tree P w → every_tree P (process_invitation token user w).2.
Proof.
  intros Hadd Hall. rewrite process_invitation_eq.
  repeat (case_match; simplify_eq; simpl in *; try exact Hall).
  all: bool_hyps.
  all: match goal with
       | Ht : trees ?w0 !! ?id = Some ?t |- _ =>
           intros id' t'; simpl; intros Hlk;
           eapply (every_tree_alter _ _ id t _ Hall Ht); [|exact Hlk];
           apply Hadd; [by apply (Hall id)|congruence|done|done]
       end.
Qed.

Lemma roles_disjoint_add (t : tree) (u : string) :
  roles_disjoint t → u ≠ owner_id t →
  u ∉ or_empty (editor_ids t) → u ∉ or_empty (viewer_ids t) →
  roles_disjoint (with_editor_ids (or_empty (editor_ids t) ++ [u])%list t)
  ∧ roles_disjoint (with_viewer_ids (or_empty (viewer_ids t) ++ [u])%list t).
Proof.
  intros. split; [by apply roles_disjoint_add_editor|by apply roles_disjoint_add_viewer].
Qed.

Lemma roles_wf_add (t : tree) (u : string) :
  roles_wf t → u ≠ owner_id t →
  u ∉ or_empty (editor_ids t) → u ∉ or_empty (viewer_ids t) →
  roles_wf (with_editor_ids (or_empty (editor_ids t) ++ [u])%list t)
  ∧ roles_wf (with_viewer_ids (or_empty (viewer_ids t) ++ [u])%list t).
Proof.
  intros. split; [by apply roles_wf_add_editor|by apply roles_wf_add_viewer].
Qed.

Lemma decorated_world (P : world → Prop) (f : view) (req : request) (w : world) :
  P w → P (f req w).2 →
  P (dispatch (login_required (csrf_protect_api f)) req w).2.
Proof.
  intros Hw Hf. rewrite dispatch_world.
  destruct (login_csrf_cases f req w) as [[resp ->]| ->]; done.
Qed.

(** C6.  From a database in which every tree has its owner in neither
    list, nobody in both lists and, the lists being sets, no identifier
    twice in a list, [share_tree], [revoke_tree_access],
    [change_tree_permission] and the consumption of an invitation lead to a
    database with the same property: the owner is in neither list and no
    user is in both.  For [share_tree], [revoke_tree_access] and the
    consumption of an invitation this holds of lists with repetitions as
    well. *)
Theorem sharing_preserves_roles (w : world) :
  (every_tree roles_disjoint w →
     (∀ tree_id req,
        every_tree roles_disjoint (dispatch (share_tree tree_id) req w).2)
     ∧ (∀ tree_id req,
        every_tree roles_disjoint (dispatch (revoke_tree_access tree_id) req w).2)
     ∧ (∀ token user,
        every_tree roles_disjoint (process_invitation token user w).2))
  ∧ (every_tree roles_wf w →
     (∀ tree_id req,
        every_tree roles_wf (dispatch (share_tree tree_id) req w).2)
     ∧ (∀ tree_id req,
        every_tree roles_wf (dispatch (revoke_tree_access tree_id) req w).2)
     ∧ (∀ tree_id req,
        every_tree roles_wf (dispatch (change_tree_permission tree_id) req w).2)
     ∧ (∀ token user,
        every_tree roles_wf (process_invitation token user w).2)).
Proof.
  split; intros Hall.
  - split; [|split].
    + intros tree_id req. apply (decorated_world (every_tree roles_disjoint)); [done|].
      apply share_tree_body_inv; [apply roles_disjoint_add|done].
    + intros tree_id req. apply (decorated_world (every_tree roles_disjoint)); [done|].
      apply revoke_tree_access_body_inv; [|done].
      intros t u Ht. split;
        [by apply roles_disjoint_remove_editor|by apply roles_disjoint_remove_viewer].
    + intros token user. apply process_invitation_inv; [apply roles_disjoint_add|done].
  - split; [|split; [|split]].
    + intros tree_id req. apply (decorated_world (every_tree roles_wf)); [done|].
      apply share_tree_body_inv; [apply roles_wf_add|done].
    + intros tree_id req. apply (decorated_world (every_tree roles_wf)); [done|].
      apply revoke_tree_access_body_inv; [|done].
      intros t u Ht. split;
        [by apply roles_wf_remove_editor|by apply roles_wf_remove_viewer].
    + intros tree_id req. apply (decorated_world (every_tree roles_wf)); [done|].
      by apply change_tree_permission_body_wf.
    + intros token user. apply process_invitation_inv; [apply roles_wf_add|done].
Qed.

(** ** Decorators: session and CSRF token *)

Lemma no_cache_eq (f : view) (req : request) (w : world) :
  no_cache f req w = f req w.
Proof.
  unfold no_cache, mbind, M_bind, pure, mret, M_ret.
  by destruct (f req w) as [[resp|e] w'].
Qed.

Lemma login_required_anonymous (f : view) (req : request) (w : world) :
  session req !! "user_id" = None →
  startswith (req_path req) "/api/" = true →
  login_required f req w = (Ok (json_error "Authentication required" 401), w).
Proof.
  intros Hs Hp. unfold login_required.
  rewrite bool_decide_eq_true_2 by done. by rewrite Hp.
Qed.

Lemma login_required_logged_in (f : view) (req : request) (w : world) :
  is_Some (session req !! "user_id") →
  login_required f req w = f req w.
Proof.
  intros [u Hu]. unfold login_required.
  rewrite bool_decide_eq_false_2; [done|]. by rewrite Hu.
Qed.

Lemma csrf_protect_api_invalid (f : view) (req : request) (w : world) :
  req_method req ∈ WTF_CSRF_METHODS app_config →
  csrf_token_valid req = false →
  csrf_protect_api f req w
  = (Ok (json_error "CSRF token missing or incorrect" 403), w).
Proof.
  intros Hm Hv.
  unfold csrf_protect_api, csrf_protect, try_except, mbind, M_bind, raise.
  rewrite bool_decide_eq_true_2 by done. by rewrite Hv.
Qed.

Lemma csrf_protect_api_valid (f : view) (req : request) (w : world) :
  csrf_token_valid req = true →
  csrf_protect_api f req w = f req w.
Proof.
  intros Hv.
  unfold csrf_protect_api, csrf_protect, try_except, mbind, M_bind, raise.
  rewrite Hv. by destruct (bool_decide _).
Qed.

Section Endpoints.

Variable nh3_clean : string → string.
Variable pg_int : json → option Z.
Variable batch_update_persons_atomic :
  string → json → json → json → list person_row → result (list person_row).
Variable storage_remove : list string → gset string → option exn * gset string.
Variable gen_random_uuid : world → string.
Variable create_tree_body : view.
Variable delete_tree_body : string → view.
Variable upload_file_body : string → string → view.

(** C2.  Each mutating route (tree creation and deletion, batch person
    update, file upload, share, revoke, permission change, invitation
    creation and revocation), for a request routed to it, answers 401
    without a user identifier in the session, and answers 403 when the
    session has one and the request carries no valid CSRF token; in both
    cases the body of the view is not run and nothing is written. *)
Theorem mutating_endpoints_guarded
    (tree_id type token name : string) (methods : list string) (v : view)
    (req : request) (w : world) :
  (name, methods, v)
    ∈ mutating_endpoints nh3_clean pg_int batch_update_persons_atomic storage_remove
        gen_random_uuid create_tree_body delete_tree_body upload_file_body
        tree_id type token →
  req_method req ∈ methods →
  startswith (req_path req) "/api/" = true →
  (session req !! "user_id" = None →
     dispatch v req w = (json_error "Authentication required" 401, w))
  ∧ (is_Some (session req !! "user_id") → csrf_token_valid req = false →
     dispatch v req w = (json_error "CSRF token missing or incorrect" 403, w)).
Proof.
  intros Hin Hmethod Hpath.
  assert (Hcsrf : req_method req ∈ WTF_CSRF_METHODS app_config).
  { unfold mutating_endpoints in Hin. simpl.
    repeat (apply elem_of_cons in Hin as [Hin|Hin];
            [simplify_eq; set_solver|]).
    by apply elem_of_nil in Hin. }
  unfold mutating_endpoints in Hin.
  repeat (apply elem_of_cons in Hin as [Hin|Hin];
          [simplify_eq;
           unfold create_tree, delete_tree, batch_update_persons, upload_file,
             share_tree, revoke_tree_access, change_tree_permission,
             create_invitation, expire_invitation_link;
           (split;
            [intros Hs; unfold dispatch;
             match goal with
             | |- context [login_required ?f req w] =>
                 by rewrite (login_required_anonymous f req w Hs Hpath)
             end
            |intros Hs Hv; unfold dispatch;
             match goal with
             | |- context [login_required ?f req w] =>
                 rewrite (login_required_logged_in f req w Hs)
             end;
             rewrite ?no_cache_eq;
             match goal with
             | |- context [csrf_protect_api ?f req w] =>
                 by rewrite (csrf_protect_api_invalid f req w Hcsrf Hv)
             end])|]).
  by apply elem_of_nil in Hin.
Qed.

End Endpoints.

(** ** api_files.py: serving a stored file *)

Section Files.

Variable create_signed_url : string → Z → world → result string.

(** C7.  The file route never sends file content and writes nothing.  It
    answers 404 when the tree is absent, 403 when the requester may not view
    the tree, 400 when the path does not begin with the tree identifier
    followed by a slash; with view permission and a scoped path it redirects
    (302) to the signed URL issued by the storage service for the configured
    lifetime, or answers 500 when the service fails.  So a 302 is answered
    only with view permission and a scoped path. *)
Theorem serve_protected_file_spec
    (tree_id file_path : string) (req : request) (w : world) :
  let user_id := session req !! "user_id" in
  let resolved := get_tree_and_user_permissions tree_id user_id w in
  let scoped := startswith file_path (tree_id ++ "/") in
  ∃ resp,
    dispatch (serve_protected_file create_signed_url tree_id file_path) req w
    = (resp, w)
    ∧ (∀ directory name, resp ≠ SendFile directory name)
    ∧ (trees w !! tree_id = None → resp = json_error "Tree not found" 404)
    ∧ (∀ p, resolved = (Ok (Some p), w) → can_view p = false → status_of resp = 403)
    ∧ (∀ p, resolved = (Ok (Some p), w) → can_view p = true → scoped = false →
         status_of resp = 400)
    ∧ (∀ p, resolved = (Ok (Some p), w) → can_view p = true → scoped = true →
         match create_signed_url file_path SIGNED_URL_EXPIRATION_SECONDS w with
         | Ok url => resp = Redirect (Url url) 302
         | Raise _ => status_of resp = 500
         end)
    ∧ (status_of resp = 302 →
         ∃ p, resolved = (Ok (Some p), w) ∧ can_view p = true ∧ scoped = true).
Proof.
  cbv zeta. unfold dispatch, serve_protected_file. rewrite no_cache_eq.
  unfold mbind, M_bind.
  destruct (get_tree_and_user_permissions_result w tree_id (session req !! "user_id"))
    as [[Hnone Hres]|[Hsome [p Hres]]]; rewrite Hres.
  - eexists. split; [reflexivity|]. repeat split; try done.
  - assert (Hsome' : trees w !! tree_id ≠ None).
    { intros Hnone. rewrite Hnone in Hsome. by destruct Hsome. }
    destruct (can_view p) eqn:Hview; simpl;
      [destruct (startswith file_path (tree_id ++ "/")) eqn:Hscoped; simpl;
       [unfold try_except, signed_url_for, mbind, M_bind;
        destruct (create_signed_url file_path SIGNED_URL_EXPIRATION_SECONDS w)
          as [url|e] eqn:Hsign; simpl|]|].
    all: eexists; split; [reflexivity|].
    all: repeat split; try done.
    all: try (intros p' [= <-]; congruence).
    all: eauto.
Qed.

End Files.

(** ** api_data.py: new person identifiers *)

Lemma get_tree_and_user_permissions_trees
    (w w' : world) (tree_id : string) (user_id : option string) :
  trees w' = trees w →
  (get_tree_and_user_permissions tree_id user_id w').1
  = (get_tree_and_user_permissions tree_id user_id w).1.
Proof.
  intros Ht.
  unfold get_tree_and_user_permissions, try_except, select_tree_single, mbind, M_bind.
  rewrite Ht. destruct (trees w !! tree_id); [|done].
  destruct user_id as [u|]; simpl; [destruct (str_truthy u)|]; done.
Qed.

Lemma may_edit_trees (tree_id : string) (w w' : world) (req : request) :
  trees w' = trees w → may_edit tree_id w req → may_edit tree_id w' req.
Proof.
  intros Ht (Hs & Hv & p & Hres & Hedit). split; [done|]. split; [done|].
  exists p. by rewrite (get_tree_and_user_permissions_trees w).
Qed.

(** One call that finds a non-zero identifier in the cache. *)
Lemma get_new_id_step (tree_id : string) (req : request) (w : world) (last : Z) :
  may_edit tree_id w req →
  new_ids_dict w !! tree_id = Some last →
  last ≠ 0 →
  dispatch (get_new_id tree_id) req w
  = (Jsonify [("id", JNum (last + 1)); ("success", JBool true)] 200,
     set_new_ids_dict (<[tree_id := last + 1]>) w).
Proof.
  intros (Hs & Hv & p & Hres & Hedit) Hcache Hnz.
  unfold dispatch, get_new_id.
  rewrite login_required_logged_in, no_cache_eq, csrf_protect_api_valid by done.
  unfold get_new_id_body, mbind, M_bind.
  rewrite get_tree_and_user_permissions_eq, Hres, Hedit. simpl.
  unfold try_except, gets, modify, mbind, M_bind, pure, mret, M_ret.
  rewrite Hcache.
  assert (Z.eqb last 0 = false) as -> by by apply Z.eqb_neq.
  done.
Qed.

(** When the cache of the process holds a non-zero identifier for the
    tree, a call that passes the session, CSRF and edit checks returns that
    identifier plus one and stores it, whatever the persons table holds.
    From a positive cached identifier on, successive permitted calls return
    the following integers in order: the sequence is strictly increasing
    and does not start again. *)
Theorem get_new_id_cached (tree_id : string) (w : world) (last : Z) :
  new_ids_dict w !! tree_id = Some last →
  (last ≠ 0 →
     ∀ (req : request) (rows : list person_row),
       may_edit tree_id w req →
       dispatch (get_new_id tree_id) req (set_persons (λ _, rows) w)
       = (Jsonify [("id", JNum (last + 1)); ("success", JBool true)] 200,
          set_new_ids_dict (<[tree_id := last + 1]>) (set_persons (λ _, rows) w)))
  ∧ (0 < last →
     ∀ reqs : list request,
       Forall (may_edit tree_id w) reqs →
       (serve_all (get_new_id tree_id) reqs w).1
       = map (λ i, Jsonify [("id", JNum (last + Z.of_nat i)); ("success", JBool true)]
                     200) (seq 1 (length reqs))).
Proof.
  intros Hcache. split.
  - intros Hnz req rows Hreq. apply get_new_id_step; [|done|done].
    by apply (may_edit_trees tree_id w).
  - intros Hpos reqs. revert w last Hcache Hpos.
    induction reqs as [|req reqs IH]; intros w last Hcache Hpos Hall; [done|].
    apply Forall_cons in Hall as [Hreq Hall].
    cbn [serve_all length].
    rewrite (get_new_id_step _ _ _ last) by (done || lia).
    specialize (IH (set_new_ids_dict (<[tree_id := last + 1]>) w) (last + 1)).
    destruct (serve_all _ reqs _) as [rest w2]. simpl in *.
    rewrite IH.
    + f_equal.
      rewrite <- (seq_shift (length reqs) 1), map_map. apply map_ext. intros i.
      by replace (last + 1 + Z.of_nat i) with (last + Z.of_nat (S i)) by lia.
    + by rewrite lookup_insert_eq.
    + lia.
    + eapply Forall_impl; [exact Hall|]. intros r. by apply may_edit_trees.
Qed.

(** ** api_data.py: validation of a batch update *)

Section Batch.

Variable nh3_clean : string → string.
Variable pg_int : json → option Z.
Variable batch_update_persons_atomic :
  string → json → json → json → list person_row → result (list person_row).
Variable storage_remove : list string → gset string → option exn * gset string.

Local Abbreviation batch_update_persons_view :=
  (batch_update_persons nh3_clean pg_int batch_update_persons_atomic storage_remove).

Lemma dangerous_url_refused (raw : string) :
  dangerous_url raw → url_refused raw = true.
Proof.
  unfold dangerous_url, url_refused, is_dangerous. cbv zeta.
  set (url := lower (strip raw)). intros Hd.
  assert (Hne : str_truthy url = true).
  { destruct url; [|done]. destruct Hd as [Hd|[Hd|Hd]]; discriminate Hd. }
  rewrite Hne. simpl. apply orb_true_iff. right.
  destruct Hd as [-> | [-> | ->]]; rewrite ?orb_true_r; done.
Qed.

Lemma assoc_sanitize_fields (k : string) (d : list (string * json)) :
  k ∈ ["id"; "photo"; "documents"] →
  assoc k (sanitize_fields nh3_clean d) = assoc k d.
Proof.
  intros Hk. induction d as [|[k' v] d IH]; [done|].
  simpl. destruct v; simpl; rewrite ?IH; try done.
  destruct (bool_decide (k' ∈ ["id"; "photo"; "documents"])) eqn:Hk'; simpl;
    rewrite ?IH; [done|].
  destruct (String.eqb_spec k k') as [->|]; [|done].
  apply bool_decide_eq_false_1 in Hk'. done.
Qed.

Lemma check_photo_status (d : list (string * json)) (resp : response) :
  check_photo d = Some resp → ∃ msg, resp = json_error msg 400.
Proof.
  unfold check_photo. repeat case_match; intros; simplify_eq; eauto.
Qed.

Lemma check_documents_status (docs : list json) (resp : response) :
  check_documents docs = Some resp → ∃ msg, resp = json_error msg 400.
Proof.
  induction docs as [|doc docs IH]; simpl; [done|].
  repeat case_match; intros; simplify_eq; eauto.
Qed.

Lemma check_documents_dangerous
    (docs : list json) (doc : list (string * json)) (url : string) :
  JDict doc ∈ docs → assoc "url" doc = Some (JStr url) → dangerous_url url →
  is_Some (check_documents docs).
Proof.
  intros Hin Hurl Hd. induction docs as [|x docs IH]; [by apply elem_of_nil in Hin|].
  apply elem_of_cons in Hin as [<-|Hin].
  - simpl. rewrite Hurl, (dangerous_url_refused _ Hd). eauto.
  - simpl. specialize (IH Hin). repeat case_match; eauto.
Qed.

(** Validation of one JSON object: it writes nothing and does not raise;
    its early response, if any, is a 400; a dangerous URL forces one. *)
Lemma validate_person_object (d : list (string * json)) (w : world) :
  ∃ r, validate_person nh3_clean (JDict d) w = (Ok r, w)
    ∧ (∀ resp, r = inl resp → ∃ msg, resp = json_error msg 400)
    ∧ (has_dangerous_url (JDict d) → ∃ resp, r = inl resp).
Proof.
  unfold validate_person.
  destruct (check_photo (sanitize_fields nh3_clean d)) as [resp|] eqn:Hphoto.
  { eexists. split; [reflexivity|]. split; [|eauto].
    intros resp' [= <-]. by apply check_photo_status in Hphoto. }
  assert (Hno_photo : ∀ url, assoc "photo" d = Some (JStr url) → ¬ dangerous_url url).
  { intros url Hurl Hd. unfold check_photo in Hphoto.
    rewrite assoc_sanitize_fields, Hurl, (dangerous_url_refused _ Hd) in Hphoto
      by set_solver.
    done. }
  rewrite assoc_sanitize_fields by set_solver.
  destruct (assoc "documents" d) as [[| | | |docs|]|] eqn:Hdocs.
  5: destruct (check_documents docs) as [resp|] eqn:Hcheck.
  5: { eexists. split; [reflexivity|]. split; [|eauto].
       intros resp' [= <-]. by apply check_documents_status in Hcheck. }
  all: eexists; split; [reflexivity|]; split; [done|].
  all: intros (d' & [= <-] & [(url & Hurl & Hd)|(docs' & doc & url & Hdocs' & Hin & Hurl & Hd)]);
    [by destruct (Hno_photo url)|]; simplify_eq.
  destruct (check_documents_dangerous _ _ _ Hin Hurl Hd) as [resp Hresp].
  congruence.
Qed.

Lemma validate_persons_objects (l : list json) (w : world) :
  Forall is_object l →
  ∃ r, validate_persons nh3_clean l w = (Ok r, w)
    ∧ (∀ resp, r = inl resp → ∃ msg, resp = json_error msg 400)
    ∧ (Exists has_dangerous_url l → ∃ resp, r = inl resp).
Proof.
  induction 1 as [|x l [d ->] Hl IH].
  - eexists. split; [reflexivity|]. split; [done|]. intros H. by apply Exists_nil in H.
  - cbn [validate_persons]. unfold mbind, M_bind.
    destruct (validate_person_object d w) as (r & -> & H400 & Hbad).
    destruct r as [resp|cleaned].
    + eexists. split; [reflexivity|]. split; [|eauto].
      intros resp' [= <-]. eauto.
    + destruct IH as (r' & -> & H400' & Hbad').
      destruct r' as [resp|rest].
      * eexists. split; [reflexivity|]. split; [|eauto].
        intros resp' [= <-]. eauto.
      * eexists. split; [reflexivity|]. split; [done|].
        intros Hex. apply Exists_cons in Hex as [Hx|Hex].
        -- destruct (Hbad Hx) as [? ?]. done.
        -- destruct (Hbad' Hex) as [? ?]. done.
Qed.

Lemma validate_person_list_objects (l : list json) (w : world) :
  Forall is_object l →
  ∃ r, validate_person_list nh3_clean (JList l) w = (Ok r, w)
    ∧ (∀ resp, r = inl resp → ∃ msg, resp = json_error msg 400)
    ∧ (Exists has_dangerous_url l → ∃ resp, r = inl resp).
Proof.
  intros Hl. unfold validate_person_list, mbind, M_bind.
  destruct (validate_persons_objects l w Hl) as (r & -> & H400 & Hbad).
  destruct r as [resp|cleaned].
  - eexists. split; [reflexivity|]. split; [|eauto]. intros resp' [= <-]. eauto.
  - eexists. split; [reflexivity|]. split; [done|].
    intros Hex. destruct (Hbad Hex) as [? ?]. done.
Qed.

(** Validation of any entry: as above for an object, an exception for
    anything else. *)
Lemma validate_person_any (x : json) (w : world) :
  (∃ r, validate_person nh3_clean x w = (Ok r, w)
     ∧ (∀ resp, r = inl resp → ∃ msg, resp = json_error msg 400)
     ∧ (has_dangerous_url x → ∃ resp, r = inl resp))
  ∨ (∃ e, validate_person nh3_clean x w = (Raise e, w)).
Proof.
  destruct x as [| | | | |d]; try (right; eexists; reflexivity).
  left. apply validate_person_object.
Qed.

Lemma validate_persons_any (l : list json) (w : world) :
  (∃ r, validate_persons nh3_clean l w = (Ok r, w)
     ∧ (∀ resp, r = inl resp → ∃ msg, resp = json_error msg 400)
     ∧ (Exists has_dangerous_url l → ∃ resp, r = inl resp))
  ∨ (∃ e, validate_persons nh3_clean l w = (Raise e, w)).
Proof.
  induction l as [|x l IH].
  - left. eexists. split; [reflexivity|]. split; [done|].
    intros H. by apply Exists_nil in H.
  - cbn [validate_persons]. unfold mbind, M_bind.
    destruct (validate_person_any x w) as [(r & -> & H400 & Hbad)|[e ->]];
      [|right; eauto].
    destruct r as [resp|cleaned].
    { left. eexists. split; [reflexivity|]. split; [|eauto].
      intros resp' [= <-]. eauto. }
    destruct IH as [(r' & -> & H400' & Hbad')|[e ->]]; [|right; eauto].
    left. destruct r' as [resp|rest].
    + eexists. split; [reflexivity|]. split; [|eauto].
      intros resp' [= <-]. eauto.
    + eexists. split; [reflexivity|]. split; [done|].
      intros Hex. apply Exists_cons in Hex as [Hx|Hex].
      * destruct (Hbad Hx) as [? ?]. done.
      * destruct (Hbad' Hex) as [? ?]. done.
Qed.

Lemma validate_person_list_any (l : list json) (w : world) :
  (∃ r, validate_person_list nh3_clean (JList l) w = (Ok r, w)
     ∧ (∀ resp, r = inl resp → ∃ msg, resp = json_error msg 400)
     ∧ (Exists has_dangerous_url l → ∃ resp, r = inl resp))
  ∨ (∃ e, validate_person_list nh3_clean (JList l) w = (Raise e, w)).
Proof.
  unfold validate_person_list, mbind, M_bind.
  destruct (validate_persons_any l w) as [(r & -> & H400 & Hbad)|[e ->]];
    [|right; eauto].
  left. destruct r as [resp|cleaned].
  - eexists. split; [reflexivity|]. split; [|eauto]. intros resp' [= <-]. eauto.
  - eexists. split; [reflexivity|]. split; [done|].
    intros Hex. destruct (Hbad Hex) as [? ?]. done.
Qed.

(** With a dangerous URL in one of its lists, a request never gets past
    the checks that precede the [try] block. *)
Lemma batch_prelude_dangerous
    (tree_id : string) (req : request) (w : world)
    (payload : list (string * json)) (adds mods : list json) :
  get_json req = JDict payload →
  default (JList []) (assoc "add" payload) = JList adds →
  default (JList []) (assoc "modify" payload) = JList mods →
  Exists has_dangerous_url (adds ++ mods) →
  (∃ resp, batch_prelude nh3_clean tree_id req w = (Ok (inl resp), w)
           ∧ status_of resp ≠ 200)
  ∨ (∃ e, batch_prelude nh3_clean tree_id req w = (Raise e, w)).
Proof.
  intros Hjson Hadd Hmod Hbad.
  unfold batch_prelude, mbind, M_bind.
  destruct (get_tree_and_user_permissions_result w tree_id (session req !! "user_id"))
    as [[_ ->]|[_ [p ->]]]; [left; eexists; split; [reflexivity|done]|].
  destruct (can_edit p); simpl; [|left; eexists; split; [reflexivity|done]].
  rewrite Hjson. simpl. unfold mbind, M_bind. rewrite Hadd, Hmod.
  destruct (validate_person_list_any adds w) as [(ra & -> & H400a & Hbada)|[e ->]];
    [|right; eauto].
  destruct ra as [resp|adds'].
  { destruct (H400a resp eq_refl) as [msg ->]. left. eexists. split; [reflexivity|done]. }
  destruct (validate_person_list_any mods w) as [(rm & -> & H400m & Hbadm)|[e ->]];
    [|right; eauto].
  destruct rm as [resp|mods'].
  { destruct (H400m resp eq_refl) as [msg ->]. left. eexists. split; [reflexivity|done]. }
  exfalso. apply Exists_app in Hbad as [Hbad|Hbad].
  - destruct (Hbada Hbad) as [? ?]. done.
  - destruct (Hbadm Hbad) as [? ?]. done.
Qed.

(** If a person record in the [add] or [modify] list of a batch update
    has, as a string, a photo URL or a document URL that, trimmed and
    lowercased, begins with [javascript:], [data:] or [vbscript:], the
    request is never applied: the answer is not the success response and
    the world is left as it was, so no person is written and no file is
    removed.  For a request that passes the session, CSRF and
    edit-permission checks and whose lists hold JSON objects, the answer is
    a 400 error. *)
Theorem dangerous_url_rejected
    (tree_id : string) (req : request) (w : world)
    (payload : list (string * json)) (adds mods : list json) :
  get_json req = JDict payload →
  default (JList []) (assoc "add" payload) = JList adds →
  default (JList []) (assoc "modify" payload) = JList mods →
  Exists has_dangerous_url (adds ++ mods) →
  (∃ resp, dispatch (batch_update_persons_view tree_id) req w = (resp, w)
           ∧ status_of resp ≠ 200)
  ∧ (may_edit tree_id w req → Forall is_object (adds ++ mods) →
     ∃ msg, dispatch (batch_update_persons_view tree_id) req w
            = (json_error msg 400, w)).
Proof.
  intros Hjson Hadd Hmod Hbad. split.
  - unfold dispatch, batch_update_persons.
    unfold login_required.
    destruct (bool_decide (session req !! "user_id" = None)).
    { destruct (startswith (req_path req) "/api/"); eexists; split; done. }
    rewrite no_cache_eq.
    destruct (csrf_token_valid req) eqn:Hv.
    2: { unfold csrf_protect_api, csrf_protect, try_except, mbind, M_bind, raise.
         rewrite Hv. destruct (bool_decide _); simpl.
         - eexists; split; done.
         - unfold batch_update_persons_body, mbind, M_bind.
           destruct (batch_prelude_dangerous tree_id req w payload adds mods
                       Hjson Hadd Hmod Hbad) as [(resp & -> & Hst)|[e ->]];
             eexists; split; done. }
    rewrite csrf_protect_api_valid by done.
    unfold batch_update_persons_body, mbind, M_bind.
    destruct (batch_prelude_dangerous tree_id req w payload adds mods
                Hjson Hadd Hmod Hbad) as [(resp & -> & Hst)|[e ->]];
      eexists; split; done.
  - intros (Hs & Hv & p & Hres & Hedit) Hobj.
    apply Forall_app in Hobj as [Hobj_a Hobj_m].
    unfold dispatch, batch_update_persons.
    rewrite login_required_logged_in, no_cache_eq, csrf_protect_api_valid by done.
    unfold batch_update_persons_body, batch_prelude, mbind, M_bind.
    rewrite get_tree_and_user_permissions_eq, Hres, Hedit, Hjson. simpl.
    unfold mbind, M_bind. rewrite Hadd, Hmod.
    destruct (validate_person_list_objects adds w Hobj_a) as (ra & -> & H400a & Hbada).
    destruct ra as [resp|adds'].
    { destruct (H400a resp eq_refl) as [msg ->]. eauto. }
    destruct (validate_person_list_objects mods w Hobj_m) as (rm & -> & H400m & Hbadm).
    destruct rm as [resp|mods'].
    { destruct (H400m resp eq_refl) as [msg ->]. eauto. }
    exfalso. apply Exists_app in Hbad as [Hbad|Hbad].
    + destruct (Hbada Hbad) as [? ?]. done.
    + destruct (Hbadm Hbad) as [? ?]. done.
Qed.

(** C5.  The check of the photo misses a photo given as an object.  The
    owner of the Smith tree adds a person whose photo is the object with
    the [url] [javascript:alert(1)], the shape that line 242 reads as the
    photo URL.  The validation looks at the photo only when it is a string
    (line 117): the record reaches the stored procedure as it was sent,
    and when the procedure completes the answer is the success response
    with status 200, where the claim has a 400 error. *)
Theorem object_photo_url_unchecked :
  dangerous_url "javascript:alert(1)"
  ∧ dispatch (batch_update_persons_view "t1") script_photo_object_request smith_world
    = match batch_update_persons_atomic "t1" (JList [script_photo_object])
              (JList []) (JList []) (persons smith_world) with
      | Ok rows =>
          (Jsonify [("success", JBool true);
                    ("message", JStr "Batch update successful.")] 200,
           set_persons (λ _, rows) smith_world)
      | Raise e =>
          (json_error ("Error during batch processing: " ++ str_of_exn e) 500,
           smith_world)
      end.
Proof.
  split; [left; reflexivity|].
  unfold dispatch, batch_update_persons.
  rewrite login_required_logged_in, no_cache_eq, csrf_protect_api_valid;
    [|reflexivity|exists "owner"; reflexivity].
  unfold batch_update_persons_body, mbind, M_bind.
  replace (batch_prelude nh3_clean "t1" script_photo_object_request smith_world)
    with (Ok (inr (JList [script_photo_object], JList [], JList []))
            : result (response + json * json * json), smith_world)
    by reflexivity.
  unfold batch_commit, try_except, collect_files_to_delete, apply_batch,
    rpc_batch_update_persons_atomic, mbind, M_bind, pure, mret, M_ret.
  simpl.
  by destruct (batch_update_persons_atomic "t1" _ _ _ _).
Qed.

(** ** api_data.py: applying a batch update *)

(** Everything before the stored procedure only reads. *)

Lemma reads_only_pure {A} (a : A) : reads_only (pure a).
Proof. by intros w. Qed.

Lemma reads_only_raise {A} (e : exn) : reads_only (@raise A e).
Proof. by intros w. Qed.

Lemma reads_only_gets {A} (f : world → A) : reads_only (gets f).
Proof. by intros w. Qed.

Lemma reads_only_bind {A B} (m : M A) (f : A → M B) :
  reads_only m → (∀ a, reads_only (f a)) → reads_only (m ≫= f).
Proof.
  intros Hm Hf w. unfold mbind, M_bind. specialize (Hm w).
  destruct (m w) as [[a|e] w']; simpl in *; subst; [apply Hf|done].
Qed.

Lemma reads_only_try_except {A} (body : M A) (handler : exn → M A) :
  reads_only body → (∀ e, reads_only (handler e)) →
  reads_only (try_except body handler).
Proof.
  intros Hm Hh w. unfold try_except. specialize (Hm w).
  destruct (body w) as [[a|e] w']; simpl in *; subst; [done|apply Hh].
Qed.

Lemma reads_only_for_collect {A B} (body : A → M (list B)) (l : list A) :
  (∀ x, reads_only (body x)) → reads_only (for_collect body l).
Proof.
  intros Hbody. induction l as [|x l IH]; simpl; [apply reads_only_pure|].
  apply reads_only_bind; [done|]. intros ys.
  apply reads_only_bind; [done|]. intros zs. apply reads_only_pure.
Qed.

Lemma reads_only_permissions (tree_id : string) (user_id : option string) :
  reads_only (get_tree_and_user_permissions tree_id user_id).
Proof. intros w. by rewrite get_tree_and_user_permissions_eq. Qed.

Create HintDb reads.

#[local] Hint Resolve reads_only_pure reads_only_raise reads_only_gets
  reads_only_permissions : reads.

Ltac reads_step :=
  first
    [ solve [auto with reads nocore]
    | apply reads_only_for_collect; intros ?
    | apply reads_only_bind; [|intros ?]
    | apply reads_only_try_except; [|intros ?]
    | progress cbv zeta
    | case_match ].

Ltac reads := repeat reads_step.

Lemma reads_only_py_get (v : json) (k : string) : reads_only (py_get v k).
Proof. unfold py_get. reads. Qed.

Lemma reads_only_py_get_default (v : json) (k : string) (dflt : json) :
  reads_only (py_get_default v k dflt).
Proof. unfold py_get_default. reads. Qed.

Lemma reads_only_py_iter (v : json) : reads_only (py_iter v).
Proof. unfold py_iter. reads. Qed.

Lemma reads_only_py_index (v : json) (k : string) : reads_only (py_index v k).
Proof. unfold py_index. reads. Qed.

Lemma reads_only_py_contains (v : json) (k : string) : reads_only (py_contains v k).
Proof. unfold py_contains. reads. Qed.

Lemma reads_only_py_startswith (v : json) (p : string) :
  reads_only (py_startswith v p).
Proof. unfold py_startswith. reads. Qed.

Lemma reads_only_py_strip_prefix (v : json) (p : string) :
  reads_only (py_strip_prefix v p).
Proof. unfold py_strip_prefix. reads. Qed.

Lemma reads_only_lookup_current (rows : list person_row) (person_id : json) :
  reads_only (lookup_current rows person_id).
Proof. unfold lookup_current. reads. Qed.

#[local] Hint Resolve reads_only_py_get reads_only_py_get_default reads_only_py_iter
  reads_only_py_index reads_only_py_contains reads_only_py_startswith
  reads_only_py_strip_prefix reads_only_lookup_current : reads.

Lemma reads_only_file_of_url (prefix : string) (url : json) :
  reads_only (file_of_url prefix url).
Proof. unfold file_of_url. reads. Qed.

#[local] Hint Resolve reads_only_file_of_url : reads.

Lemma reads_only_files_of_modified
    (prefix : string) (rows : list person_row) (person : json) :
  reads_only (files_of_modified prefix rows person).
Proof. unfold files_of_modified. reads. Qed.

Lemma reads_only_files_of_deleted (prefix : string) (row : person_row) :
  reads_only (files_of_deleted prefix row).
Proof. unfold files_of_deleted. reads. Qed.

Lemma reads_only_select_persons_in (tree_id : string) (values : list json) :
  reads_only (select_persons_in pg_int tree_id values).
Proof. unfold select_persons_in. reads. Qed.

#[local] Hint Resolve reads_only_files_of_modified reads_only_files_of_deleted
  reads_only_select_persons_in : reads.

Lemma reads_only_collect_files_to_delete (tree_id : string) (mods dels : json) :
  reads_only (collect_files_to_delete pg_int tree_id mods dels).
Proof. unfold collect_files_to_delete. reads. Qed.

Lemma reads_only_validate_person (person : json) :
  reads_only (validate_person nh3_clean person).
Proof. unfold validate_person. reads. Qed.

#[local] Hint Resolve reads_only_validate_person : reads.

Lemma reads_only_validate_persons (l : list json) :
  reads_only (validate_persons nh3_clean l).
Proof.
  induction l as [|x l IH]; cbn [validate_persons]; [apply reads_only_pure|].
  apply reads_only_bind; [auto with reads nocore|]. intros r.
  destruct r; [apply reads_only_pure|].
  apply reads_only_bind; [done|]. intros r'. destruct r'; apply reads_only_pure.
Qed.

#[local] Hint Resolve reads_only_validate_persons : reads.

Lemma reads_only_batch_prelude (tree_id : string) (req : request) :
  reads_only (batch_prelude nh3_clean tree_id req).
Proof. unfold batch_prelude, validate_person_list. reads. Qed.

(** C8 (amended).  For a permitted request that reaches the [try] block
    with the lists [adds], [mods], [dels] and the orphaned paths [files]:
    the three lists go to the database in one call of the stored procedure.
    When that call fails, the answer is a 500 error and nothing has
    changed.  When it succeeds, the persons table is the one it produced,
    whatever happens next: with no path to remove, or when the storage
    removal returns, the answer is the success message; when the storage
    removal raises, the answer is a 500 error and the data mutation stays
    applied. *)
Theorem batch_commit_outcomes
    (tree_id : string) (req : request) (w : world)
    (adds mods dels : json) (files : list string) :
  is_Some (session req !! "user_id") →
  csrf_token_valid req = true →
  (batch_prelude nh3_clean tree_id req w).1 = Ok (inr (adds, mods, dels)) →
  (collect_files_to_delete pg_int tree_id mods dels w).1 = Ok files →
  let outcome := dispatch (batch_update_persons_view tree_id) req w in
  let paths := elements (list_to_set files : gset string) in
  let success :=
    Jsonify [("success", JBool true); ("message", JStr "Batch update successful.")]
      200 in
  let failure (e : exn) :=
    json_error ("Error during batch processing: " ++ str_of_exn e) 500 in
  match batch_update_persons_atomic tree_id adds mods dels (persons w) with
  | Raise e => outcome = (failure e, w)
  | Ok rows =>
      let w1 := set_persons (λ _, rows) w in
      persons outcome.2 = rows
      ∧ (paths = [] → outcome = (success, w1))
      ∧ (paths ≠ [] →
           match storage_remove paths (bucket w) with
           | (None, b) => outcome = (success, set_bucket (λ _, b) w1)
           | (Some e, b) => outcome = (failure e, set_bucket (λ _, b) w1)
           end)
  end.
Proof.
  intros Hs Hv Hpre Hfiles. cbv zeta.
  assert (Hpre' : batch_prelude nh3_clean tree_id req w
                  = (Ok (inr (adds, mods, dels)), w)).
  { pose proof (reads_only_batch_prelude tree_id req w) as Hw.
    destruct (batch_prelude nh3_clean tree_id req w); simpl in *. congruence. }
  assert (Hfiles' : collect_files_to_delete pg_int tree_id mods dels w
                    = (Ok files, w)).
  { pose proof (reads_only_collect_files_to_delete tree_id mods dels w) as Hw.
    destruct (collect_files_to_delete pg_int tree_id mods dels w); simpl in *.
    congruence. }
  unfold dispatch, batch_update_persons.
  rewrite login_required_logged_in, no_cache_eq, csrf_protect_api_valid by done.
  unfold batch_update_persons_body, mbind, M_bind. rewrite Hpre'.
  unfold batch_commit, try_except, mbind, M_bind. rewrite Hfiles'.
  unfold apply_batch, rpc_batch_update_persons_atomic, mbind, M_bind.
  destruct (batch_update_persons_atomic tree_id adds mods dels (persons w))
    as [rows|e]; [|done].
  destruct files as [|f files].
  { simpl. split; [done|]. split; [done|].
    intros Hne. destruct Hne. apply elements_empty. }
  set (paths := elements (list_to_set (f :: files) : gset string)).
  destruct paths as [|x paths'] eqn:Hpaths.
  { split; [done|]. split; [done|]. done. }
  unfold bucket_remove. simpl.
  destruct (storage_remove (x :: paths') (bucket w)) as [[e|] b]; simpl.
  - split; [done|]. split; [done|]. done.
  - split; [done|]. split; [done|]. done.
Qed.

End Batch.
(** * Further properties *)

(** ** The resolver, as a function of the tree row *)

Lemma access_user (w : world) (tree_id : string) (t : tree) (u : string) :
  trees w !! tree_id = Some t → u ≠ "" →
  access tree_id (Some u) w
  = Some (bool_decide (owner_id t = u) || bool_decide (u ∈ or_empty (editor_ids t)),
          is_public t || bool_decide (owner_id t = u)
          || bool_decide (u ∈ or_empty (editor_ids t))
          || bool_decide (u ∈ or_empty (viewer_ids t))).
Proof.
  intros Ht Hu.
  unfold access, get_tree_and_user_permissions, try_except, select_tree_single,
    mbind, M_bind.
  rewrite Ht. simpl. unfold str_truthy.
  destruct (String.eqb_spec u "") as [->|_]; [done|]. reflexivity.
Qed.

Lemma access_anonymous (w : world) (tree_id : string) (t : tree) :
  trees w !! tree_id = Some t →
  access tree_id None w = Some (false, is_public t).
Proof.
  intros Ht.
  unfold access, get_tree_and_user_permissions, try_except, select_tree_single,
    mbind, M_bind.
  by rewrite Ht.
Qed.

Lemma access_absent (w : world) (tree_id : string) (user_id : option string) :
  trees w !! tree_id = None → access tree_id user_id w = None.
Proof.
  intros Ht.
  unfold access, get_tree_and_user_permissions, try_except, select_tree_single,
    mbind, M_bind.
  by rewrite Ht.
Qed.

(** The resolver reads the row of the tree and nothing else. *)
Lemma access_row (w w' : world) (tree_id : string) (user_id : option string) :
  trees w' !! tree_id = trees w !! tree_id →
  access tree_id user_id w' = access tree_id user_id w.
Proof.
  intros Ht.
  unfold access, get_tree_and_user_permissions, try_except, select_tree_single,
    mbind, M_bind.
  rewrite Ht. destruct (trees w !! tree_id) as [t|]; [|done].
  destruct user_id as [u|]; simpl; [|done]. by destruct (str_truthy u).
Qed.

(** The rights of a user depend on the owner, the public flag and the
    user's own membership of the two lists. *)
Lemma access_same_membership (w w' : world) (tree_id : string) (t t' : tree)
    (user_id : option string) :
  trees w !! tree_id = Some t → trees w' !! tree_id = Some t' →
  owner_id t' = owner_id t → is_public t' = is_public t →
  (∀ u, user_id = Some u →
     (u ∈ or_empty (editor_ids t') ↔ u ∈ or_empty (editor_ids t))
     ∧ (u ∈ or_empty (viewer_ids t') ↔ u ∈ or_empty (viewer_ids t))) →
  access tree_id user_id w' = access tree_id user_id w.
Proof.
  intros Ht Ht' Ho Hp Hm.
  destruct user_id as [u|].
  - destruct (decide (u = "")) as [->|Hu].
    + unfold access, get_tree_and_user_permissions, try_except, select_tree_single,
        mbind, M_bind.
      rewrite Ht, Ht'. simpl. by rewrite Hp.
    + rewrite (access_user w' tree_id t' u), (access_user w tree_id t u) by done.
      destruct (Hm u eq_refl) as [He Hv].
      rewrite Ho, Hp.
      rewrite (bool_decide_ext _ _ He), (bool_decide_ext _ _ Hv). done.
  - rewrite (access_anonymous w' tree_id t'), (access_anonymous w tree_id t) by done.
    by rewrite Hp.
Qed.

(** A request with a session and a valid token reaches the body of a route
    decorated with [login_required] and [csrf_protect_api]. *)
Lemma guarded_route (body : view) (req : request) (w : world) :
  is_Some (session req !! "user_id") → csrf_token_valid req = true →
  dispatch (login_required (csrf_protect_api body)) req w = dispatch body req w.
Proof.
  intros Hs Hc. unfold dispatch.
  by rewrite login_required_logged_in, csrf_protect_api_valid.
Qed.

Lemma fetch_owned_tree_owner (tree_id : string) (t : tree) (denied missing : string)
    (w : world) :
  trees w !! tree_id = Some t →
  fetch_owned_tree tree_id (Some (owner_id t)) denied missing w = (Ok (inr t), w).
Proof.
  intros Ht. unfold fetch_owned_tree, try_except, select_tree_single, mbind, M_bind.
  rewrite Ht. simpl. by rewrite bool_decide_eq_true_2.
Qed.

Lemma fetch_owned_tree_other (tree_id : string) (user_id : option string)
    (denied missing : string) (w : world) :
  (∀ t, trees w !! tree_id = Some t → user_id ≠ Some (owner_id t)) →
  ∃ resp, fetch_owned_tree tree_id user_id denied missing w = (Ok (inl resp), w)
        ∧ (status_of resp = 403 ∨ status_of resp = 404).
Proof.
  intros Hno. unfold fetch_owned_tree, try_except, select_tree_single, mbind, M_bind.
  destruct (trees w !! tree_id) as [t|] eqn:Ht; simpl.
  - rewrite bool_decide_eq_false_2 by (intros Heq; by apply (Hno t)).
    simpl. eauto.
  - eauto.
Qed.

(** ** api_sharing.py: what sharing does to the rights of users *)

Lemma lookup_trees_alter_ne (f : tree → tree) (tree_id id : string) (w : world) :
  id ≠ tree_id → trees (set_trees (alter f tree_id) w) !! id = trees w !! id.
Proof. intros Hne. simpl. by rewrite lookup_alter_ne. Qed.

Lemma lookup_trees_alter (f : tree → tree) (tree_id : string) (t : tree) (w : world) :
  trees w !! tree_id = Some t →
  trees (set_trees (alter f tree_id) w) !! tree_id = Some (f t).
Proof. intros Ht. simpl. by rewrite lookup_alter_eq, Ht. Qed.

(** The run of [share_tree] for the owner, a registered address and a user
    without a role. *)
Lemma share_tree_run
    (w : world) (tree_id : string) (req : request) (t : tree)
    (d : list (string * json)) (email role user : string) :
  trees w !! tree_id = Some t →
  session req !! "user_id" = Some (owner_id t) →
  csrf_token_valid req = true →
  get_json req = JDict d →
  assoc "email" d = Some (JStr email) →
  assoc "role" d = Some (JStr role) →
  email ≠ "" →
  role = "editor" ∨ role = "viewer" →
  users w !! email = Some user →
  user ≠ owner_id t →
  user ∉ or_empty (editor_ids t) → user ∉ or_empty (viewer_ids t) →
  dispatch (share_tree tree_id) req w
  = (Jsonify [("success", JBool true); ("message", JStr "User added.")] 200,
     set_trees (alter (if bool_decide (role = "editor")
                       then with_editor_ids (or_empty (editor_ids t) ++ [user])%list
                       else with_viewer_ids (or_empty (viewer_ids t) ++ [user])%list)
                      tree_id) w).
Proof.
  intros Ht Hs Hc Hj Hemail Hrole Hne Hr Hu Huo Hed Hvi.
  unfold share_tree. rewrite guarded_route by (rewrite ?Hs; eauto).
  unfold dispatch, share_tree_body. rewrite Hj, Hs.
  unfold py_get, mbind, M_bind, pure, mret, M_ret. rewrite Hemail, Hrole. simpl.
  assert (Htruthy : String.eqb email "" = false) by by apply String.eqb_neq.
  rewrite Htruthy.
  assert (Hrole_ne : String.eqb role "" = false)
    by (destruct Hr as [-> | ->]; reflexivity).
  rewrite Hrole_ne. simpl.
  assert (Hvalid : bool_decide (role = "editor") || bool_decide (role = "viewer") = true)
    by (destruct Hr as [-> | ->]; reflexivity).
  rewrite Hvalid. simpl.
  rewrite fetch_owned_tree_owner by done.
  unfold try_except, get_user_id_by_email, mbind, M_bind. rewrite Hu. simpl.
  rewrite (bool_decide_eq_false_2 (Some user = Some (owner_id t))) by congruence.
  rewrite (bool_decide_eq_false_2 (user ∈ or_empty (editor_ids t))) by done.
  rewrite (bool_decide_eq_false_2 (user ∈ or_empty (viewer_ids t))) by done.
  simpl.
  destruct Hr as [-> | ->]; reflexivity.
Qed.

(** X1.  When the owner shares a tree with a registered user who has no
    role on it yet, the answer is 200 and from then on that user can view
    the tree, and can edit it exactly when the role given is "editor"; the
    rights of everybody else, the other trees, the invitations and the
    persons are as before. *)
Theorem share_tree_grants_role
    (w : world) (tree_id : string) (req : request) (t : tree)
    (d : list (string * json)) (email role user : string) :
  trees w !! tree_id = Some t →
  session req !! "user_id" = Some (owner_id t) →
  csrf_token_valid req = true →
  get_json req = JDict d →
  assoc "email" d = Some (JStr email) →
  assoc "role" d = Some (JStr role) →
  email ≠ "" →
  role = "editor" ∨ role = "viewer" →
  users w !! email = Some user →
  user ≠ "" → user ≠ owner_id t →
  user ∉ or_empty (editor_ids t) → user ∉ or_empty (viewer_ids t) →
  ∃ w', dispatch (share_tree tree_id) req w
        = (Jsonify [("success", JBool true); ("message", JStr "User added.")] 200, w')
      ∧ access tree_id (Some user) w' = Some (bool_decide (role = "editor"), true)
      ∧ (∀ u, u ≠ Some user → access tree_id u w' = access tree_id u w)
      ∧ (∀ id, id ≠ tree_id → trees w' !! id = trees w !! id)
      ∧ tree_invitations w' = tree_invitations w
      ∧ persons w' = persons w.
Proof.
  intros Ht Hs Hc Hj Hemail Hrole Hne Hr Hu Hue Huo Hed Hvi.
  eexists. split; [by eapply share_tree_run|].
  split; [|split; [|split; [|done]]].
  - erewrite access_user; [|by apply lookup_trees_alter|done].
    destruct Hr as [-> | ->]; simpl.
    + rewrite (bool_decide_eq_true_2 (user ∈ _)) by set_solver.
      by rewrite !orb_true_r.
    + rewrite (bool_decide_eq_true_2 (user ∈ (or_empty (viewer_ids t) ++ [user])%list))
        by set_solver.
      rewrite (bool_decide_eq_false_2 (owner_id t = user)) by done.
      rewrite (bool_decide_eq_false_2 (user ∈ or_empty (editor_ids t))) by done.
      by rewrite !orb_true_r.
  - intros u Hother.
    eapply access_same_membership; [done|by apply lookup_trees_alter| | |].
    1,2: by destruct (bool_decide (role = "editor")).
    intros x ->.
    destruct (bool_decide (role = "editor")); simpl; (split; [|try done]); try done.
    all: rewrite elem_of_app, list_elem_of_singleton.
    all: split; [intros [?|?]; [done|congruence]|by left].
  - intros id Hid. by apply lookup_trees_alter_ne.
Qed.

(** X2.  Sharing with the address of somebody who already has a role on
    the tree (the owner included) is refused with 409, and an address that
    belongs to no user with 404; in both cases nothing is written. *)
Theorem share_tree_refusals
    (w : world) (tree_id : string) (req : request) (t : tree)
    (d : list (string * json)) (email role : string) :
  trees w !! tree_id = Some t →
  session req !! "user_id" = Some (owner_id t) →
  csrf_token_valid req = true →
  get_json req = JDict d →
  assoc "email" d = Some (JStr email) →
  assoc "role" d = Some (JStr role) →
  email ≠ "" →
  role = "editor" ∨ role = "viewer" →
  match users w !! email with
  | None =>
      dispatch (share_tree tree_id) req w
      = (json_error "User with this email was not found." 404, w)
  | Some user =>
      user = owner_id t ∨ user ∈ or_empty (editor_ids t)
      ∨ user ∈ or_empty (viewer_ids t) →
      dispatch (share_tree tree_id) req w
      = (json_error "This user already has access to this tree." 409, w)
  end.
Proof.
  intros Ht Hs Hc Hj Hemail Hrole Hne Hr.
  unfold share_tree. rewrite guarded_route by (rewrite ?Hs; eauto).
  unfold dispatch, share_tree_body. rewrite Hj, Hs.
  unfold py_get, mbind, M_bind, pure, mret, M_ret. rewrite Hemail, Hrole. simpl.
  assert (Htruthy : String.eqb email "" = false) by by apply String.eqb_neq.
  rewrite Htruthy.
  assert (Hrole_ne : String.eqb role "" = false)
    by (destruct Hr as [-> | ->]; reflexivity).
  rewrite Hrole_ne. simpl.
  assert (Hvalid : bool_decide (role = "editor") || bool_decide (role = "viewer") = true)
    by (destruct Hr as [-> | ->]; reflexivity).
  rewrite Hvalid. simpl.
  rewrite fetch_owned_tree_owner by done.
  unfold try_except, get_user_id_by_email, mbind, M_bind.
  destruct (users w !! email) as [user|]; simpl; [|done].
  intros Hmember.
  assert (Hany : bool_decide (Some user = Some (owner_id t))
                 || bool_decide (user ∈ or_empty (editor_ids t))
                 || bool_decide (user ∈ or_empty (viewer_ids t)) = true).
  { destruct Hmember as [-> | [He | Hv]].
    - by rewrite bool_decide_eq_true_2.
    - rewrite (bool_decide_eq_true_2 (user ∈ or_empty (editor_ids t))) by done.
      by rewrite orb_true_r.
    - rewrite (bool_decide_eq_true_2 (user ∈ or_empty (viewer_ids t))) by done.
      by rewrite orb_true_r. }
  by rewrite Hany.
Qed.

(** ** Only the owner manages a tree *)

Lemma login_csrf_refusal (f : view) (req : request) (w : world) :
  (∃ resp, login_required (csrf_protect_api f) req w = (Ok resp, w)
         ∧ status_of resp ≠ 200)
  ∨ login_required (csrf_protect_api f) req w = f req w.
Proof.
  unfold login_required, csrf_protect_api, csrf_protect, try_except, mbind, M_bind,
    pure, raise, mret, M_ret.
  repeat case_match; simplify_eq; eauto.
  all: left; eexists; split; [reflexivity|]; simpl; lia.
Qed.

Lemma refused_body (f : view) (req : request) (w : world) :
  (f req w).2 = w →
  (∀ resp, (f req w).1 = Ok resp → status_of resp ≠ 200) →
  refused (login_required (csrf_protect_api f)) req w.
Proof.
  intros Hw Hst. unfold refused, dispatch.
  destruct (login_csrf_refusal f req w) as [(resp & -> & Hresp) | ->]; [done|].
  destruct (f req w) as [[resp|e] w'] eqn:Hf; simpl in *.
  - split; [done|]. by apply Hst.
  - split; [done|]. lia.
Qed.

Section OwnerOnly.

Variable gen_random_uuid : world → string.
Variable storage_list : string → gset string → result (list string).
Variable storage_remove : list string → gset string → option exn * gset string.

(** X3.  A request from anybody but the owner of the tree (or for a tree
    that does not exist) to share it, revoke or change a role, create or
    revoke an invitation link, or delete the tree is refused: the answer is
    never 200 and nothing is written. *)
Theorem only_owner_manages
    (w : world) (tree_id token : string) (req : request) (v : view) :
  (∀ t, trees w !! tree_id = Some t → session req !! "user_id" ≠ Some (owner_id t)) →
  v ∈ [share_tree tree_id;
       revoke_tree_access tree_id;
       change_tree_permission tree_id;
       create_invitation gen_random_uuid tree_id;
       expire_invitation_link tree_id token;
       delete_tree (delete_tree_impl storage_list storage_remove) tree_id] →
  refused v req w.
Proof.
  intros Hno Hv.
  repeat (apply elem_of_cons in Hv as [-> | Hv]); [..|by apply elem_of_nil in Hv].
  all: apply refused_body.
  all: unfold share_tree_body, revoke_tree_access_body, change_tree_permission_body,
         create_invitation_body, expire_invitation_link_body, delete_tree_impl,
         py_get, mbind, M_bind, pure, raise, mret, M_ret.
  all: match goal with
       | |- context [fetch_owned_tree ?a ?b ?c ?d] =>
           destruct (fetch_owned_tree_other a b c d w Hno) as (resp & Hf & Hst)
       end.
  all: destruct (get_json req); simpl; try rewrite Hf; simpl; try done.
  all: try (split; [done|]; intros ? [= <-]; lia).
  all: repeat (case_match; simpl in *; simplify_eq); try done.
  all: try (split; [done|]; intros ? [= <-]; simpl; lia).
  all: try (intros ? [= <-]; simpl; lia).
Qed.

End OwnerOnly.

(** ** api_sharing.py: revoking and changing a role *)

Lemma elem_of_py_remove_ne (x u : string) (l : list string) :
  x ≠ u → x ∈ py_remove u l ↔ x ∈ l.
Proof.
  intros Hne. induction l as [|y l IH]; simpl; [done|].
  destruct (bool_decide (y = u)) eqn:Hyu.
  - apply bool_decide_eq_true_1 in Hyu. subst y.
    rewrite elem_of_cons. split; [by right|]. by intros [?|?].
  - rewrite !elem_of_cons, IH. done.
Qed.

Lemma py_remove_app_last (u : string) (l : list string) :
  u ∉ l → py_remove u (l ++ [u]) = l.
Proof.
  induction l as [|y l IH]; simpl; intros Hu.
  - by rewrite bool_decide_eq_true_2.
  - apply not_elem_of_cons in Hu as [Hne Hu].
    rewrite bool_decide_eq_false_2 by congruence. by rewrite IH.
Qed.

Lemma roles_wf_member (t : tree) (u : string) :
  roles_wf t →
  u ∈ or_empty (editor_ids t) ∨ u ∈ or_empty (viewer_ids t) →
  u ≠ owner_id t
  ∧ (u ∈ or_empty (editor_ids t) → u ∉ or_empty (viewer_ids t)).
Proof.
  intros (_ & _ & Ho1 & Ho2 & Hd) Hm. split.
  - intros ->. by destruct Hm.
  - intros He Hv. by apply (Hd u).
Qed.

(** The run of [revoke_tree_access] for the owner and a member. *)
Lemma revoke_tree_access_run
    (w : world) (tree_id : string) (req : request) (t : tree)
    (d : list (string * json)) (user : string) :
  trees w !! tree_id = Some t →
  session req !! "user_id" = Some (owner_id t) →
  csrf_token_valid req = true →
  get_json req = JDict d →
  assoc "user_id_to_revoke" d = Some (JStr user) →
  user ≠ "" → user ≠ owner_id t →
  user ∈ or_empty (editor_ids t) ∨ user ∈ or_empty (viewer_ids t) →
  dispatch (revoke_tree_access tree_id) req w
  = (Jsonify [("success", JBool true);
              ("message", JStr "User access successfully revoked.")] 200,
     set_trees (alter (if bool_decide (user ∈ or_empty (editor_ids t))
                       then with_editor_ids (py_remove user (or_empty (editor_ids t)))
                       else with_viewer_ids (py_remove user (or_empty (viewer_ids t))))
                      tree_id) w).
Proof.
  intros Ht Hs Hc Hj Hd Hne Hown Hm.
  unfold revoke_tree_access. rewrite guarded_route by (rewrite ?Hs; eauto).
  unfold dispatch, revoke_tree_access_body. rewrite Hj, Hs.
  unfold py_get, mbind, M_bind, pure, mret, M_ret. rewrite Hd. simpl.
  assert (Htruthy : String.eqb user "" = false) by by apply String.eqb_neq.
  rewrite Htruthy. simpl.
  rewrite fetch_owned_tree_owner by done.
  rewrite (bool_decide_eq_false_2 (user = owner_id t)) by done.
  unfold update_tree, modify.
  destruct (bool_decide (user ∈ or_empty (editor_ids t))) eqn:He; [done|].
  apply bool_decide_eq_false_1 in He.
  destruct Hm as [Hm|Hm]; [done|].
  by rewrite (bool_decide_eq_true_2 (user ∈ or_empty (viewer_ids t))).
Qed.

(** X4.  When the owner revokes the access of a user who is editor or
    viewer of a tree whose lists hold nobody twice, the answer is 200 and
    the user is left with the rights of a stranger: no edit right, and the
    view right only if the tree is public.  Everybody else keeps their
    rights and the other trees are not touched. *)
Theorem revoke_tree_access_removes_rights
    (w : world) (tree_id : string) (req : request) (t : tree)
    (d : list (string * json)) (user : string) :
  trees w !! tree_id = Some t →
  session req !! "user_id" = Some (owner_id t) →
  csrf_token_valid req = true →
  get_json req = JDict d →
  assoc "user_id_to_revoke" d = Some (JStr user) →
  user ≠ "" →
  roles_wf t →
  user ∈ or_empty (editor_ids t) ∨ user ∈ or_empty (viewer_ids t) →
  ∃ w', dispatch (revoke_tree_access tree_id) req w
        = (Jsonify [("success", JBool true);
                    ("message", JStr "User access successfully revoked.")] 200, w')
      ∧ access tree_id (Some user) w' = Some (false, is_public t)
      ∧ (∀ u, u ≠ Some user → access tree_id u w' = access tree_id u w)
      ∧ (∀ id, id ≠ tree_id → trees w' !! id = trees w !! id).
Proof.
  intros Ht Hs Hc Hj Hd Hne Hwf Hm.
  destruct (roles_wf_member t user Hwf Hm) as [Hown Hexcl].
  destruct Hwf as (NDe & NDv & _).
  eexists. split; [by eapply revoke_tree_access_run|].
  split; [|split].
  - erewrite access_user; [|by apply lookup_trees_alter|done].
    destruct (bool_decide (user ∈ or_empty (editor_ids t))) eqn:He; simpl.
    + apply bool_decide_eq_true_1 in He.
      rewrite (bool_decide_eq_false_2 (owner_id t = user)) by done.
      rewrite (bool_decide_eq_false_2 (user ∈ py_remove user _))
        by by apply not_elem_of_py_remove.
      rewrite (bool_decide_eq_false_2 (user ∈ or_empty (viewer_ids t)))
        by by apply Hexcl.
      by rewrite !orb_false_r.
    + rewrite He.
      rewrite (bool_decide_eq_false_2 (owner_id t = user)) by done.
      rewrite (bool_decide_eq_false_2 (user ∈ py_remove user _))
        by by apply not_elem_of_py_remove.
      by rewrite !orb_false_r.
  - intros u Hother.
    eapply access_same_membership; [done|by apply lookup_trees_alter| | |].
    1,2: by destruct (bool_decide (user ∈ or_empty (editor_ids t))).
    intros x ->.
    destruct (bool_decide (user ∈ or_empty (editor_ids t))); simpl;
      (split; [|try done]); try done.
    all: apply elem_of_py_remove_ne; congruence.
  - intros id Hid. by apply lookup_trees_alter_ne.
Qed.

(** X5.  Sharing a tree with a user who had no role on it and then revoking
    that user's access gives back the member lists, and so everybody's
    rights, of before. *)
Theorem share_then_revoke_restores
    (w : world) (tree_id : string) (req1 req2 : request) (t : tree)
    (d1 d2 : list (string * json)) (email role user : string) :
  trees w !! tree_id = Some t →
  session req1 !! "user_id" = Some (owner_id t) →
  csrf_token_valid req1 = true →
  get_json req1 = JDict d1 →
  assoc "email" d1 = Some (JStr email) →
  assoc "role" d1 = Some (JStr role) →
  email ≠ "" →
  role = "editor" ∨ role = "viewer" →
  users w !! email = Some user →
  user ≠ "" → user ≠ owner_id t →
  user ∉ or_empty (editor_ids t) → user ∉ or_empty (viewer_ids t) →
  session req2 !! "user_id" = Some (owner_id t) →
  csrf_token_valid req2 = true →
  get_json req2 = JDict d2 →
  assoc "user_id_to_revoke" d2 = Some (JStr user) →
  let w1 := (dispatch (share_tree tree_id) req1 w).2 in
  let resp := (dispatch (revoke_tree_access tree_id) req2 w1).1 in
  let w2 := (dispatch (revoke_tree_access tree_id) req2 w1).2 in
  status_of resp = 200
  ∧ (∃ t2, trees w2 !! tree_id = Some t2
         ∧ or_empty (editor_ids t2) = or_empty (editor_ids t)
         ∧ or_empty (viewer_ids t2) = or_empty (viewer_ids t)
         ∧ owner_id t2 = owner_id t ∧ is_public t2 = is_public t)
  ∧ (∀ u, access tree_id u w2 = access tree_id u w)
  ∧ (∀ id, id ≠ tree_id → trees w2 !! id = trees w !! id).
Proof.
  intros Ht Hs1 Hc1 Hj1 Hemail Hrole Hne Hr Hu Hue Huo Hed Hvi Hs2 Hc2 Hj2 Hrev.
  intros w1 resp w2. subst resp w2.
  assert (Hw1 : w1 = set_trees
            (alter (if bool_decide (role = "editor")
                    then with_editor_ids (or_empty (editor_ids t) ++ [user])%list
                    else with_viewer_ids (or_empty (viewer_ids t) ++ [user])%list)
                   tree_id) w)
    by (subst w1; by erewrite share_tree_run).
  clearbody w1. subst w1.
  set (f := if bool_decide (role = "editor") then _ else _).
  assert (Ht1 : trees (set_trees (alter f tree_id) w) !! tree_id = Some (f t))
    by by apply lookup_trees_alter.
  assert (Hf : owner_id (f t) = owner_id t ∧ is_public (f t) = is_public t
               ∧ (or_empty (editor_ids (f t)) = (or_empty (editor_ids t) ++ [user])%list
                  ∧ or_empty (viewer_ids (f t)) = or_empty (viewer_ids t)
                  ∧ role = "editor"
                  ∨ or_empty (editor_ids (f t)) = or_empty (editor_ids t)
                    ∧ or_empty (viewer_ids (f t))
                      = (or_empty (viewer_ids t) ++ [user])%list
                    ∧ role = "viewer")).
  { subst f. destruct Hr as [-> | ->]; simpl; auto 10. }
  destruct Hf as (Hfo & Hfp & Hlists).
  erewrite (revoke_tree_access_run _ tree_id req2 (f t)); [|done|by rewrite Hfo|done..| |].
  2: by rewrite Hfo.
  2: { destruct Hlists as [(-> & _ & _) | (_ & -> & _)]; set_solver. }
  simpl. split; [done|].
  set (g := if bool_decide (user ∈ or_empty (editor_ids (f t))) then _ else _).
  assert (Ht2 : alter g tree_id (alter f tree_id (trees w)) !! tree_id = Some (g (f t)))
    by by rewrite !lookup_alter_eq, Ht.
  assert (Hg : owner_id (g (f t)) = owner_id t ∧ is_public (g (f t)) = is_public t
               ∧ or_empty (editor_ids (g (f t))) = or_empty (editor_ids t)
               ∧ or_empty (viewer_ids (g (f t))) = or_empty (viewer_ids t)).
  { subst g. destruct Hlists as [(He & Hv & _) | (He & Hv & _)].
    - rewrite bool_decide_eq_true_2 by (rewrite He; set_solver).
      simpl. rewrite He, py_remove_app_last by done. done.
    - rewrite bool_decide_eq_false_2 by (by rewrite He).
      simpl. rewrite Hv, py_remove_app_last by done. done. }
  destruct Hg as (Hgo & Hgp & Hge & Hgv).
  split; [by eexists|]. split.
  - intros u. eapply access_same_membership; [done|exact Ht2|done|done|].
    intros x _. by rewrite Hge, Hgv.
  - intros id Hid. by rewrite !lookup_alter_ne.
Qed.

(** X6.  When the owner changes the role of an editor or viewer of a tree
    whose lists hold nobody twice, the answer is 200 and afterwards that
    user can view the tree and can edit it exactly when the new role is
    "editor"; changing to the role the user already has keeps the rights.
    Everybody else keeps their rights and the other trees are not
    touched. *)
Theorem change_tree_permission_moves
    (w : world) (tree_id : string) (req : request) (t : tree)
    (d : list (string * json)) (user new_role : string) :
  trees w !! tree_id = Some t →
  session req !! "user_id" = Some (owner_id t) →
  csrf_token_valid req = true →
  get_json req = JDict d →
  assoc "user_id_to_change" d = Some (JStr user) →
  assoc "new_role" d = Some (JStr new_role) →
  user ≠ "" →
  new_role = "editor" ∨ new_role = "viewer" →
  roles_wf t →
  user ∈ or_empty (editor_ids t) ∨ user ∈ or_empty (viewer_ids t) →
  ∃ w', dispatch (change_tree_permission tree_id) req w
        = (Jsonify [("success", JBool true);
                    ("message", JStr "User role changed.")] 200, w')
      ∧ access tree_id (Some user) w' = Some (bool_decide (new_role = "editor"), true)
      ∧ (∀ u, u ≠ Some user → access tree_id u w' = access tree_id u w)
      ∧ (∀ id, id ≠ tree_id → trees w' !! id = trees w !! id).
Proof.
  intros Ht Hs Hc Hj Hd Hrole Hne Hr Hwf Hm.
  destruct (roles_wf_member t user Hwf Hm) as [Hown Hexcl].
  destruct Hwf as (NDe & NDv & _).
  unfold change_tree_permission. rewrite guarded_route by (rewrite ?Hs; eauto).
  unfold dispatch, change_tree_permission_body. rewrite Hj, Hs.
  unfold py_get, mbind, M_bind, pure, mret, M_ret. rewrite Hd, Hrole. simpl.
  assert (Htruthy : String.eqb user "" = false) by by apply String.eqb_neq.
  rewrite Htruthy.
  assert (Hrole_ne : String.eqb new_role "" = false)
    by (destruct Hr as [-> | ->]; reflexivity).
  rewrite Hrole_ne. simpl.
  assert (Hvalid : bool_decide (new_role = "editor") || bool_decide (new_role = "viewer")
                   = true)
    by (destruct Hr as [-> | ->]; reflexivity).
  rewrite Hvalid. simpl.
  rewrite fetch_owned_tree_owner by done.
  rewrite (bool_decide_eq_false_2 (user = owner_id t)) by done.
  assert (Hmember : negb (bool_decide (user ∈ or_empty (editor_ids t)))
                    && negb (bool_decide (user ∈ or_empty (viewer_ids t))) = false).
  { destruct Hm as [Hm|Hm]; rewrite (bool_decide_eq_true_2 _ Hm); simpl; [done|].
    by rewrite andb_false_r. }
  rewrite Hmember. unfold update_tree, modify.
  set (editors1 := if bool_decide (user ∈ or_empty (editor_ids t)) then _ else _).
  set (viewers1 := if bool_decide (user ∈ or_empty (viewer_ids t)) then _ else _).
  assert (He1 : (user ∉ editors1) ∧ ∀ x, x ≠ user → x ∈ editors1 ↔ x ∈ or_empty (editor_ids t)).
  { subst editors1. destruct (bool_decide (user ∈ or_empty (editor_ids t))) eqn:E.
    - split; [by apply not_elem_of_py_remove|]. intros x Hx.
      by apply elem_of_py_remove_ne.
    - apply bool_decide_eq_false_1 in E. done. }
  assert (Hv1 : (user ∉ viewers1) ∧ ∀ x, x ≠ user → x ∈ viewers1 ↔ x ∈ or_empty (viewer_ids t)).
  { subst viewers1. destruct (bool_decide (user ∈ or_empty (viewer_ids t))) eqn:E.
    - split; [by apply not_elem_of_py_remove|]. intros x Hx.
      by apply elem_of_py_remove_ne.
    - apply bool_decide_eq_false_1 in E. done. }
  destruct He1 as [Hue1 Hoe1], Hv1 as [Huv1 Hov1].
  clearbody editors1 viewers1.
  eexists. split; [reflexivity|]. split; [|split].
  - erewrite access_user; [|by apply lookup_trees_alter|done]. simpl.
    rewrite (bool_decide_eq_false_2 (owner_id t = user)) by done.
    destruct Hr as [-> | ->]; simpl.
    + rewrite (bool_decide_eq_true_2 (user ∈ (editors1 ++ [user])%list)) by set_solver.
      by rewrite !orb_true_r.
    + rewrite (bool_decide_eq_false_2 (user ∈ editors1)) by done.
      rewrite (bool_decide_eq_true_2 (user ∈ (viewers1 ++ [user])%list)) by set_solver.
      by rewrite !orb_true_r.
  - intros u Hother.
    eapply access_same_membership; [done|by apply lookup_trees_alter|done|done|].
    intros x ->. assert (Hx : x ≠ user) by congruence. simpl.
    destruct Hr as [-> | ->]; simpl.
    + rewrite elem_of_app, list_elem_of_singleton, Hoe1, Hov1 by done.
      split; [|done]. split; [intros [?|?]; [done|congruence]|by left].
    + rewrite elem_of_app, list_elem_of_singleton, Hoe1, Hov1 by done.
      split; [done|]. split; [intros [?|?]; [done|congruence]|by left].
  - intros id Hid. by apply lookup_trees_alter_ne.
Qed.

(** ** Invitation links *)

Lemma join_by_token_eq (token : string) (req : request) (w : world) :
  join_by_token token req w =
  match tree_invitations w !! token with
  | None =>
      (Ok (invalid_link "This invitation link is invalid or has expired." 400,
           session req), w)
  | Some inv =>
      if bool_decide (expires_at inv < clock w) || invitation_full inv then
        (Ok (invalid_link
               "This invitation link is invalid, expired, or has reached its usage limit."
               400, session req), w)
      else
        match session req !! "user_id" with
        | Some user =>
            (Ok (match (process_invitation token user w).1 with
                 | Ok (Some tree_id) =>
                     if str_truthy tree_id then
                       Redirect (UrlFor "pages.tree_page" [("tree_id", tree_id)]) 302
                     else invalid_link "Could not process this invitation." 500
                 | _ => invalid_link "Could not process this invitation." 500
                 end, session req),
             (process_invitation token user w).2)
        | None =>
            (Ok (Redirect (UrlFor "auth.login"
                   [("message", "Please log in or create an account to join the tree.");
                    ("message_t", "LOGIN_PAGE.MESSAGES.JOIN_TREE_PROMPT")]) 302,
                 <["join_token" := token]> (session req)), w)
        end
  end.
Proof.
  unfold join_by_token, try_except, select_invitation_single, utcnow, gets,
    mbind, M_bind, pure, mret, M_ret.
  destruct (tree_invitations w !! token) as [inv|]; [|reflexivity].
  destruct (bool_decide (expires_at inv < clock w) || invitation_full inv);
    [reflexivity|].
  destruct (session req !! "user_id") as [user|]; [|reflexivity].
  rewrite process_invitation_eq.
  repeat (case_match; simpl in *; simplify_eq); try reflexivity; congruence.
Qed.

(** X7.  A link that is unknown, expired or used up is turned away by
    [join_by_token] with the 400 page before anything is stored: neither
    the database nor the session changes, whether or not the visitor is
    logged in. *)
Theorem join_by_token_invalid (token : string) (req : request) (w : world) :
  match tree_invitations w !! token with
  | None => True
  | Some inv => expires_at inv < clock w ∨ invitation_full inv = true
  end →
  ∃ message, join_by_token token req w
             = (Ok (invalid_link message 400, session req), w).
Proof.
  intros Hinv. rewrite join_by_token_eq.
  destruct (tree_invitations w !! token) as [inv|]; [|eauto].
  assert (Hbad : bool_decide (expires_at inv < clock w) || invitation_full inv = true).
  { destruct Hinv as [Hexp| ->]; [|by rewrite orb_true_r].
    by rewrite bool_decide_eq_true_2. }
  rewrite Hbad. eauto.
Qed.

(** X8.  Consuming an invitation never raises and changes nothing but the
    usage record of that invitation and the member lists of its tree: the
    persons, users, files, clock and identifier cache are as before, no row
    appears or disappears, the other invitations and the other trees are
    untouched, the invitation keeps its tree, role, expiry and limit, and
    every tree keeps its owner, name and flags and all the members it
    had. *)
Theorem process_invitation_frame (token user : string) (w : world) :
  let w' := (process_invitation token user w).2 in
  (∃ r, (process_invitation token user w).1 = Ok r)
  ∧ persons w' = persons w ∧ users w' = users w ∧ bucket w' = bucket w
  ∧ clock w' = clock w ∧ new_ids_dict w' = new_ids_dict w
  ∧ (∀ tok, tok ≠ token → tree_invitations w' !! tok = tree_invitations w !! tok)
  ∧ (tree_invitations w !! token = None → w' = w)
  ∧ (∀ inv, tree_invitations w !! token = Some inv →
       (∃ inv', tree_invitations w' !! token = Some inv'
              ∧ inv_tree_id inv' = inv_tree_id inv ∧ inv_role inv' = inv_role inv
              ∧ expires_at inv' = expires_at inv ∧ usage_limit inv' = usage_limit inv)
       ∧ ∀ id, id ≠ inv_tree_id inv → trees w' !! id = trees w !! id)
  ∧ (∀ id, trees w !! id = None → trees w' !! id = None)
  ∧ (∀ id t, trees w !! id = Some t →
       ∃ t', trees w' !! id = Some t'
           ∧ owner_id t' = owner_id t ∧ tree_name t' = tree_name t
           ∧ is_public t' = is_public t
           ∧ allow_file_uploads t' = allow_file_uploads t ∧ is_demo t' = is_demo t
           ∧ (∀ u, u ∈ or_empty (editor_ids t) → u ∈ or_empty (editor_ids t'))
           ∧ (∀ u, u ∈ or_empty (viewer_ids t) → u ∈ or_empty (viewer_ids t'))).
Proof.
  cbv zeta. rewrite process_invitation_eq.
  destruct (tree_invitations w !! token) as [inv|] eqn:Hinv.
  2: { split; [by eexists|]. do 5 (split; [reflexivity|]).
       split; [done|]. split; [done|]. split; [done|]. split; [done|].
       intros id t Ht. exists t. done. }
  assert (Hsame : ∀ r : option string,
    (∃ r0, (Ok r, w).1 = Ok r0)
    ∧ persons (Ok r, w).2 = persons w ∧ users (Ok r, w).2 = users w
    ∧ bucket (Ok r, w).2 = bucket w
    ∧ clock (Ok r, w).2 = clock w ∧ new_ids_dict (Ok r, w).2 = new_ids_dict w
    ∧ (∀ tok, tok ≠ token →
         tree_invitations (Ok r, w).2 !! tok = tree_invitations w !! tok)
    ∧ (Some inv = None → (Ok r, w).2 = w)
    ∧ (∀ inv0, Some inv = Some inv0 →
         (∃ inv', tree_invitations (Ok r, w).2 !! token = Some inv'
                ∧ inv_tree_id inv' = inv_tree_id inv0 ∧ inv_role inv' = inv_role inv0
                ∧ expires_at inv' = expires_at inv0
                ∧ usage_limit inv' = usage_limit inv0)
         ∧ ∀ id, id ≠ inv_tree_id inv0 → trees (Ok r, w).2 !! id = trees w !! id)
    ∧ (∀ id, trees w !! id = None → trees (Ok r, w).2 !! id = None)
    ∧ (∀ id t, trees w !! id = Some t →
         ∃ t', trees (Ok r, w).2 !! id = Some t'
             ∧ owner_id t' = owner_id t ∧ tree_name t' = tree_name t
             ∧ is_public t' = is_public t
             ∧ allow_file_uploads t' = allow_file_uploads t ∧ is_demo t' = is_demo t
             ∧ (∀ u, u ∈ or_empty (editor_ids t) → u ∈ or_empty (editor_ids t'))
             ∧ (∀ u, u ∈ or_empty (viewer_ids t) → u ∈ or_empty (viewer_ids t')))).
  { intros r. simpl. split; [by eexists|]. do 5 (split; [reflexivity|]).
    split; [done|]. split; [done|]. split; [|split; [done|]].
    - intros inv0 [= <-]. split; [|done]. exists inv. done.
    - intros id t Ht. exists t. done. }
  destruct (bool_decide (expires_at inv < clock w)); [apply Hsame|].
  destruct (invitation_full inv); [apply Hsame|].
  destruct (bool_decide (user ∈ or_empty (used_by_users inv))); [apply Hsame|].
  destruct (trees w !! inv_tree_id inv) as [t0|] eqn:Ht0; [|apply Hsame].
  clear Hsame. cbv zeta.
  set (w1 := if _ || _ || _ then w else _).
  assert (Hw1 : persons w1 = persons w ∧ users w1 = users w ∧ bucket w1 = bucket w
                ∧ clock w1 = clock w ∧ new_ids_dict w1 = new_ids_dict w
                ∧ tree_invitations w1 = tree_invitations w
                ∧ (∀ id, id ≠ inv_tree_id inv → trees w1 !! id = trees w !! id)
                ∧ ∃ t1, trees w1 !! inv_tree_id inv = Some t1
                      ∧ owner_id t1 = owner_id t0 ∧ tree_name t1 = tree_name t0
                      ∧ is_public t1 = is_public t0
                      ∧ allow_file_uploads t1 = allow_file_uploads t0
                      ∧ is_demo t1 = is_demo t0
                      ∧ (∀ u, u ∈ or_empty (editor_ids t0) → u ∈ or_empty (editor_ids t1))
                      ∧ (∀ u, u ∈ or_empty (viewer_ids t0) → u ∈ or_empty (viewer_ids t1))).
  { subst w1. repeat case_match; simpl.
    all: do 6 (split; [reflexivity|]).
    all: split; [try done; intros id Hid; by rewrite lookup_alter_ne|].
    all: try (exists t0; done).
    all: rewrite lookup_alter_eq, Ht0; simpl; eexists; split; [reflexivity|].
    all: simpl; do 5 (split; [reflexivity|]).
    all: split; intros u Hu; try done; apply elem_of_app; by left. }
  destruct Hw1 as (Hp & Hu & Hb & Hc & Hn & Hi & Hother & t1 & Ht1 & Hfields).
  clearbody w1. simpl.
  split; [by eexists|]. do 5 (split; [done|]).
  split; [|split; [done|split; [|split]]].
  - intros tok Htok. by rewrite lookup_alter_ne, Hi.
  - intros inv0 [= <-]. split; [|done].
    rewrite lookup_alter_eq, Hi, Hinv. simpl.
    eexists. split; [reflexivity|]. done.
  - intros id Hid. destruct (decide (id = inv_tree_id inv)) as [->|Hne].
    + congruence.
    + by rewrite Hother.
  - intros id t Ht. destruct (decide (id = inv_tree_id inv)) as [->|Hne].
    + exists t1. assert (t = t0) by congruence. subst t. done.
    + exists t. rewrite Hother by done. done.
Qed.

Section Invitations.

Variable gen_random_uuid : world → string.

(** The run of [create_invitation] for the owner. *)
Lemma create_invitation_run
    (w : world) (tree_id : string) (req : request) (t : tree)
    (d : list (string * json)) (role : string) (limit : option Z) :
  trees w !! tree_id = Some t →
  session req !! "user_id" = Some (owner_id t) →
  csrf_token_valid req = true →
  get_json req = JDict d →
  assoc "role" d = Some (JStr role) →
  role = "editor" ∨ role = "viewer" →
  match default JNull (assoc "limit" d) with
  | JNull => limit = None
  | JNum n => limit = Some n
  | _ => False
  end →
  tree_invitations w !! gen_random_uuid w = None →
  dispatch (create_invitation gen_random_uuid tree_id) req w
  = (Jsonify [("success", JBool true);
              ("link", JStr ("/join/" ++ gen_random_uuid w))] 200,
     set_tree_invitations
       (<[gen_random_uuid w :=
            Invitation tree_id role (clock w + 365 * 86400) (Some []) limit]>) w).
Proof.
  intros Ht Hs Hc Hj Hrole Hr Hlimit Hfresh.
  unfold create_invitation. rewrite guarded_route by (rewrite ?Hs; eauto).
  unfold dispatch, create_invitation_body. rewrite Hs.
  unfold mbind, M_bind. rewrite fetch_owned_tree_owner by done.
  rewrite Hj. unfold py_get, pure, mret, M_ret. rewrite Hrole. simpl.
  assert (Hvalid : bool_decide (role ∈ ["editor"; "viewer"]) = true).
  { apply bool_decide_eq_true_2. destruct Hr as [-> | ->]; set_solver. }
  rewrite Hvalid. simpl.
  unfold try_except, utcnow, gets, insert_invitation, mbind, M_bind.
  rewrite Hfresh.
  destruct (default JNull (assoc "limit" d)); try done; by subst limit.
Qed.

(** X9.  The whole path of an invitation link: when the owner creates a
    link for a role, with no limit or a positive one, and a logged-in user
    without a role on the tree follows it within its 365 days, the user is
    sent to the page of the tree, is recorded as the only user of the link
    and can from then on view the tree, and edit it exactly when the link
    was made for editors. *)
Theorem invitation_link_end_to_end
    (w : world) (tree_id : string) (req req' : request) (t : tree)
    (d : list (string * json)) (role : string) (limit : option Z)
    (user : string) (now : Z) :
  trees w !! tree_id = Some t →
  tree_id ≠ "" →
  session req !! "user_id" = Some (owner_id t) →
  csrf_token_valid req = true →
  get_json req = JDict d →
  assoc "role" d = Some (JStr role) →
  role = "editor" ∨ role = "viewer" →
  match default JNull (assoc "limit" d) with
  | JNull => limit = None
  | JNum n => limit = Some n
  | _ => False
  end →
  (∀ n, limit = Some n → 0 < n) →
  tree_invitations w !! gen_random_uuid w = None →
  session req' !! "user_id" = Some user →
  user ≠ "" → user ≠ owner_id t →
  user ∉ or_empty (editor_ids t) → user ∉ or_empty (viewer_ids t) →
  now ≤ clock w + 365 * 86400 →
  let token := gen_random_uuid w in
  let w1 := (dispatch (create_invitation gen_random_uuid tree_id) req w).2 in
  ∃ w2, join_by_token token req' (set_clock now w1)
        = (Ok (Redirect (UrlFor "pages.tree_page" [("tree_id", tree_id)]) 302,
               session req'), w2)
      ∧ access tree_id (Some user) w2 = Some (bool_decide (role = "editor"), true)
      ∧ tree_invitations w2 !! token
        = Some (Invitation tree_id role (clock w + 365 * 86400) (Some [user]) limit).
Proof.
  intros Ht Htid Hs Hc Hj Hrole Hr Hlimit Hpos Hfresh Hs' Hue Huo Hed Hvi Hnow.
  intros token w1. subst w1.
  erewrite create_invitation_run by done. simpl.
  fold token.
  set (inv := Invitation tree_id role (clock w + 365 * 86400) (Some []) limit).
  set (w1 := set_clock now (set_tree_invitations (<[token := inv]>) w)).
  assert (Hinv : tree_invitations w1 !! token = Some inv)
    by (subst w1; simpl; by rewrite lookup_insert_eq).
  assert (Hnotfull : invitation_full inv = false).
  { unfold invitation_full. subst inv. simpl. destruct limit as [n|]; [|done].
    apply bool_decide_eq_false_2. specialize (Hpos n eq_refl). simpl. lia. }
  assert (Hnotexp : bool_decide (expires_at inv < clock w1) = false).
  { apply bool_decide_eq_false_2. subst inv w1. simpl. lia. }
  assert (Htree : trees w1 !! tree_id = Some t) by (subst w1; done).
  assert (Hproc : process_invitation token user w1
                  = (Ok (Some tree_id),
                     set_tree_invitations
                       (alter (with_used_by_users [user]) token)
                       (set_trees
                          (alter (if bool_decide (role = "editor")
                                  then with_editor_ids
                                         (or_empty (editor_ids t) ++ [user])%list
                                  else with_viewer_ids
                                         (or_empty (viewer_ids t) ++ [user])%list)
                                 tree_id) w1))).
  { rewrite process_invitation_eq, Hinv, Hnotexp, Hnotfull.
    rewrite (bool_decide_eq_false_2 (user ∈ or_empty (used_by_users inv)))
      by (subst inv; simpl; set_solver).
    change (inv_tree_id inv) with tree_id. rewrite Htree. cbv zeta.
    rewrite (bool_decide_eq_false_2 (user = owner_id t)) by done.
    rewrite (bool_decide_eq_false_2 (user ∈ or_empty (editor_ids t))) by done.
    rewrite (bool_decide_eq_false_2 (user ∈ or_empty (viewer_ids t))) by done.
    simpl. destruct Hr as [-> | ->]; reflexivity. }
  eexists. split; [|split].
  - rewrite join_by_token_eq, Hinv, Hnotexp, Hnotfull, Hs'. simpl.
    rewrite Hproc. simpl.
    assert (Htruthy : str_truthy tree_id = true)
      by (unfold str_truthy; apply negb_true_iff; by apply String.eqb_neq).
    rewrite Htruthy. reflexivity.
  - erewrite access_user; [| |done].
    2: { simpl. rewrite lookup_alter_eq. subst w1. simpl. rewrite Ht. reflexivity. }
    destruct Hr as [-> | ->]; simpl.
    + rewrite (bool_decide_eq_true_2 (user ∈ _)) by set_solver.
      by rewrite !orb_true_r.
    + rewrite (bool_decide_eq_true_2 (user ∈ (or_empty (viewer_ids t) ++ [user])%list))
        by set_solver.
      rewrite (bool_decide_eq_false_2 (owner_id t = user)) by done.
      rewrite (bool_decide_eq_false_2 (user ∈ or_empty (editor_ids t))) by done.
      by rewrite !orb_true_r.
  - simpl. rewrite lookup_alter_eq. subst w1. simpl.
    rewrite lookup_insert_eq. reflexivity.
Qed.

End Invitations.

(** The run of [expire_invitation_link] for the owner and a link of the
    tree. *)
Lemma expire_invitation_link_run
    (w : world) (tree_id token : string) (req : request) (t : tree)
    (inv : invitation) :
  trees w !! tree_id = Some t →
  session req !! "user_id" = Some (owner_id t) →
  csrf_token_valid req = true →
  tree_invitations w !! token = Some inv →
  inv_tree_id inv = tree_id →
  dispatch (expire_invitation_link tree_id token) req w
  = (Jsonify [("success", JBool true);
              ("message", JStr "Invitation link successfully revoked.")] 200,
     set_tree_invitations (<[token := with_expires_at (clock w) inv]>) w).
Proof.
  intros Ht Hs Hc Hinv Htid.
  unfold expire_invitation_link. rewrite guarded_route by (rewrite ?Hs; eauto).
  unfold dispatch, expire_invitation_link_body. rewrite Hs.
  unfold mbind, M_bind. rewrite fetch_owned_tree_owner by done.
  unfold try_except, utcnow, gets, update_invitation_of_tree, mbind, M_bind.
  rewrite Hinv. by rewrite bool_decide_eq_true_2.
Qed.

(** X10.  Once the owner has revoked an invitation link, the answer being
    200, the link is dead at every later time: whoever follows it gets the
    400 page, [process_invitation] returns [None] for every user, and
    neither writes anything. *)
Theorem revoked_link_is_dead
    (w : world) (tree_id token : string) (req : request) (t : tree)
    (inv : invitation) :
  trees w !! tree_id = Some t →
  session req !! "user_id" = Some (owner_id t) →
  csrf_token_valid req = true →
  tree_invitations w !! token = Some inv →
  inv_tree_id inv = tree_id →
  ∃ w', dispatch (expire_invitation_link tree_id token) req w
        = (Jsonify [("success", JBool true);
                    ("message", JStr "Invitation link successfully revoked.")] 200, w')
      ∧ trees w' = trees w
      ∧ (∀ tok, tok ≠ token → tree_invitations w' !! tok = tree_invitations w !! tok)
      ∧ ∀ now user req', clock w < now →
          process_invitation token user (set_clock now w')
          = (Ok None, set_clock now w')
          ∧ join_by_token token req' (set_clock now w')
            = (Ok (invalid_link
                     "This invitation link is invalid, expired, or has reached its usage limit."
                     400, session req'), set_clock now w').
Proof.
  intros Ht Hs Hc Hinv Htid.
  eexists. split; [by eapply expire_invitation_link_run|].
  split; [done|]. split.
  - intros tok Htok. simpl. by rewrite lookup_insert_ne.
  - intros now user req' Hnow.
    set (w' := set_clock now _).
    assert (Hinv' : tree_invitations w' !! token = Some (with_expires_at (clock w) inv))
      by (subst w'; simpl; by rewrite lookup_insert_eq).
    assert (Hexp : bool_decide (expires_at (with_expires_at (clock w) inv) < clock w')
                   = true)
      by (apply bool_decide_eq_true_2; subst w'; simpl; lia).
    split.
    + by rewrite process_invitation_eq, Hinv', Hexp.
    + by rewrite join_by_token_eq, Hinv', Hexp.
Qed.

(** X11.  Through the route of one tree the owner cannot revoke a link that
    belongs to another tree, or a link that does not exist: the answer is
    404 and nothing is written. *)
Theorem expire_invitation_link_foreign
    (w : world) (tree_id token : string) (req : request) (t : tree) :
  trees w !! tree_id = Some t →
  session req !! "user_id" = Some (owner_id t) →
  csrf_token_valid req = true →
  (∀ inv, tree_invitations w !! token = Some inv → inv_tree_id inv ≠ tree_id) →
  dispatch (expire_invitation_link tree_id token) req w
  = (json_error "Invitation link not found or does not belong to this tree." 404, w).
Proof.
  intros Ht Hs Hc Hforeign.
  unfold expire_invitation_link. rewrite guarded_route by (rewrite ?Hs; eauto).
  unfold dispatch, expire_invitation_link_body. rewrite Hs.
  unfold mbind, M_bind. rewrite fetch_owned_tree_owner by done.
  unfold try_except, utcnow, gets, update_invitation_of_tree, mbind, M_bind.
  destruct (tree_invitations w !! token) as [inv|] eqn:Hinv; [|done].
  by rewrite bool_decide_eq_false_2 by (by apply Hforeign).
Qed.

(** ** auth.py: the pending invitation of a visitor who signs in *)

Section SessionFlow.

Variable auth_set_session : json → json → world → result (string * string).

(** X12.  A visitor without a session who follows a valid link is sent to
    the login page with the token kept in the session and nothing written.
    When a request with that session then sets the session from tokens that
    the authentication service accepts, the invitation is consumed for the
    signed-in user: the database is the one [process_invitation] leaves,
    the session holds the user and no longer the token, and the answer
    points to the page of the tree when the invitation was accepted and to
    the home page otherwise. *)
Theorem pending_join_completes_at_sign_in
    (w w2 : world) (token : string) (req req2 : request) (inv : invitation)
    (d : list (string * json)) (access_token refresh_token : json)
    (user email : string) :
  tree_invitations w !! token = Some inv →
  ¬ expires_at inv < clock w →
  invitation_full inv = false →
  session req !! "user_id" = None →
  get_json req2 = JDict d →
  assoc "access_token" d = Some access_token →
  assoc "refresh_token" d = Some refresh_token →
  truthy access_token = true → truthy refresh_token = true →
  auth_set_session access_token refresh_token w2 = Ok (user, email) →
  ∃ resp1 sess1,
    join_by_token token req w = (Ok (resp1, sess1), w)
    ∧ status_of resp1 = 302
    ∧ sess1 !! "join_token" = Some token
    ∧ sess1 !! "user_id" = None
    ∧ (session req2 = sess1 →
       ∃ sess2,
         set_session auth_set_session req2 w2
         = (Ok (Jsonify
                  [("success", JBool true);
                   ("redirect_url",
                    JStr (match (process_invitation token user w2).1 with
                          | Ok (Some tree_id) =>
                              if str_truthy tree_id then "/tree/" ++ tree_id
                              else "/home"
                          | _ => "/home"
                          end))] 200, sess2),
            (process_invitation token user w2).2)
         ∧ sess2 !! "user_id" = Some user
         ∧ sess2 !! "user_email" = Some email
         ∧ sess2 !! "join_token" = None).
Proof.
  intros Hinv Hexp Hfull Hanon Hj Ha Hr Hta Htr Hauth.
  eexists _, _. split; [|split; [|split; [|split]]].
  - rewrite join_by_token_eq, Hinv, Hfull, Hanon.
    rewrite bool_decide_eq_false_2 by done. simpl. reflexivity.
  - done.
  - by rewrite lookup_insert_eq.
  - by rewrite lookup_insert_ne.
  - intros Hsess.
    unfold set_session. rewrite Hj, Hsess.
    unfold py_get, mbind, M_bind, pure, mret, M_ret. rewrite Ha, Hr. simpl.
    rewrite Hta, Htr. simpl.
    unfold try_except, auth_user, mbind, M_bind. rewrite Hauth. simpl.
    rewrite lookup_insert_ne by done. rewrite lookup_insert_ne by done.
    rewrite lookup_insert_eq.
    rewrite process_invitation_eq.
    eexists. split.
    + repeat (case_match; simpl in *; simplify_eq); reflexivity.
    + split; [|split].
      * rewrite lookup_delete_ne by done. rewrite lookup_insert_ne by done.
        by rewrite lookup_insert_eq.
      * rewrite lookup_delete_ne by done. by rewrite lookup_insert_eq.
      * by rewrite lookup_delete_eq.
Qed.

(** X13.  [set_session] without one of the two tokens answers 400, and
    with tokens that the authentication service refuses 500; in both cases
    the session is left as it was, a pending invitation token included, and
    nothing is written. *)
Theorem set_session_refusals
    (w : world) (req : request) (d : list (string * json)) :
  get_json req = JDict d →
  let access_token := default JNull (assoc "access_token" d) in
  let refresh_token := default JNull (assoc "refresh_token" d) in
  (truthy access_token = false ∨ truthy refresh_token = false →
   set_session auth_set_session req w
   = (Ok (Jsonify [("success", JBool false); ("error", JStr "Missing tokens")] 400,
          session req), w))
  ∧ (∀ e, truthy access_token = true → truthy refresh_token = true →
       auth_set_session access_token refresh_token w = Raise e →
       set_session auth_set_session req w
       = (Ok (Jsonify [("success", JBool false); ("error", JStr (str_of_exn e))] 500,
              session req), w)).
Proof.
  intros Hj access_token refresh_token.
  unfold set_session. rewrite Hj.
  unfold py_get, mbind, M_bind, pure, mret, M_ret.
  fold access_token refresh_token. split.
  - intros [-> | ->]; simpl; [done|]. by rewrite orb_true_r.
  - intros e -> -> Hauth. simpl.
    unfold try_except, auth_user, mbind, M_bind. by rewrite Hauth.
Qed.

End SessionFlow.

(** ** api_data.py: the first identifier handed out for a tree *)

Lemma max_person_id_spec (tree_id : string) (rows : list person_row) :
  match max_person_id tree_id rows with
  | None => ∀ r, r ∈ rows → person_tree_id r ≠ tree_id
  | Some m =>
      (∀ r, r ∈ rows → person_tree_id r = tree_id → person_id r ≤ m)
      ∧ ∃ r, r ∈ rows ∧ person_tree_id r = tree_id ∧ person_id r = m
  end.
Proof.
  induction rows as [|r0 rows IH]; simpl.
  - intros r Hr. by apply elem_of_nil in Hr.
  - destruct (bool_decide (person_tree_id r0 = tree_id)) eqn:Hr0.
    + apply bool_decide_eq_true_1 in Hr0.
      destruct (max_person_id tree_id rows) as [m|].
      * destruct IH as [Hle (r1 & Hin & Htree & Hid)]. split.
        -- intros r Hr Ht. apply elem_of_cons in Hr as [-> | Hr]; [lia|].
           specialize (Hle r Hr Ht). lia.
        -- destruct (Z.max_spec (person_id r0) m) as [[_ ->] | [_ ->]].
           ++ exists r1. split; [by apply elem_of_cons; right|done].
           ++ exists r0. split; [by apply elem_of_cons; left|done].
      * split.
        -- intros r Hr Ht. apply elem_of_cons in Hr as [-> | Hr]; [lia|].
           by destruct (IH r Hr).
        -- exists r0. split; [by apply elem_of_cons; left|done].
    + apply bool_decide_eq_false_1 in Hr0.
      destruct (max_person_id tree_id rows) as [m|].
      * destruct IH as [Hle (r1 & Hin & Htree & Hid)]. split.
        -- intros r Hr Ht. apply elem_of_cons in Hr as [-> | Hr]; [done|].
           by apply Hle.
        -- exists r1. split; [by apply elem_of_cons; right|done].
      * intros r Hr. apply elem_of_cons in Hr as [-> | Hr]; [done|]. by apply IH.
Qed.

(** X14.  When the process has no identifier in its cache for the tree (or
    the cached one is 0), a call that passes the session, CSRF and edit
    checks answers with an identifier that is larger than the identifier
    of every person of the tree: 1 for a tree without persons and the
    largest identifier plus one otherwise.  The identifier is stored in the
    cache and the tables are left as they were. *)
Theorem get_new_id_first_call (tree_id : string) (w : world) (req : request) :
  may_edit tree_id w req →
  new_ids_dict w !! tree_id = None ∨ new_ids_dict w !! tree_id = Some 0 →
  ∃ n, dispatch (get_new_id tree_id) req w
       = (Jsonify [("id", JNum n); ("success", JBool true)] 200,
          set_new_ids_dict (<[tree_id := n]>) w)
     ∧ (∀ r, r ∈ persons w → person_tree_id r = tree_id → person_id r < n)
     ∧ ((n = 1 ∧ ∀ r, r ∈ persons w → person_tree_id r ≠ tree_id)
        ∨ ∃ r, r ∈ persons w ∧ person_tree_id r = tree_id ∧ n = person_id r + 1).
Proof.
  intros (Hs & Hv & p & Hres & Hedit) Hcache.
  exists (match max_person_id tree_id (persons w) with Some m => m + 1 | None => 1 end).
  split.
  - unfold dispatch, get_new_id.
    rewrite login_required_logged_in, no_cache_eq, csrf_protect_api_valid by done.
    unfold get_new_id_body, mbind, M_bind.
    rewrite get_tree_and_user_permissions_eq, Hres, Hedit. simpl.
    unfold try_except, select_max_person_id, gets, modify, mbind, M_bind, pure,
      mret, M_ret.
    by destruct Hcache as [-> | ->].
  - pose proof (max_person_id_spec tree_id (persons w)) as Hmax.
    destruct (max_person_id tree_id (persons w)) as [m|].
    + destruct Hmax as [Hle (r1 & Hin & Htree & Hid)]. split.
      * intros r Hr Ht. specialize (Hle r Hr Ht). lia.
      * right. exists r1. split; [done|]. split; [done|]. lia.
    + split.
      * intros r Hr Ht. by destruct (Hmax r Hr).
      * by left.
Qed.

(** ** Editing needs the edit right *)

Lemma resolver_without_edit
    (w : world) (tree_id : string) (t : tree) (user_id : option string) :
  trees w !! tree_id = Some t →
  (∀ u, user_id = Some u → u ≠ owner_id t ∧ u ∉ or_empty (editor_ids t)) →
  ∃ p, get_tree_and_user_permissions tree_id user_id w = (Ok (Some p), w)
     ∧ can_edit p = false ∧ perm_tree p = t.
Proof.
  intros Ht Hno.
  unfold get_tree_and_user_permissions, try_except, select_tree_single, mbind, M_bind.
  rewrite Ht. destruct user_id as [u|]; simpl; [|eauto].
  destruct (str_truthy u); [|eauto].
  destruct (Hno u eq_refl) as [Ho He].
  eexists. split; [reflexivity|]. simpl. split; [|done].
  rewrite (bool_decide_eq_false_2 (owner_id t = u)) by done.
  by rewrite (bool_decide_eq_false_2 (u ∈ or_empty (editor_ids t))).
Qed.

Section EditRoutes.

Variable nh3_clean : string → string.
Variable pg_int : json → option Z.
Variable batch_update_persons_atomic :
  string → json → json → json → list person_row → result (list person_row).
Variable storage_remove : list string → gset string → option exn * gset string.
Variable webp_of_image : string → result string.
Variable storage_upload :
  string → string → list (string * string) → gset string → option exn * gset string.

(** X15.  A logged-in user who is neither the owner nor an editor of an
    existing tree, a viewer or a visitor of a public tree included, is
    answered 403 by the three editing routes (a new identifier, the batch
    update, a file upload), whatever the request carries, and nothing is
    written. *)
Theorem editing_needs_edit_right
    (w : world) (tree_id type : string) (req : request) (t : tree) (user : string)
    (files : gmap string file_storage) (uuid_a uuid_b : string) (v : view) :
  trees w !! tree_id = Some t →
  session req !! "user_id" = Some user →
  csrf_token_valid req = true →
  user ≠ owner_id t → user ∉ or_empty (editor_ids t) →
  v ∈ [get_new_id tree_id;
       batch_update_persons nh3_clean pg_int batch_update_persons_atomic storage_remove
         tree_id;
       upload_file (upload_file_impl webp_of_image storage_upload files uuid_a uuid_b)
         tree_id type] →
  dispatch v req w = (json_error "Edit permission denied" 403, w).
Proof.
  intros Ht Hs Hc Hown Hed Hv.
  destruct (resolver_without_edit w tree_id t (Some user) Ht) as (p & Hres & Hedit & _).
  { intros u [= <-]. done. }
  repeat (apply elem_of_cons in Hv as [-> | Hv]); [..|by apply elem_of_nil in Hv].
  all: unfold dispatch, get_new_id, batch_update_persons, upload_file.
  all: rewrite login_required_logged_in, no_cache_eq, csrf_protect_api_valid
         by (rewrite ?Hs; eauto).
  all: unfold get_new_id_body, batch_update_persons_body, batch_prelude,
         upload_file_impl, mbind, M_bind.
  all: rewrite Hs, Hres, Hedit; reflexivity.
Qed.

End EditRoutes.

(** ** api_data.py: which URLs a person may carry *)

Lemma prefix_cons (a c : ascii) (p s : string) :
  String.prefix (String a p) (String c s)
  = if ascii_dec a c then String.prefix p s else false.
Proof. reflexivity. Qed.

Lemma dangerous_not_valid (url : string) :
  is_dangerous url = true → is_valid_scheme url = false.
Proof.
  unfold is_dangerous, is_valid_scheme, startswith.
  destruct url as [|c url]; [done|].
  rewrite !prefix_cons.
  repeat match goal with
         | |- context [ascii_dec ?a ?b] =>
             destruct (ascii_dec a b); try discriminate; subst
         end; done.
Qed.

(** X16.  The check on photo and document URLs is an allow list: a URL is
    refused exactly when, trimmed and lowercased, it is not empty and does
    not begin with [http:], [https:] or [/].  The list of dangerous schemes
    never decides, since no URL on it passes the allow list; an empty or
    blank URL is accepted. *)
Theorem url_check_is_allow_list (raw : string) :
  url_refused raw
  = str_truthy (lower (strip raw)) && negb (is_valid_scheme (lower (strip raw))).
Proof.
  unfold url_refused. cbv zeta.
  destruct (str_truthy (lower (strip raw))); [|done]. simpl.
  destruct (is_dangerous (lower (strip raw))) eqn:Hd.
  - by rewrite (dangerous_not_valid _ Hd).
  - by rewrite orb_false_r.
Qed.

(** ** Paths of stored files *)

Lemma prefix_app (p s : string) : String.prefix p (p ++ s) = true.
Proof.
  induction p as [|c p IH]; [by destruct s|].
  change (String c p ++ s)%string with (String c (p ++ s)).
  rewrite prefix_cons. by destruct (ascii_dec c c).
Qed.

Lemma replace_from_skip (old new s1 s2 : string) :
  replace_from (String.length s1) old new (s1 ++ s2) = replace_from 0 old new s2.
Proof.
  induction s1 as [|c s1 IH]; simpl; [|done].
  destruct s2; reflexivity.
Qed.

Lemma replace_absent (old new s : string) :
  contains s old = false → replace_from 0 old new s = s.
Proof.
  induction s as [|c s IH]; [done|].
  cbn [contains replace_from]. intros H.
  apply orb_false_iff in H as [Hp Hc]. rewrite Hp. by rewrite IH.
Qed.

(** Taking the prefix off a URL made of the prefix and a path gives the
    path back, when the prefix does not occur inside the path. *)
Lemma replace_prefix_once (old s : string) :
  old ≠ "" → contains s old = false → replace (old ++ s) old "" = s.
Proof.
  intros Hne Hc. unfold replace.
  destruct old as [|c old]; [done|].
  change (String c old ++ s)%string with (String c (old ++ s)).
  cbn [replace_from].
  change (String c (old ++ s)) with (String c old ++ s)%string.
  rewrite prefix_app. cbn [String.length]. rewrite Nat.sub_1_r. cbn [Nat.pred].
  rewrite replace_from_skip. simpl. by apply replace_absent.
Qed.

Lemma count_char_app (c : ascii) (s1 s2 : string) :
  count_char c (s1 ++ s2) = (count_char c s1 + count_char c s2)%nat.
Proof.
  induction s1 as [|a s1 IH]; [done|].
  change (String a s1 ++ s2)%string with (String a (s1 ++ s2)).
  cbn [count_char]. rewrite IH. lia.
Qed.

Lemma prefix_split (p s : string) :
  String.prefix p s = true → ∃ r, s = (p ++ r)%string.
Proof.
  revert s. induction p as [|a p IH]; intros s Hp; [by exists s|].
  destruct s as [|b s]; [done|]. rewrite prefix_cons in Hp.
  destruct (ascii_dec a b) as [<-|]; [|done].
  destruct (IH s Hp) as [r ->]. by exists r.
Qed.

Lemma contains_count (c : ascii) (s sub : string) :
  contains s sub = true → (count_char c sub ≤ count_char c s)%nat.
Proof.
  induction s as [|a s IH]; cbn [contains]; intros H.
  - rewrite orb_false_r in H. apply prefix_split in H as [r Hr].
    rewrite Hr, count_char_app. lia.
  - apply orb_true_iff in H as [H|H].
    + apply prefix_split in H as [r Hr]. rewrite Hr, count_char_app. lia.
    + specialize (IH H). cbn [count_char]. lia.
Qed.

Lemma contains_char_count (c : ascii) (s : string) :
  contains s (String c EmptyString) = false → count_char c s = O.
Proof.
  induction s as [|a s IH]; [done|].
  cbn [contains count_char]. rewrite prefix_cons. intros H.
  apply orb_false_iff in H as [Hp Hc]. rewrite (IH Hc).
  destruct (ascii_dec c a) as [<-|Hne].
  - by destruct s.
  - by rewrite (proj2 (Ascii.eqb_neq a c)) by congruence.
Qed.

Lemma split_last_spec (sep : ascii) (s a b : string) :
  split_last sep s = Some (a, b) →
  s = (a ++ String sep b)%string ∧ count_char sep b = O.
Proof.
  revert a. induction s as [|c s IH]; intros a; [done|].
  cbn [split_last].
  destruct (split_last sep s) as [[a' b']|] eqn:Hs.
  - intros [= <- <-]. destruct (IH a' eq_refl) as [-> Hb]. done.
  - destruct (Ascii.eqb c sep) eqn:Hc; [|done].
    intros [= <- <-]. apply Ascii.eqb_eq in Hc as ->. split; [done|].
    clear IH. induction s as [|c s IH]; [done|].
    cbn [split_last] in Hs. cbn [count_char].
    destruct (split_last sep s) as [[a' b']|]; [done|].
    destruct (Ascii.eqb c sep); [done|]. by rewrite IH.
Qed.

Lemma split_last_none (sep : ascii) (s : string) :
  split_last sep s = None → count_char sep s = O.
Proof.
  induction s as [|c s IH]; [done|].
  cbn [split_last count_char].
  destruct (split_last sep s) as [[a' b']|]; [done|].
  destruct (Ascii.eqb c sep); [done|]. intros _. by rewrite IH.
Qed.

(** The extension [os.path.splitext] gives holds no slash. *)
Lemma splitext_no_slash (p : string) : count_char "/" (splitext p).2 = O.
Proof.
  unfold splitext.
  destruct (split_last "/" p) as [[d b]|] eqn:Hd.
  - apply split_last_spec in Hd as [_ Hb].
    destruct (split_last "." b) as [[stem e]|] eqn:He; [|done].
    destruct (all_dots stem); [done|].
    apply split_last_spec in He as [-> _]. rewrite count_char_app in Hb.
    cbn [snd]. change ("." ++ e)%string with (String "." e).
    cbn [count_char] in *. lia.
  - apply split_last_none in Hd.
    destruct (split_last "." p) as [[stem e]|] eqn:He; [|done].
    destruct (all_dots stem); [done|].
    apply split_last_spec in He as [-> _]. rewrite count_char_app in Hd.
    cbn [snd]. change ("." ++ e)%string with (String "." e).
    cbn [count_char] in *. lia.
Qed.

(** A path of the form [tree/kind/name], with no slash in the name, does
    not hold the prefix of the file route of the tree. *)
Lemma stored_path_free (tree_id kind name : string) :
  count_char "/" kind = O → count_char "/" name = O →
  contains (tree_id ++ "/" ++ kind ++ "/" ++ name) (api_file_prefix tree_id) = false.
Proof.
  intros Hk Hn.
  destruct (contains _ _) eqn:Hc; [|done].
  apply (contains_count "/") in Hc. unfold api_file_prefix in Hc.
  rewrite !count_char_app in Hc. rewrite Hk, Hn in Hc.
  change (count_char "/" "/api/tree/") with 3%nat in Hc.
  change (count_char "/" "/file/") with 2%nat in Hc.
  change (count_char "/" "/") with 1%nat in Hc. lia.
Qed.

(** [file_of_url] gives the path back from the URL of the file route. *)
Lemma file_of_url_round_trip (tree_id path : string) (w : world) :
  contains path (api_file_prefix tree_id) = false →
  file_of_url (api_file_prefix tree_id) (JStr (api_file_prefix tree_id ++ path)) w
  = (Ok [path], w).
Proof.
  intros Hfree. unfold file_of_url, py_startswith, py_strip_prefix, startswith,
    mbind, M_bind, pure, mret, M_ret.
  assert (Htruthy : truthy (JStr (api_file_prefix tree_id ++ path)) = true) by done.
  rewrite Htruthy, prefix_app. simpl.
  by rewrite replace_prefix_once.
Qed.

Lemma string_app_assoc (a b c : string) : ((a ++ b) ++ c = a ++ (b ++ c))%string.
Proof.
  induction a as [|x a IH]; [done|].
  change (String x a ++ b)%string with (String x (a ++ b)).
  change (String x (a ++ b) ++ c)%string with (String x ((a ++ b) ++ c)).
  by rewrite IH.
Qed.

Lemma resolver_with_edit
    (w : world) (tree_id : string) (t : tree) (u : string) :
  trees w !! tree_id = Some t →
  u ≠ "" →
  u = owner_id t ∨ u ∈ or_empty (editor_ids t) →
  ∃ p, get_tree_and_user_permissions tree_id (Some u) w = (Ok (Some p), w)
     ∧ can_edit p = true ∧ perm_tree p = t.
Proof.
  intros Ht Hu Hm.
  unfold get_tree_and_user_permissions, try_except, select_tree_single, mbind, M_bind.
  rewrite Ht. simpl. unfold str_truthy.
  destruct (String.eqb_spec u "") as [->|_]; [done|]. simpl.
  eexists. split; [reflexivity|]. simpl. split; [|done].
  destruct Hm as [-> | Hm].
  - by rewrite bool_decide_eq_true_2.
  - rewrite (bool_decide_eq_true_2 (u ∈ or_empty (editor_ids t))) by done.
    by rewrite orb_true_r.
Qed.

(** ** api_files.py: where an upload goes *)

Section Uploads.

Variable webp_of_image : string → result string.
Variable storage_upload :
  string → string → list (string * string) → gset string → option exn * gset string.

(** X17.  An upload by the owner or an editor of a tree that allows
    uploads, when the image conversion and the storage call succeed, is
    answered 200 and stores one object, under the folder of the tree and of
    the kind, named by a drawn identifier: with the extension [.webp] for
    an image and the extension of the submitted file name for a document,
    the rest of that name being dropped.  The tables are left as they were.
    The URL in the answer is the prefix of the file route followed by that
    path: the path starts with the tree identifier, as the file route
    requires, and the batch update recovers exactly the path from the URL
    when it looks for the files of a person. *)
Theorem upload_file_stores_under_tree
    (w : world) (tree_id type : string) (req : request) (t : tree) (user : string)
    (files : gmap string file_storage) (file : file_storage)
    (uuid_a uuid_b : string) :
  trees w !! tree_id = Some t →
  session req !! "user_id" = Some user →
  user ≠ "" →
  csrf_token_valid req = true →
  user = owner_id t ∨ user ∈ or_empty (editor_ids t) →
  allow_file_uploads t = true →
  type = "image" ∨ type = "document" →
  files !! type = Some file →
  filename file ≠ "" →
  contains uuid_a "/" = false → contains uuid_b "/" = false →
  (type = "image" → ∃ content, webp_of_image (stream file) = Ok content) →
  (∀ path content options,
     (storage_upload path content options (bucket w)).1 = None) →
  let name :=
    if String.eqb type "image" then uuid_b ++ ".webp"
    else uuid_a ++ (splitext (filename file)).2 in
  let path := tree_id ++ "/" ++ type ++ "s/" ++ name in
  ∃ w' message,
    dispatch (upload_file
                (upload_file_impl webp_of_image storage_upload files uuid_a uuid_b)
                tree_id type) req w
    = (Jsonify [("success", JBool true);
                ("message", JStr message);
                ("filename", JStr (filename file));
                ("url", JStr (api_file_prefix tree_id ++ path))] 200, w')
    ∧ trees w' = trees w ∧ tree_invitations w' = tree_invitations w
    ∧ persons w' = persons w
    ∧ (∃ content options,
         bucket w' = (storage_upload path content options (bucket w)).2)
    ∧ startswith path (tree_id ++ "/") = true
    ∧ ∀ w0, file_of_url (api_file_prefix tree_id)
              (JStr (api_file_prefix tree_id ++ path)) w0
            = (Ok [path], w0).
Proof.
  intros Ht Hs Hu Hc Hm Hallow Htype Hfile Hname Ha Hb Himg Hup name path.
  destruct (resolver_with_edit w tree_id t user Ht Hu Hm) as (p & Hres & Hedit & Htree).
  assert (Hurl : ("/api/tree/" ++ tree_id ++ "/file/" ++ path
                  = api_file_prefix tree_id ++ path)%string).
  { unfold api_file_prefix. by rewrite !string_app_assoc. }
  assert (Hstored : ∃ w' message,
    dispatch (upload_file
                (upload_file_impl webp_of_image storage_upload files uuid_a uuid_b)
                tree_id type) req w
    = (Jsonify [("success", JBool true);
                ("message", JStr message);
                ("filename", JStr (filename file));
                ("url", JStr (api_file_prefix tree_id ++ path))] 200, w')
    ∧ trees w' = trees w ∧ tree_invitations w' = tree_invitations w
    ∧ persons w' = persons w
    ∧ ∃ content options,
        bucket w' = (storage_upload path content options (bucket w)).2).
  { unfold dispatch, upload_file.
    rewrite login_required_logged_in, no_cache_eq, csrf_protect_api_valid
      by (rewrite ?Hs; eauto).
    unfold upload_file_impl, mbind, M_bind.
    rewrite Hs, Hres, Hedit, Htree, Hallow. simpl.
    assert (Hvalid : bool_decide (type ∈ ["image"; "document"]) = true).
    { apply bool_decide_eq_true_2. destruct Htype as [-> | ->]; set_solver. }
    rewrite Hvalid, Hfile. simpl.
    assert (Htruthy : str_truthy (filename file) = true)
      by (unfold str_truthy; apply negb_true_iff; by apply String.eqb_neq).
    rewrite Htruthy. simpl.
    unfold try_except, compress_image, bucket_upload, mbind, M_bind, pure, mret, M_ret.
    destruct Htype as [-> | ->]; simpl.
    - destruct (Himg eq_refl) as [content Hcontent]. rewrite Hcontent.
      match goal with
      | |- context [storage_upload ?pa ?co ?op (bucket w)] =>
          pose proof (Hup pa co op) as Hok;
          destruct (storage_upload pa co op (bucket w)) as [err b'] eqn:Hst
      end.
      simpl in Hok. subst err.
      eexists _, _. split; [by rewrite <- Hurl|]. simpl.
      split; [done|]. split; [done|]. split; [done|].
      eexists _, _. subst path name. simpl. by rewrite Hst.
    - match goal with
      | |- context [storage_upload ?pa ?co ?op (bucket w)] =>
          pose proof (Hup pa co op) as Hok;
          destruct (storage_upload pa co op (bucket w)) as [err b'] eqn:Hst
      end.
      simpl in Hok. subst err.
      eexists _, _. split; [by rewrite <- Hurl|]. simpl.
      split; [done|]. split; [done|]. split; [done|].
      eexists _, _. subst path name. simpl. by rewrite Hst. }
  destruct Hstored as (w' & message & Hrun & Htrees & Hinv & Hpersons & Hbucket).
  exists w', message. do 5 (split; [done|]).
  assert (Hfree_name : count_char "/" name = O).
  { subst name. destruct (String.eqb type "image").
    - rewrite count_char_app, (contains_char_count "/" uuid_b) by done. done.
    - rewrite count_char_app, (contains_char_count "/" uuid_a) by done.
      by rewrite splitext_no_slash. }
  split.
  - unfold startswith. subst path.
    rewrite <- (string_app_assoc tree_id "/"). apply prefix_app.
  - intros w0. apply file_of_url_round_trip.
    assert (Hpath : path = (tree_id ++ "/" ++ (type ++ "s") ++ "/" ++ name)%string).
    { subst path. destruct Htype as [-> | ->]; reflexivity. }
    rewrite Hpath. apply stored_path_free; [|done].
    destruct Htype as [-> | ->]; reflexivity.
Qed.

(** X18.  Uploads are refused with 403 on a tree whose uploads are
    switched off, for the owner as for an editor, and with 400 for a kind
    other than "image" and "document"; nothing is stored. *)
Theorem upload_file_refusals
    (w : world) (tree_id type : string) (req : request) (t : tree) (user : string)
    (files : gmap string file_storage) (uuid_a uuid_b : string) :
  trees w !! tree_id = Some t →
  session req !! "user_id" = Some user →
  user ≠ "" →
  csrf_token_valid req = true →
  user = owner_id t ∨ user ∈ or_empty (editor_ids t) →
  let upload :=
    upload_file (upload_file_impl webp_of_image storage_upload files uuid_a uuid_b)
      tree_id type in
  (allow_file_uploads t = false →
   dispatch upload req w
   = (json_error "File uploads are disabled for this tree" 403, w))
  ∧ (allow_file_uploads t = true → type ≠ "image" → type ≠ "document" →
     dispatch upload req w = (json_error "Invalid upload type" 400, w)).
Proof.
  intros Ht Hs Hu Hc Hm upload. subst upload.
  destruct (resolver_with_edit w tree_id t user Ht Hu Hm) as (p & Hres & Hedit & Htree).
  split.
  - intros Hallow. unfold dispatch, upload_file.
    rewrite login_required_logged_in, no_cache_eq, csrf_protect_api_valid
      by (rewrite ?Hs; eauto).
    unfold upload_file_impl, mbind, M_bind.
    by rewrite Hs, Hres, Hedit, Htree, Hallow.
  - intros Hallow Hi Hd. unfold dispatch, upload_file.
    rewrite login_required_logged_in, no_cache_eq, csrf_protect_api_valid
      by (rewrite ?Hs; eauto).
    unfold upload_file_impl, mbind, M_bind.
    rewrite Hs, Hres, Hedit, Htree, Hallow. simpl.
    rewrite bool_decide_eq_false_2; [done|].
    intros Hin. apply elem_of_cons in Hin as [?|Hin]; [done|].
    apply elem_of_cons in Hin as [?|Hin]; [done|]. by apply elem_of_nil in Hin.
Qed.

End Uploads.

(** ** api_trees.py: deleting and reading a tree *)

Lemma get_family_tree_info_absent (tree_id : string) (req : request) (w : world) :
  trees w !! tree_id = None →
  csrf_token_valid req = true →
  dispatch (get_family_tree_info tree_id) req w
  = (Jsonify [("exist", JBool false); ("success", JBool false);
              ("error", JStr "Tree not found")] 404, w).
Proof.
  intros Ht Hc. unfold dispatch, get_family_tree_info.
  rewrite no_cache_eq, csrf_protect_api_valid by done.
  unfold get_family_tree_info_body, get_tree_and_user_permissions, try_except,
    select_tree_single, mbind, M_bind.
  by rewrite Ht.
Qed.

Section Deletion.

Variable storage_list : string → gset string → result (list string).
Variable storage_remove : list string → gset string → option exn * gset string.

(** X19.  When the owner deletes a tree and the storage calls succeed, the
    answer is 200; the row of the tree and every person of the tree are
    gone, the other trees and their persons are as before, in the same
    order, and the invitation rows are not touched.  From then on the tree
    is absent for everybody: the info route answers 404, and a link to the
    tree grants nothing to a user who is not yet in its usage record. *)
Theorem delete_tree_removes
    (w : world) (tree_id : string) (req : request) (t : tree) (names : list string) :
  trees w !! tree_id = Some t →
  session req !! "user_id" = Some (owner_id t) →
  csrf_token_valid req = true →
  storage_list tree_id (bucket w) = Ok names →
  (names ≠ [] →
   (storage_remove (map (λ name, tree_id ++ "/" ++ name) names) (bucket w)).1 = None) →
  ∃ w', dispatch (delete_tree (delete_tree_impl storage_list storage_remove) tree_id)
          req w
        = (Jsonify [("success", JBool true);
                    ("message", JStr "Tree successfully deleted.")] 200, w')
      ∧ trees w' !! tree_id = None
      ∧ (∀ id, id ≠ tree_id → trees w' !! id = trees w !! id)
      ∧ persons w' = filter (λ r, person_tree_id r ≠ tree_id) (persons w)
      ∧ tree_invitations w' = tree_invitations w
      ∧ (∀ user_id, access tree_id user_id w' = None)
      ∧ (∀ req', csrf_token_valid req' = true →
           dispatch (get_family_tree_info tree_id) req' w'
           = (Jsonify [("exist", JBool false); ("success", JBool false);
                       ("error", JStr "Tree not found")] 404, w'))
      ∧ (∀ token inv user now,
           tree_invitations w !! token = Some inv →
           inv_tree_id inv = tree_id →
           user ∉ or_empty (used_by_users inv) →
           process_invitation token user (set_clock now w')
           = (Ok None, set_clock now w')).
Proof.
  intros Ht Hs Hc Hlist Hremove.
  unfold delete_tree. rewrite guarded_route by (rewrite ?Hs; eauto).
  unfold dispatch, delete_tree_impl. rewrite Hs.
  unfold mbind, M_bind. rewrite fetch_owned_tree_owner by done.
  unfold try_except, modify, bucket_list, bucket_remove, mbind, M_bind,
    pure, mret, M_ret.
  cbn [bucket set_persons]. rewrite Hlist.
  assert (Hgoal : ∀ w',
    trees w' = delete tree_id (trees w) →
    persons w' = filter (λ r, person_tree_id r ≠ tree_id) (persons w) →
    tree_invitations w' = tree_invitations w →
    trees w' !! tree_id = None
    ∧ (∀ id, id ≠ tree_id → trees w' !! id = trees w !! id)
    ∧ persons w' = filter (λ r, person_tree_id r ≠ tree_id) (persons w)
    ∧ tree_invitations w' = tree_invitations w
    ∧ (∀ user_id, access tree_id user_id w' = None)
    ∧ (∀ req', csrf_token_valid req' = true →
         dispatch (get_family_tree_info tree_id) req' w'
         = (Jsonify [("exist", JBool false); ("success", JBool false);
                     ("error", JStr "Tree not found")] 404, w'))
    ∧ (∀ token inv user now,
         tree_invitations w !! token = Some inv →
         inv_tree_id inv = tree_id →
         user ∉ or_empty (used_by_users inv) →
         process_invitation token user (set_clock now w')
         = (Ok None, set_clock now w'))).
  { intros w' Htrees Hpersons Hinvs.
    assert (Hgone : trees w' !! tree_id = None)
      by (by rewrite Htrees, lookup_delete_eq).
    split; [done|]. split.
    { intros id Hid. by rewrite Htrees, lookup_delete_ne. }
    split; [done|]. split; [done|]. split.
    { intros user_id. by apply access_absent. }
    split.
    { intros req' Hc'. by apply get_family_tree_info_absent. }
    intros token inv user now Hinv Htid Hused.
    rewrite process_invitation_eq. cbn [set_clock tree_invitations trees clock].
    rewrite Hinvs, Hinv.
    destruct (bool_decide (expires_at inv < now)); [done|].
    destruct (invitation_full inv); [done|].
    rewrite bool_decide_eq_false_2 by done.
    by rewrite Htid, Hgone. }
  destruct names as [|name names].
  - eexists. split; [reflexivity|]. by apply Hgoal.
  - specialize (Hremove ltac:(done)).
    destruct (storage_remove _ (bucket w)) as [err b'] eqn:Hst.
    simpl in Hremove. subst err.
    cbn [map] in Hst |- *. cbn [bucket set_persons]. rewrite Hst.
    eexists. split; [reflexivity|]. by apply Hgoal.
Qed.

(** X20.  When the storage fails in the middle of a deletion by the owner,
    at the listing of the files or at their removal, the answer is 500 and
    the deletion is partial: the persons of the tree are already gone,
    while the row of the tree, and so the rights of everybody on it, is
    still there. *)
Theorem delete_tree_partial
    (w : world) (tree_id : string) (req : request) (t : tree) (e : exn) :
  trees w !! tree_id = Some t →
  session req !! "user_id" = Some (owner_id t) →
  csrf_token_valid req = true →
  storage_list tree_id (bucket w) = Raise e
  ∨ (∃ names, storage_list tree_id (bucket w) = Ok names ∧ names ≠ []
       ∧ (storage_remove (map (λ name, tree_id ++ "/" ++ name) names) (bucket w)).1
         = Some e) →
  ∃ w', dispatch (delete_tree (delete_tree_impl storage_list storage_remove) tree_id)
          req w
        = (json_error
             ("An error occurred while deleting the tree: " ++ str_of_exn e) 500, w')
      ∧ trees w' = trees w
      ∧ persons w' = filter (λ r, person_tree_id r ≠ tree_id) (persons w)
      ∧ (∀ user_id, access tree_id user_id w' = access tree_id user_id w).
Proof.
  intros Ht Hs Hc Hfail.
  unfold delete_tree. rewrite guarded_route by (rewrite ?Hs; eauto).
  unfold dispatch, delete_tree_impl. rewrite Hs.
  unfold mbind, M_bind. rewrite fetch_owned_tree_owner by done.
  unfold try_except, modify, bucket_list, bucket_remove, mbind, M_bind,
    pure, mret, M_ret.
  cbn [bucket set_persons].
  destruct Hfail as [Hlist | (names & Hlist & Hne & Hremove)]; rewrite Hlist.
  - eexists. split; [reflexivity|]. split; [done|]. split; [done|].
    intros user_id. by apply access_row.
  - destruct names as [|name names]; [done|].
    destruct (storage_remove _ (bucket w)) as [err b'] eqn:Hst.
    simpl in Hremove. subst err.
    cbn [map] in Hst |- *. cbn [bucket set_persons]. rewrite Hst.
    eexists. split; [reflexivity|]. split; [done|]. split; [done|].
    intros user_id. by apply access_row.
Qed.

End Deletion.

(** ** Reading a tree *)

Lemma resolver_of_access
    (w : world) (tree_id : string) (user_id : option string) (t : tree)
    (e v : bool) :
  trees w !! tree_id = Some t →
  access tree_id user_id w = Some (e, v) →
  get_tree_and_user_permissions tree_id user_id w
  = (Ok (Some (Permissions e v t)), w).
Proof.
  intros Ht. unfold access, get_tree_and_user_permissions, try_except,
    select_tree_single, mbind, M_bind.
  rewrite Ht. destruct user_id as [u|]; simpl; [destruct (str_truthy u)|]; simpl.
  all: by intros [= <- <-].
Qed.

Lemma access_stranger
    (w : world) (tree_id : string) (user_id : option string) (t : tree) :
  trees w !! tree_id = Some t →
  (∀ u, user_id = Some u →
     u ≠ owner_id t ∧ (u ∉ or_empty (editor_ids t)) ∧ (u ∉ or_empty (viewer_ids t))) →
  access tree_id user_id w = Some (false, is_public t).
Proof.
  intros Ht Hno. destruct user_id as [u|]; [|by apply access_anonymous].
  destruct (decide (u = "")) as [->|Hu].
  - unfold access, get_tree_and_user_permissions, try_except, select_tree_single,
      mbind, M_bind.
    by rewrite Ht.
  - rewrite (access_user w tree_id t u) by done.
    destruct (Hno u eq_refl) as (Ho & He & Hv).
    rewrite (bool_decide_eq_false_2 (owner_id t = u)) by done.
    rewrite (bool_decide_eq_false_2 (u ∈ or_empty (editor_ids t))) by done.
    rewrite (bool_decide_eq_false_2 (u ∈ or_empty (viewer_ids t))) by done.
    by rewrite !orb_false_r.
Qed.

Lemma csrf_protect_api_cases (f : view) (req : request) (w : world) :
  csrf_protect_api f req w
  = (Ok (json_error "CSRF token missing or incorrect" 403), w)
  ∨ csrf_protect_api f req w = f req w.
Proof.
  unfold csrf_protect_api, csrf_protect, try_except, mbind, M_bind, pure, raise,
    mret, M_ret.
  repeat case_match; simplify_eq; eauto.
Qed.

Section Reading.

Variable create_signed_url : string → Z → world → result string.

(** X21.  A private tree is closed to strangers: a request without a
    session, or from a user who is neither the owner nor an editor nor a
    viewer, is answered 403 by the info route, by the data route and by the
    file route, whatever else the request carries and whatever the tree
    holds, and nothing is written. *)
Theorem private_tree_is_closed
    (w : world) (tree_id file_path : string) (req : request) (t : tree) (v : view) :
  trees w !! tree_id = Some t →
  is_public t = false →
  (∀ u, session req !! "user_id" = Some u →
     u ≠ owner_id t ∧ (u ∉ or_empty (editor_ids t)) ∧ (u ∉ or_empty (viewer_ids t))) →
  v ∈ [get_family_tree_info tree_id;
       get_family_tree_data tree_id;
       serve_protected_file create_signed_url tree_id file_path] →
  ∃ message, dispatch v req w = (json_error message 403, w).
Proof.
  intros Ht Hpriv Hno Hv.
  pose proof (access_stranger w tree_id _ t Ht Hno) as Hacc. rewrite Hpriv in Hacc.
  pose proof (resolver_of_access w tree_id _ t _ _ Ht Hacc) as Hres.
  repeat (apply elem_of_cons in Hv as [-> | Hv]); [..|by apply elem_of_nil in Hv].
  - unfold dispatch, get_family_tree_info. rewrite no_cache_eq.
    destruct (csrf_protect_api_cases (get_family_tree_info_body tree_id) req w)
      as [-> | ->]; [eauto|].
    unfold get_family_tree_info_body, mbind, M_bind. rewrite Hres. simpl. eauto.
  - unfold dispatch, get_family_tree_data. rewrite no_cache_eq.
    destruct (csrf_protect_api_cases (get_family_tree_data_body tree_id) req w)
      as [-> | ->]; [eauto|].
    unfold get_family_tree_data_body, mbind, M_bind. rewrite Hres. simpl. eauto.
  - unfold dispatch, serve_protected_file. rewrite no_cache_eq.
    unfold mbind, M_bind. rewrite Hres. simpl. eauto.
Qed.

End Reading.

(** X22.  To a request with a valid token from somebody who can view the
    tree (anybody, when the tree is public), the data route gives the data
    of the persons of that tree and of no other, in the order of the
    table, and writes nothing. *)
Theorem get_family_tree_data_answer
    (w : world) (tree_id : string) (req : request) (t : tree) (e : bool) :
  trees w !! tree_id = Some t →
  csrf_token_valid req = true →
  access tree_id (session req !! "user_id") w = Some (e, true) →
  dispatch (get_family_tree_data tree_id) req w
  = (Jsonify [("data", JList (map person_data
                                (filter (λ r, person_tree_id r = tree_id) (persons w))));
              ("success", JBool true)] 200, w).
Proof.
  intros Ht Hc Hacc.
  unfold dispatch, get_family_tree_data.
  rewrite no_cache_eq, csrf_protect_api_valid by done.
  unfold get_family_tree_data_body, mbind, M_bind.
  by rewrite (resolver_of_access w tree_id _ t e true Ht Hacc).
Qed.

(** X23.  To a request with a valid token from somebody who can view the
    tree, the info route tells whether the requester can edit it and
    whether uploads are offered: they are when the tree allows uploads,
    except that on a demo tree they are offered only to those who can
    edit.  Nothing is written. *)
Theorem get_family_tree_info_answer
    (w : world) (tree_id : string) (req : request) (t : tree) (e : bool) :
  trees w !! tree_id = Some t →
  csrf_token_valid req = true →
  access tree_id (session req !! "user_id") w = Some (e, true) →
  dispatch (get_family_tree_info tree_id) req w
  = (Jsonify [("exist", JBool true);
              ("success", JBool true);
              ("editable", JBool e);
              ("file", JBool (if is_demo t then allow_file_uploads t && e
                              else allow_file_uploads t));
              ("demo", JBool (is_demo t));
              ("error", JStr "")] 200, w).
Proof.
  intros Ht Hc Hacc.
  unfold dispatch, get_family_tree_info.
  rewrite no_cache_eq, csrf_protect_api_valid by done.
  unfold get_family_tree_info_body, mbind, M_bind.
  rewrite (resolver_of_access w tree_id _ t e true Ht Hacc). simpl.
  by destruct (is_demo t), (allow_file_uploads t), e.
Qed.

(** X24.  The read routes check the CSRF token as well: a GET request
    whose token does not validate is answered 403 by the info route and by
    the data route, for a public tree and for the owner alike, and by the
    new-identifier route for a logged-in user; nothing is read or
    written. *)
Theorem read_routes_need_token
    (w : world) (tree_id : string) (req : request) :
  req_method req = "GET" →
  csrf_token_valid req = false →
  dispatch (get_family_tree_info tree_id) req w
  = (json_error "CSRF token missing or incorrect" 403, w)
  ∧ dispatch (get_family_tree_data tree_id) req w
    = (json_error "CSRF token missing or incorrect" 403, w)
  ∧ (is_Some (session req !! "user_id") →
     dispatch (get_new_id tree_id) req w
     = (json_error "CSRF token missing or incorrect" 403, w)).
Proof.
  intros Hm Hc.
  assert (Hin : req_method req ∈ WTF_CSRF_METHODS app_config).
  { rewrite Hm. unfold app_config. simpl. set_solver. }
  unfold dispatch, get_family_tree_info, get_family_tree_data, get_new_id.
  split; [|split].
  - by rewrite no_cache_eq, csrf_protect_api_invalid.
  - by rewrite no_cache_eq, csrf_protect_api_invalid.
  - intros Hs. by rewrite login_required_logged_in, no_cache_eq, csrf_protect_api_invalid.
Qed.

(** ** fromdist.py: URLs and file names of the built front end *)

Lemma transform_url_static (filename_map : gmap string string) (url : string) :
  startswith url "/static/" = true → transform_url filename_map url = url.
Proof.
  intros Hs. unfold transform_url. rewrite Hs.
  unfold startswith in *. apply prefix_split in Hs as [r ->].
  change ("/static/" ++ r)%string with (String "/" (String "s" ("tatic/" ++ r))).
  rewrite !prefix_cons.
  repeat match goal with
         | |- context [ascii_dec ?a ?b] =>
             destruct (ascii_dec a b); try discriminate
         end; done.
Qed.

(** X25.  [transform_url] sends every URL that is not absolute (one that
    does not begin with [//], [http://] or [https://]) to a URL under
    [/static/], leaves absolute URLs and URLs already under [/static/] as
    they are, and is therefore idempotent: rewriting a rewritten template
    changes nothing. *)
Theorem transform_url_idempotent (filename_map : gmap string string) (url : string) :
  transform_url filename_map (transform_url filename_map url)
  = transform_url filename_map url
  ∧ (if startswith url "//" || startswith url "http://" || startswith url "https://"
     then transform_url filename_map url = url
     else startswith (transform_url filename_map url) "/static/" = true).
Proof.
  assert (Hcases :
    (startswith url "//" || startswith url "http://" || startswith url "https://" = true
     ∧ transform_url filename_map url = url)
    ∨ (startswith url "//" || startswith url "http://" || startswith url "https://"
       = false
       ∧ startswith (transform_url filename_map url) "/static/" = true)).
  { unfold transform_url.
    destruct (startswith url "//" || startswith url "http://"
              || startswith url "https://"); [by left|right].
    split; [done|].
    destruct (startswith url "/static/") eqn:Hst; [done|].
    destruct (startswith url "/snippets/"); [apply (prefix_app "/static/")|].
    repeat case_match; apply (prefix_app "/static/"). }
  destruct Hcases as [[Hext Hsame] | [Hext Hstatic]]; rewrite Hext.
  - split; [|done]. by rewrite !Hsame.
  - split; [|done]. by apply transform_url_static.
Qed.

Lemma contains_middle (a sub b : string) : contains (a ++ sub ++ b) sub = true.
Proof.
  induction a as [|c a IH].
  - change ("" ++ sub ++ b)%string with (sub ++ b)%string.
    destruct (sub ++ b)%string eqn:E; cbn [contains]; rewrite <- E, prefix_app; done.
  - change (String c a ++ sub ++ b)%string with (String c (a ++ sub ++ b)).
    cbn [contains]. rewrite IH. by rewrite orb_true_r.
Qed.

Lemma split_last_absent (sep : ascii) (s : string) :
  count_char sep s = O → split_last sep s = None.
Proof.
  induction s as [|c s IH]; [done|].
  cbn [count_char split_last]. destruct (Ascii.eqb c sep); [done|].
  intros H. by rewrite IH.
Qed.

Lemma split_last_app (sep : ascii) (a b : string) :
  count_char sep b = O → split_last sep (a ++ String sep b) = Some (a, b).
Proof.
  intros Hb. induction a as [|c a IH].
  - change ("" ++ String sep b)%string with (String sep b).
    cbn [split_last]. rewrite split_last_absent by done.
    by rewrite Ascii.eqb_refl.
  - change (String c a ++ String sep b)%string with (String c (a ++ String sep b)).
    cbn [split_last]. by rewrite IH.
Qed.

Lemma split_first_app (sep : ascii) (a b : string) :
  count_char sep a = O → split_first sep (a ++ String sep b) = Some (a, b).
Proof.
  induction a as [|c a IH].
  - intros _. change ("" ++ String sep b)%string with (String sep b).
    cbn [split_first]. by rewrite Ascii.eqb_refl.
  - change (String c a ++ String sep b)%string with (String c (a ++ String sep b)).
    cbn [count_char split_first]. destruct (Ascii.eqb c sep); [done|].
    intros H. by rewrite IH.
Qed.

Lemma all_dots_app (a b : string) (c : ascii) :
  c ≠ "."%char → all_dots (a ++ String c b) = false.
Proof.
  intros Hc. induction a as [|x a IH].
  - change ("" ++ String c b)%string with (String c b). cbn [all_dots].
    by rewrite (proj2 (Ascii.eqb_neq c ".")).
  - change (String x a ++ String c b)%string with (String x (a ++ String c b)).
    cbn [all_dots]. rewrite IH. by rewrite andb_false_r.
Qed.

(** X26.  [clean_filename] takes the hash out of a built file name: for a
    name [stem-hash.ext] without directory part, where [stem] holds no
    hyphen and [ext] no dot, it gives [stem.ext], whatever the hash (dots
    and further hyphens included). *)
Theorem clean_filename_drops_hash (stem hash ext : string) :
  count_char "-" stem = O →
  count_char "." ext = O →
  count_char "/" (stem ++ "-" ++ hash ++ "." ++ ext) = O →
  clean_filename (stem ++ "-" ++ hash ++ "." ++ ext) = (stem ++ "." ++ ext)%string.
Proof.
  intros Hstem Hext Hslash. unfold clean_filename.
  rewrite (contains_middle stem "-" (hash ++ "." ++ ext)). simpl negb. cbv iota.
  unfold splitext. rewrite (split_last_absent "/") by done.
  assert (Hname : (stem ++ "-" ++ hash ++ "." ++ ext
                   = (stem ++ "-" ++ hash) ++ String "." ext)%string).
  { rewrite !string_app_assoc. reflexivity. }
  rewrite Hname at 1. rewrite split_last_app by done.
  change (stem ++ "-" ++ hash)%string with (stem ++ String "-" hash)%string.
  rewrite all_dots_app by done.
  unfold before_first. change ("" ++ stem ++ String "-" hash)%string
    with (stem ++ String "-" hash)%string.
  by rewrite split_first_app.
Qed.

(** ** api_data.py: the files a batch update removes *)

Section BatchFiles.

Variable nh3_clean : string → string.
Variable pg_int : json → option Z.
Variable batch_update_persons_atomic :
  string → json → json → json → list person_row → result (list person_row).
Variable storage_remove : list string → gset string → option exn * gset string.

(** X27.  When a permitted batch update deletes one person whose photo is
    a URL of the file route of the tree, the stored procedure runs and the
    storage is then asked to remove exactly one path: what follows the
    prefix of the file route in that URL.  This holds for every such path;
    the handler does not look at the folder the path names. *)
Theorem batch_delete_removes_photo_file
    (w : world) (tree_id : string) (req : request) (payload : list (string * json))
    (i : Z) (row : person_row) (d : list (string * json)) (path : string)
    (rows' : list person_row) (bucket' : gset string) :
  may_edit tree_id w req →
  get_json req = JDict payload →
  assoc "add" payload = None →
  assoc "modify" payload = None →
  assoc "delete" payload = Some (JList [JNum i]) →
  pg_int (JNum i) = Some i →
  filter (λ r, person_tree_id r = tree_id ∧ person_id r ∈ [i]) (persons w) = [row] →
  person_data row = JDict d →
  assoc "photo" d = Some (JStr (api_file_prefix tree_id ++ path)) →
  assoc "documents" d = None →
  contains path (api_file_prefix tree_id) = false →
  batch_update_persons_atomic tree_id (JList []) (JList []) (JList [JNum i]) (persons w)
  = Ok rows' →
  storage_remove [path] (bucket w) = (None, bucket') →
  dispatch (batch_update_persons nh3_clean pg_int batch_update_persons_atomic
              storage_remove tree_id) req w
  = (Jsonify [("success", JBool true);
              ("message", JStr "Batch update successful.")] 200,
     set_bucket (λ _, bucket') (set_persons (λ _, rows') w)).
Proof.
  intros (Hs & Hv & p & Hres & Hedit) Hj Hadd Hmod Hdel Hpg Hrow Hdata Hphoto Hdocs
    Hfree Hrpc Hrm.
  unfold dispatch, batch_update_persons.
  rewrite login_required_logged_in, no_cache_eq, csrf_protect_api_valid by done.
  unfold batch_update_persons_body, batch_prelude, mbind, M_bind.
  rewrite get_tree_and_user_permissions_eq, Hres, Hedit, Hj. simpl.
  unfold py_get_default, pure, mret, M_ret. rewrite Hadd, Hmod, Hdel. simpl.
  unfold batch_commit, collect_files_to_delete, try_except, mbind, M_bind. simpl.
  unfold select_persons_in. simpl. rewrite Hpg. simpl.
  unfold gets, mbind, M_bind. rewrite Hrow. simpl.
  unfold files_of_deleted, mbind, M_bind. rewrite Hdata.
  unfold py_get, py_get_default, py_contains, pure, mret, M_ret.
  rewrite Hphoto, Hdocs. simpl.
  rewrite file_of_url_round_trip by done.
  cbn [app].
  unfold apply_batch, rpc_batch_update_persons_atomic, bucket_remove, mbind, M_bind.
  rewrite Hrpc.
  assert (Hel : elements (list_to_set [path] : gset string) = [path]).
  { cbn [list_to_set foldr]. rewrite union_empty_r_L. apply elements_singleton. }
  rewrite Hel. cbn [bucket set_persons]. rewrite Hrm. reflexivity.
Qed.

End BatchFiles.

(** * The properties on the example data *)

(** The resolver on the Smith tree: an editor, an anonymous visitor, and a
    tree that does not exist. *)
Lemma get_tree_and_user_permissions_spec_witness :
  (∃ p, get_tree_and_user_permissions "t1" (Some "ed") smith_world
          = (Ok (Some p), smith_world)
        ∧ perm_tree p = smith_tree ∧ can_edit p = true ∧ can_view p = true)
  ∧ (∃ p, get_tree_and_user_permissions "t1" None smith_world
            = (Ok (Some p), smith_world)
          ∧ can_edit p = false ∧ can_view p = false)
  ∧ get_tree_and_user_permissions "t9" (Some "ed") smith_world = (Ok None, smith_world).
Proof.
  split; [|split].
  - pose proof (get_tree_and_user_permissions_spec smith_world "t1" (Some "ed")) as H.
    change (trees smith_world !! "t1") with (Some smith_tree) in H.
    destruct H as (p & Heq & Ht & Hu & _).
    destruct (Hu ltac:(discriminate)) as [He Hv].
    exists p. repeat split; assumption.
  - pose proof (get_tree_and_user_permissions_spec smith_world "t1" None) as H.
    change (trees smith_world !! "t1") with (Some smith_tree) in H.
    destruct H as (p & Heq & Ht & He & Hv).
    exists p. repeat split; assumption.
  - exact (get_tree_and_user_permissions_spec smith_world "t9" (Some "ed")).
Defined.

(** A share request without session and one with a forged token. *)
Lemma mutating_endpoints_guarded_witness :
  let share := share_tree "t1" in
  dispatch share anonymous_share_request smith_world
    = (json_error "Authentication required" 401, smith_world)
  ∧ dispatch share forged_share_request smith_world
    = (json_error "CSRF token missing or incorrect" 403, smith_world).
Proof.
  split.
  - refine (proj1 (mutating_endpoints_guarded id demo_pg_int demo_batch_rpc
      working_storage_remove demo_uuid demo_view (λ _, demo_view) (λ _ _, demo_view)
      "t1" "image" "tok" "share_tree" ["POST"] (share_tree "t1")
      anonymous_share_request smith_world _ _ _) _).
    + unfold mutating_endpoints. do 4 apply list_elem_of_further.
      apply list_elem_of_here.
    + apply list_elem_of_here.
    + reflexivity.
    + reflexivity.
  - refine (proj2 (mutating_endpoints_guarded id demo_pg_int demo_batch_rpc
      working_storage_remove demo_uuid demo_view (λ _, demo_view) (λ _ _, demo_view)
      "t1" "image" "tok" "share_tree" ["POST"] (share_tree "t1")
      forged_share_request smith_world _ _ _) _ _).
    + unfold mutating_endpoints. do 4 apply list_elem_of_further.
      apply list_elem_of_here.
    + apply list_elem_of_here.
    + reflexivity.
    + exists "owner". reflexivity.
    + reflexivity.
Defined.



(** Bob follows again a link without limit that he has already used. *)
Lemma repeat_join_spec_witness :
  process_invitation "tok" "bob" rejoin_world = (Ok (Some "t1"), rejoin_world).
Proof.
  refine (repeat_join_spec rejoin_world "tok" "bob"
            (Invitation "t1" "viewer" 1000 (Some ["bob"]) None) _ _).
  - reflexivity.
  - apply list_elem_of_here.
Defined.

(** C4, as stated, fails on the single-use invitation of the Smith tree:
    bob's first consumption returns the tree and records him; his repeat
    consumption returns [None]. *)
Lemma repeat_join_exhausted :
  ∃ w1, process_invitation "tok" "bob" smith_world = (Ok (Some "t1"), w1)
    ∧ (∃ inv, tree_invitations w1 !! "tok" = Some inv
              ∧ "bob" ∈ or_empty (used_by_users inv))
    ∧ process_invitation "tok" "bob" w1 = (Ok None, w1).
Proof.
  eexists. split; [vm_compute; reflexivity|]. split.
  - eexists. split; [vm_compute; reflexivity|]. apply list_elem_of_here.
  - vm_compute. reflexivity.
Qed.

(** The owner adds a person whose photo is a script URL. *)
Lemma dangerous_url_rejected_witness :
  ∃ msg,
    dispatch (batch_update_persons id demo_pg_int demo_batch_rpc
                working_storage_remove "t1") script_photo_request smith_world
    = (json_error msg 400, smith_world).
Proof.
  refine (proj2 (dangerous_url_rejected id demo_pg_int demo_batch_rpc
            working_storage_remove "t1" script_photo_request smith_world
            [("add", JList [JDict [("id", JNum 5);
                                   ("photo", JStr "  JavaScript:alert(1)")]])]
            [JDict [("id", JNum 5); ("photo", JStr "  JavaScript:alert(1)")]] []
            _ _ _ _) _ _).
  - reflexivity.
  - reflexivity.
  - reflexivity.
  - apply Exists_cons_hd. eexists. split; [reflexivity|]. left.
    eexists. split; [reflexivity|]. left. reflexivity.
  - split; [exists "owner"; reflexivity|]. split; [reflexivity|].
    exists (Permissions true true smith_tree). split; reflexivity.
  - repeat constructor. eexists. reflexivity.
Defined.

Lemma smith_world_roles_wf : every_tree roles_wf smith_world.
Proof.
  intros id t Ht. unfold smith_world, trees in Ht.
  apply lookup_singleton_Some in Ht as [_ <-].
  unfold roles_wf, roles_disjoint. simpl.
  split; [apply NoDup_singleton|]. split; [apply NoDup_singleton|].
  set_solver.
Defined.

(** The sharing operations on the Smith tree. *)
Lemma sharing_preserves_roles_witness :
  every_tree roles_wf smith_world
  ∧ (∀ tree_id req,
       every_tree roles_wf (dispatch (share_tree tree_id) req smith_world).2)
  ∧ (∀ tree_id req,
       every_tree roles_wf (dispatch (revoke_tree_access tree_id) req smith_world).2)
  ∧ (∀ tree_id req,
       every_tree roles_wf
         (dispatch (change_tree_permission tree_id) req smith_world).2)
  ∧ (∀ token user,
       every_tree roles_wf (process_invitation token user smith_world).2).
Proof.
  split; [exact smith_world_roles_wf|].
  exact (proj2 (sharing_preserves_roles smith_world) smith_world_roles_wf).
Defined.

(** A viewer of the Smith tree asks for a stored photo. *)
Lemma serve_protected_file_spec_witness :
  dispatch (serve_protected_file demo_signed_url "t1" "t1/images/a.webp")
    viewer_file_request smith_world
  = (Redirect (Url "https://storage.example/t1/images/a.webp") 302, smith_world).
Proof.
  destruct (serve_protected_file_spec demo_signed_url "t1" "t1/images/a.webp"
              viewer_file_request smith_world)
    as (resp & Heq & _ & _ & _ & _ & Hok & _).
  specialize (Hok (Permissions false true smith_tree) eq_refl eq_refl eq_refl).
  change (demo_signed_url "t1/images/a.webp" SIGNED_URL_EXPIRATION_SECONDS smith_world)
    with (@Ok string "https://storage.example/t1/images/a.webp") in Hok.
  rewrite Heq, Hok. reflexivity.
Defined.

(** The owner deletes the only person of the Smith tree while the storage
    service is down. *)
Lemma batch_commit_outcomes_witness :
  let outcome :=
    dispatch (batch_update_persons id demo_pg_int demo_batch_rpc
                failing_storage_remove "t1") delete_person_request smith_world in
  status_of outcome.1 = 500 ∧ persons outcome.2 = [].
Proof.
  pose proof (batch_commit_outcomes id demo_pg_int demo_batch_rpc
    failing_storage_remove "t1" delete_person_request smith_world
    (JList []) (JList []) (JList [JNum 1]) ["t1/images/a.webp"]
    (ex_intro _ "owner" eq_refl) eq_refl eq_refl eq_refl) as H.
  cbv zeta in H.
  change (demo_batch_rpc "t1" (JList []) (JList []) (JList [JNum 1])
            (persons smith_world)) with (@Ok (list person_row) []) in H.
  destruct H as (Hpersons & _ & Hremove).
  cbv zeta. split; [|exact Hpersons].
  assert (Hne : elements (list_to_set ["t1/images/a.webp"] : gset string) ≠ []).
  { vm_compute. discriminate. }
  specialize (Hremove Hne).
  match type of Hremove with
  | match ?call with _ => _ end =>
      change call with (Some (Exn "storage unavailable"), bucket smith_world)
        in Hremove
  end.
  rewrite Hremove. reflexivity.
Defined.

(** C8, as stated, fails when the storage service raises: the persons table
    has been rewritten and the handler answers 500, not the success
    message. *)
Lemma storage_failure_is_reported :
  let outcome :=
    dispatch (batch_update_persons id demo_pg_int demo_batch_rpc
                failing_storage_remove "t1") delete_person_request smith_world in
  outcome.1 = json_error "Error during batch processing: storage unavailable" 500
  ∧ persons smith_world ≠ []
  ∧ persons outcome.2 = [].
Proof. vm_compute. split; [reflexivity|]. split; [discriminate|reflexivity]. Qed.

Lemma owner_may_edit (w : world) (path : string) :
  trees w = trees smith_world →
  may_edit "t1" w (api_request "GET" path "owner" JNull).
Proof.
  intros Ht. apply (may_edit_trees "t1" smith_world); [done|].
  split; [exists "owner"; reflexivity|]. split; [reflexivity|].
  exists (Permissions true true smith_tree). split; reflexivity.
Defined.

(** The owner asks for identifiers when the process has cached 7. *)
Lemma get_new_id_cached_witness :
  (dispatch (get_new_id "t1") new_id_request cached_world).1
    = Jsonify [("id", JNum 8); ("success", JBool true)] 200
  ∧ (serve_all (get_new_id "t1") [new_id_request; new_id_request; new_id_request]
       cached_world).1
    = [Jsonify [("id", JNum 8); ("success", JBool true)] 200;
       Jsonify [("id", JNum 9); ("success", JBool true)] 200;
       Jsonify [("id", JNum 10); ("success", JBool true)] 200].
Proof.
  destruct (get_new_id_cached "t1" cached_world 7 eq_refl) as [Hstep Hseq].
  pose proof (owner_may_edit cached_world "/api/tree/t1/id/new" eq_refl) as Hreq.
  split.
  - exact (f_equal fst (Hstep ltac:(discriminate) new_id_request [] Hreq)).
  - refine (Hseq eq_refl [new_id_request; new_id_request; new_id_request] _).
    repeat (constructor; [exact Hreq|]). constructor.
Defined.

(** C9.  The cache misses the identifier 0.  On a tree whose only person
    has the identifier -1, the first permitted call returns 0 and stores
    it; [if new_ids_dict.get(tree_id)] takes the stored 0 for an absent
    entry, so the next call reads the persons table again and returns 0
    again where the claim has 1, and it follows whatever the table holds by
    then. *)
Lemma get_new_id_zero_not_cached :
  ∃ w1,
    dispatch (get_new_id "t1") new_id_request minus_one_world
    = (Jsonify [("id", JNum 0); ("success", JBool true)] 200, w1)
    ∧ new_ids_dict w1 !! "t1" = Some 0
    ∧ dispatch (get_new_id "t1") new_id_request w1
      = (Jsonify [("id", JNum 0); ("success", JBool true)] 200, w1)
    ∧ dispatch (get_new_id "t1") new_id_request
        (set_persons (λ _, [PersonRow "t1" 41 JNull]) w1)
      = (Jsonify [("id", JNum 42); ("success", JBool true)] 200,
         set_new_ids_dict (<["t1" := 42]>) (set_persons (λ _, [PersonRow "t1" 41 JNull]) w1)).
Proof.
  eexists. split; [vm_compute; reflexivity|].
  split; [vm_compute; reflexivity|].
  split; vm_compute; reflexivity.
Qed.

(** The editor of the Smith tree follows its single-use invitation. *)
Lemma member_join_consumes_slot_witness :
  ∃ w', process_invitation "tok" "ed" smith_world = (Ok (Some "t1"), w')
    ∧ trees w' = trees smith_world
    ∧ tree_invitations w' !! "tok"
      = Some (Invitation "t1" "viewer" 1000 (Some ["ed"]) (Some 1)).
Proof.
  destruct (member_join_consumes_slot smith_world "tok" "ed"
              (Invitation "t1" "viewer" 1000 (Some []) (Some 1)) smith_tree)
    as (w' & Heq & Htrees & Hinv & _).
  - reflexivity.
  - reflexivity.
  - intros H. discriminate H.
  - reflexivity.
  - apply not_elem_of_nil.
  - right. left. apply list_elem_of_here.
  - exists w'. split; [exact Heq|]. split; [exact Htrees|exact Hinv].
Defined.

(** * The further properties on the example data *)

(** The owner of the Smith tree shares it with bob as a viewer. *)
Lemma share_tree_grants_role_witness :
  ∃ w', dispatch (share_tree "t1") share_bob_request smith_world
        = (Jsonify [("success", JBool true); ("message", JStr "User added.")] 200, w')
      ∧ access "t1" (Some "bob") w' = Some (false, true)
      ∧ access "t1" (Some "ed") w' = Some (true, true).
Proof.
  destruct (share_tree_grants_role smith_world "t1" share_bob_request smith_tree
              [("email", JStr "bob@example.org"); ("role", JStr "viewer")]
              "bob@example.org" "viewer" "bob")
    as (w' & Hrun & Hbob & Hothers & _).
  - reflexivity.
  - reflexivity.
  - reflexivity.
  - reflexivity.
  - reflexivity.
  - reflexivity.
  - discriminate.
  - right. reflexivity.
  - reflexivity.
  - discriminate.
  - discriminate.
  - intros H. apply list_elem_of_singleton in H. discriminate H.
  - intros H. apply list_elem_of_singleton in H. discriminate H.
  - exists w'. split; [exact Hrun|]. split; [exact Hbob|].
    rewrite (Hothers (Some "ed")) by discriminate. reflexivity.
Defined.

(** The owner shares the Smith tree with an address nobody has. *)
Lemma share_tree_refusals_witness :
  dispatch (share_tree "t1") share_unknown_request smith_world
  = (json_error "User with this email was not found." 404, smith_world).
Proof.
  refine (share_tree_refusals smith_world "t1" share_unknown_request smith_tree
            [("email", JStr "nobody@example.org"); ("role", JStr "viewer")]
            "nobody@example.org" "viewer" _ _ _ _ _ _ _ _).
  - reflexivity.
  - reflexivity.
  - reflexivity.
  - reflexivity.
  - reflexivity.
  - reflexivity.
  - discriminate.
  - right. reflexivity.
Defined.

(** The editor of the Smith tree tries to delete it. *)
Lemma only_owner_manages_witness :
  refused (delete_tree (delete_tree_impl demo_storage_list working_storage_remove) "t1")
    (delete_tree_request "ed") smith_world.
Proof.
  refine (only_owner_manages demo_uuid demo_storage_list working_storage_remove
            smith_world "t1" "tok" (delete_tree_request "ed") _ _ _).
  - intros t Ht. unfold smith_world, trees in Ht.
    apply lookup_singleton_Some in Ht as [_ <-]. discriminate.
  - do 5 apply list_elem_of_further. apply list_elem_of_here.
Defined.

(** The owner revokes the access of the viewer of the Smith tree. *)
Lemma revoke_tree_access_removes_rights_witness :
  ∃ w', dispatch (revoke_tree_access "t1") (revoke_request "vi") smith_world
        = (Jsonify [("success", JBool true);
                    ("message", JStr "User access successfully revoked.")] 200, w')
      ∧ access "t1" (Some "vi") smith_world = Some (false, true)
      ∧ access "t1" (Some "vi") w' = Some (false, false).
Proof.
  destruct (revoke_tree_access_removes_rights smith_world "t1" (revoke_request "vi")
              smith_tree [("user_id_to_revoke", JStr "vi")] "vi")
    as (w' & Hrun & Hvi & _).
  - reflexivity.
  - reflexivity.
  - reflexivity.
  - reflexivity.
  - reflexivity.
  - discriminate.
  - exact (smith_world_roles_wf "t1" smith_tree eq_refl).
  - right. apply list_elem_of_here.
  - exists w'. split; [exact Hrun|]. split; [reflexivity|exact Hvi].
Defined.

(** The owner shares the Smith tree with bob and takes it back. *)
Lemma share_then_revoke_restores_witness :
  let w1 := (dispatch (share_tree "t1") share_bob_request smith_world).2 in
  let w2 := (dispatch (revoke_tree_access "t1") (revoke_request "bob") w1).2 in
  access "t1" (Some "bob") w1 = Some (false, true)
  ∧ ∀ u, access "t1" u w2 = access "t1" u smith_world.
Proof.
  pose proof (share_then_revoke_restores smith_world "t1" share_bob_request
                (revoke_request "bob") smith_tree
                [("email", JStr "bob@example.org"); ("role", JStr "viewer")]
                [("user_id_to_revoke", JStr "bob")]
                "bob@example.org" "viewer" "bob"
                eq_refl eq_refl eq_refl eq_refl eq_refl eq_refl
                ltac:(discriminate) (or_intror eq_refl) eq_refl
                ltac:(discriminate) ltac:(discriminate)) as H.
  destruct H as (_ & _ & Hsame & _).
  - intros H. apply list_elem_of_singleton in H. discriminate H.
  - intros H. apply list_elem_of_singleton in H. discriminate H.
  - reflexivity.
  - reflexivity.
  - reflexivity.
  - reflexivity.
  - split; [reflexivity|exact Hsame].
Defined.

(** The owner makes the viewer of the Smith tree an editor. *)
Lemma change_tree_permission_moves_witness :
  ∃ w', dispatch (change_tree_permission "t1") promote_vi_request smith_world
        = (Jsonify [("success", JBool true);
                    ("message", JStr "User role changed.")] 200, w')
      ∧ access "t1" (Some "vi") w' = Some (true, true).
Proof.
  destruct (change_tree_permission_moves smith_world "t1" promote_vi_request
              smith_tree
              [("user_id_to_change", JStr "vi"); ("new_role", JStr "editor")]
              "vi" "editor")
    as (w' & Hrun & Hvi & _).
  - reflexivity.
  - reflexivity.
  - reflexivity.
  - reflexivity.
  - reflexivity.
  - reflexivity.
  - discriminate.
  - left. reflexivity.
  - exact (smith_world_roles_wf "t1" smith_tree eq_refl).
  - right. apply list_elem_of_here.
  - exists w'. split; [exact Hrun|exact Hvi].
Defined.

(** The invitation of the Smith tree, followed after it has expired. *)
Lemma join_by_token_invalid_witness :
  ∃ message,
    join_by_token "tok" anonymous_join_request (set_clock 2000 smith_world)
    = (Ok (invalid_link message 400, ∅), set_clock 2000 smith_world).
Proof.
  refine (join_by_token_invalid "tok" anonymous_join_request
            (set_clock 2000 smith_world) _).
  left. reflexivity.
Defined.

(** The owner of the Smith tree creates a link for two editors and bob
    follows it. *)
Lemma invitation_link_end_to_end_witness :
  let w1 := (dispatch (create_invitation demo_uuid "t1") editor_invitation_request
               smith_world).2 in
  ∃ w2, join_by_token "tok2" (api_request "GET" "/join/tok2" "bob" JNull)
          (set_clock 1 w1)
        = (Ok (Redirect (UrlFor "pages.tree_page" [("tree_id", "t1")]) 302,
               {["user_id" := "bob"]}), w2)
      ∧ access "t1" (Some "bob") smith_world = Some (false, false)
      ∧ access "t1" (Some "bob") w2 = Some (true, true).
Proof.
  destruct (invitation_link_end_to_end demo_uuid smith_world "t1"
              editor_invitation_request (api_request "GET" "/join/tok2" "bob" JNull)
              smith_tree [("role", JStr "editor"); ("limit", JNum 2)]
              "editor" (Some 2) "bob" 1)
    as (w2 & Hjoin & Hbob & _).
  - reflexivity.
  - discriminate.
  - reflexivity.
  - reflexivity.
  - reflexivity.
  - reflexivity.
  - left. reflexivity.
  - reflexivity.
  - intros n [= <-]. reflexivity.
  - reflexivity.
  - reflexivity.
  - discriminate.
  - discriminate.
  - intros H. apply list_elem_of_singleton in H. discriminate H.
  - intros H. apply list_elem_of_singleton in H. discriminate H.
  - simpl. lia.
  - exists w2. split; [exact Hjoin|]. split; [reflexivity|exact Hbob].
Defined.

(** The owner revokes the link of the Smith tree; bob follows it later. *)
Lemma revoked_link_is_dead_witness :
  ∃ w', dispatch (expire_invitation_link "t1" "tok") (expire_request "owner")
          smith_world
        = (Jsonify [("success", JBool true);
                    ("message", JStr "Invitation link successfully revoked.")] 200, w')
      ∧ (process_invitation "tok" "bob" (set_clock 5 smith_world)).1 = Ok (Some "t1")
      ∧ process_invitation "tok" "bob" (set_clock 5 w') = (Ok None, set_clock 5 w').
Proof.
  destruct (revoked_link_is_dead smith_world "t1" "tok" (expire_request "owner")
              smith_tree (Invitation "t1" "viewer" 1000 (Some []) (Some 1)))
    as (w' & Hrun & _ & _ & Hdead).
  - reflexivity.
  - reflexivity.
  - reflexivity.
  - reflexivity.
  - reflexivity.
  - exists w'. split; [exact Hrun|]. split; [reflexivity|].
    refine (proj1 (Hdead 5 "bob" anonymous_join_request _)). reflexivity.
Defined.

(** The owner of the Smith tree asks to revoke a link that does not
    exist. *)
Lemma expire_invitation_link_foreign_witness :
  dispatch (expire_invitation_link "t1" "tok9") (expire_request "owner") smith_world
  = (json_error "Invitation link not found or does not belong to this tree." 404,
     smith_world).
Proof.
  refine (expire_invitation_link_foreign smith_world "t1" "tok9"
            (expire_request "owner") smith_tree _ _ _ _).
  - reflexivity.
  - reflexivity.
  - reflexivity.
  - intros inv Hinv. discriminate Hinv.
Defined.

(** A visitor follows the link of the Smith tree and then signs in as
    bob. *)
Lemma pending_join_completes_at_sign_in_witness :
  ∃ sess2 w',
    set_session demo_auth (set_session_request (JStr "bob-access")) smith_world
    = (Ok (Jsonify [("success", JBool true); ("redirect_url", JStr "/tree/t1")] 200,
           sess2), w')
    ∧ sess2 !! "user_id" = Some "bob"
    ∧ sess2 !! "join_token" = None
    ∧ access "t1" (Some "bob") w' = Some (false, true).
Proof.
  destruct (pending_join_completes_at_sign_in demo_auth smith_world smith_world "tok"
              anonymous_join_request (set_session_request (JStr "bob-access"))
              (Invitation "t1" "viewer" 1000 (Some []) (Some 1))
              [("access_token", JStr "bob-access"); ("refresh_token", JStr "bob-refresh")]
              (JStr "bob-access") (JStr "bob-refresh") "bob" "bob@example.org")
    as (resp1 & sess1 & Hjoin & _ & _ & _ & Hsign).
  - reflexivity.
  - intros H. discriminate H.
  - reflexivity.
  - reflexivity.
  - reflexivity.
  - reflexivity.
  - reflexivity.
  - reflexivity.
  - reflexivity.
  - reflexivity.
  - assert (Hsess : sess1 = {["join_token" := "tok"]}).
    { vm_compute in Hjoin. injection Hjoin as _ <-. reflexivity. }
    destruct (Hsign (eq_sym Hsess)) as (sess2 & Hrun & Huser & _ & Htoken).
    exists sess2. eexists. split; [exact Hrun|].
    split; [exact Huser|]. split; [exact Htoken|]. reflexivity.
Defined.

(** A request to set the session without an access token. *)
Lemma set_session_refusals_witness :
  set_session demo_auth (set_session_request JNull) smith_world
  = (Ok (Jsonify [("success", JBool false); ("error", JStr "Missing tokens")] 400,
         {["join_token" := "tok"]}), smith_world).
Proof.
  refine (proj1 (set_session_refusals demo_auth smith_world (set_session_request JNull)
                   [("access_token", JNull); ("refresh_token", JStr "bob-refresh")]
                   eq_refl) _).
  left. reflexivity.
Defined.

(** The owner asks for the first identifier of the Smith tree, which has a
    person with identifier 1. *)
Lemma get_new_id_first_call_witness :
  ∃ n, dispatch (get_new_id "t1") new_id_request smith_world
       = (Jsonify [("id", JNum n); ("success", JBool true)] 200,
          set_new_ids_dict (<["t1" := n]>) smith_world)
     ∧ 1 < n.
Proof.
  destruct (get_new_id_first_call "t1" smith_world new_id_request)
    as (n & Hrun & Hlarger & _).
  - exact (owner_may_edit smith_world "/api/tree/t1/id/new" eq_refl).
  - left. reflexivity.
  - exists n. split; [exact Hrun|].
    refine (Hlarger (PersonRow "t1" 1 _) _ eq_refl). apply list_elem_of_here.
Defined.

(** The viewer of the Smith tree asks for a new identifier. *)
Lemma editing_needs_edit_right_witness :
  dispatch (get_new_id "t1") (api_request "GET" "/api/tree/t1/id/new" "vi" JNull)
    smith_world
  = (json_error "Edit permission denied" 403, smith_world).
Proof.
  refine (editing_needs_edit_right id demo_pg_int demo_batch_rpc working_storage_remove
            demo_webp demo_storage_upload smith_world "t1" "document"
            (api_request "GET" "/api/tree/t1/id/new" "vi" JNull) smith_tree "vi"
            ∅ "u1" "u2" (get_new_id "t1") _ _ _ _ _ _).
  - reflexivity.
  - reflexivity.
  - reflexivity.
  - discriminate.
  - intros H. apply list_elem_of_singleton in H. discriminate H.
  - apply list_elem_of_here.
Defined.

(** The editor of the Smith tree uploads a document. *)
Lemma upload_file_stores_under_tree_witness :
  ∃ w' message,
    dispatch (upload_file
                (upload_file_impl demo_webp demo_storage_upload
                   {["document" := will_pdf]} "u1" "u2") "t1" "document")
      (upload_request "ed") smith_world
    = (Jsonify [("success", JBool true);
                ("message", JStr message);
                ("filename", JStr "last will.final.pdf");
                ("url", JStr "/api/tree/t1/file/t1/documents/u1.pdf")] 200, w')
    ∧ persons w' = persons smith_world
    ∧ startswith "t1/documents/u1.pdf" "t1/" = true.
Proof.
  destruct (upload_file_stores_under_tree demo_webp demo_storage_upload smith_world
              "t1" "document" (upload_request "ed") smith_tree "ed"
              {["document" := will_pdf]} will_pdf "u1" "u2")
    as (w' & message & Hrun & _ & _ & Hpersons & _ & Hprefix & _).
  - reflexivity.
  - reflexivity.
  - discriminate.
  - reflexivity.
  - right. apply list_elem_of_here.
  - reflexivity.
  - right. reflexivity.
  - reflexivity.
  - discriminate.
  - reflexivity.
  - reflexivity.
  - intros H. discriminate H.
  - intros path content options. reflexivity.
  - exists w', message. split; [exact Hrun|]. split; [exact Hpersons|exact Hprefix].
Defined.

(** The owner uploads to the Smith tree with uploads switched off. *)
Lemma upload_file_refusals_witness :
  dispatch (upload_file
              (upload_file_impl demo_webp demo_storage_upload
                 {["document" := will_pdf]} "u1" "u2") "t1" "document")
    (upload_request "owner") locked_world
  = (json_error "File uploads are disabled for this tree" 403, locked_world).
Proof.
  refine (proj1 (upload_file_refusals demo_webp demo_storage_upload locked_world
                   "t1" "document" (upload_request "owner")
                   (Tree "Smith" "owner" (Some ["ed"]) (Some ["vi"]) false false false)
                   "owner" {["document" := will_pdf]} "u1" "u2" _ _ _ _ _) _).
  - reflexivity.
  - reflexivity.
  - discriminate.
  - reflexivity.
  - left. reflexivity.
  - reflexivity.
Defined.

(** The owner deletes the Smith tree. *)
Lemma delete_tree_removes_witness :
  ∃ w', dispatch (delete_tree (delete_tree_impl demo_storage_list
                                 working_storage_remove) "t1")
          (delete_tree_request "owner") smith_world
        = (Jsonify [("success", JBool true);
                    ("message", JStr "Tree successfully deleted.")] 200, w')
      ∧ trees w' !! "t1" = None
      ∧ persons w' = []
      ∧ access "t1" (Some "owner") w' = None
      ∧ process_invitation "tok" "bob" (set_clock 1 w') = (Ok None, set_clock 1 w').
Proof.
  destruct (delete_tree_removes demo_storage_list working_storage_remove smith_world
              "t1" (delete_tree_request "owner") smith_tree ["images"])
    as (w' & Hrun & Hgone & _ & Hpersons & _ & Haccess & _ & Hlinks).
  - reflexivity.
  - reflexivity.
  - reflexivity.
  - reflexivity.
  - intros _. reflexivity.
  - exists w'. split; [exact Hrun|]. split; [exact Hgone|].
    split; [rewrite Hpersons; reflexivity|]. split; [apply Haccess|].
    refine (Hlinks "tok" (Invitation "t1" "viewer" 1000 (Some []) (Some 1)) "bob" 1
              eq_refl eq_refl _).
    apply not_elem_of_nil.
Defined.

(** The owner deletes the Smith tree while the storage service is down. *)
Lemma delete_tree_partial_witness :
  ∃ w', dispatch (delete_tree (delete_tree_impl failing_storage_list
                                 working_storage_remove) "t1")
          (delete_tree_request "owner") smith_world
        = (json_error
             "An error occurred while deleting the tree: storage unavailable" 500, w')
      ∧ trees w' = trees smith_world
      ∧ persons smith_world ≠ []
      ∧ persons w' = [].
Proof.
  destruct (delete_tree_partial failing_storage_list working_storage_remove
              smith_world "t1" (delete_tree_request "owner") smith_tree
              (Exn "storage unavailable"))
    as (w' & Hrun & Htrees & Hpersons & _).
  - reflexivity.
  - reflexivity.
  - reflexivity.
  - left. reflexivity.
  - exists w'. split; [exact Hrun|]. split; [exact Htrees|].
    split; [discriminate|]. rewrite Hpersons. reflexivity.
Defined.

(** Bob, who has no role on the Smith tree, asks for its data. *)
Lemma private_tree_is_closed_witness :
  ∃ message,
    dispatch (get_family_tree_data "t1")
      (read_request "/api/tree/t1/data" {["user_id" := "bob"]} true) smith_world
    = (json_error message 403, smith_world).
Proof.
  refine (private_tree_is_closed demo_signed_url smith_world "t1" "t1/images/a.webp"
            (read_request "/api/tree/t1/data" {["user_id" := "bob"]} true)
            smith_tree (get_family_tree_data "t1") _ _ _ _).
  - reflexivity.
  - reflexivity.
  - intros u Hu. injection Hu as <-.
    split; [discriminate|].
    split; intros H; apply list_elem_of_singleton in H; discriminate H.
  - apply list_elem_of_further. apply list_elem_of_here.
Defined.

(** The viewer of the Smith tree asks for its data. *)
Lemma get_family_tree_data_answer_witness :
  dispatch (get_family_tree_data "t1")
    (read_request "/api/tree/t1/data" {["user_id" := "vi"]} true) smith_world
  = (Jsonify [("data",
               JList [JDict [("id", JNum 1);
                             ("photo", JStr "/api/tree/t1/file/t1/images/a.webp")]]);
              ("success", JBool true)] 200, smith_world).
Proof.
  refine (get_family_tree_data_answer smith_world "t1"
            (read_request "/api/tree/t1/data" {["user_id" := "vi"]} true)
            smith_tree false _ _ _).
  - reflexivity.
  - reflexivity.
  - reflexivity.
Defined.

(** The viewer of the Smith tree asks for its info. *)
Lemma get_family_tree_info_answer_witness :
  dispatch (get_family_tree_info "t1")
    (read_request "/api/tree/t1" {["user_id" := "vi"]} true) smith_world
  = (Jsonify [("exist", JBool true);
              ("success", JBool true);
              ("editable", JBool false);
              ("file", JBool true);
              ("demo", JBool false);
              ("error", JStr "")] 200, smith_world).
Proof.
  refine (get_family_tree_info_answer smith_world "t1"
            (read_request "/api/tree/t1" {["user_id" := "vi"]} true)
            smith_tree false _ _ _).
  - reflexivity.
  - reflexivity.
  - reflexivity.
Defined.

(** The owner of the Smith tree reads its data without a valid token. *)
Lemma read_routes_need_token_witness :
  dispatch (get_family_tree_data "t1")
    (read_request "/api/tree/t1/data" {["user_id" := "owner"]} false) smith_world
  = (json_error "CSRF token missing or incorrect" 403, smith_world).
Proof.
  refine (proj1 (proj2 (read_routes_need_token smith_world "t1"
            (read_request "/api/tree/t1/data" {["user_id" := "owner"]} false) _ _))).
  - reflexivity.
  - reflexivity.
Defined.

(** The example of the docstring of [clean_filename]. *)
Lemma clean_filename_drops_hash_witness :
  clean_filename "ui-a1b2c3d4.js" = "ui.js".
Proof.
  refine (clean_filename_drops_hash "ui" "a1b2c3d4" "js" _ _ _); reflexivity.
Defined.

(** The owner deletes the only person of the Smith tree; the photo of that
    person is removed from the bucket. *)
Lemma batch_delete_removes_photo_file_witness :
  ∃ w', dispatch (batch_update_persons id demo_pg_int demo_batch_rpc
                    working_storage_remove "t1") delete_person_request smith_world
        = (Jsonify [("success", JBool true);
                    ("message", JStr "Batch update successful.")] 200, w')
      ∧ persons w' = []
      ∧ "t1/images/a.webp" ∈ bucket smith_world
      ∧ "t1/images/a.webp" ∉ bucket w'.
Proof.
  eexists. split.
  - refine (batch_delete_removes_photo_file id demo_pg_int demo_batch_rpc
              working_storage_remove smith_world "t1" delete_person_request
              [("delete", JList [JNum 1])] 1
              (PersonRow "t1" 1
                 (JDict [("id", JNum 1);
                         ("photo", JStr "/api/tree/t1/file/t1/images/a.webp")]))
              [("id", JNum 1); ("photo", JStr "/api/tree/t1/file/t1/images/a.webp")]
              "t1/images/a.webp" []
              (bucket smith_world ∖ list_to_set ["t1/images/a.webp"])
              _ _ _ _ _ _ _ _ _ _ _ _ _).
    + exact (owner_may_edit smith_world "/api/tree/t1/persons/batch" eq_refl).
    + reflexivity.
    + reflexivity.
    + reflexivity.
    + reflexivity.
    + reflexivity.
    + vm_compute. reflexivity.
    + reflexivity.
    + reflexivity.
    + reflexivity.
    + vm_compute. reflexivity.
    + vm_compute. reflexivity.
    + reflexivity.
  - split; [reflexivity|]. split.
    + vm_compute. reflexivity.
    + intros H. vm_compute in H. discriminate H.
Defined.
